(** * PyKernel MCP server: the session engine

    A shallow embedding of the two source files of the repository,

      - [src/pykernel_mcp/server.py]   (module [Server] below), and
      - [pykernel_mcp.py]              (module [Script] below),

    and the properties of kernel start-up, restart and the iopub receive
    loop of [execute_python].

    The Python code talks to three things it does not define: the Jupyter
    kernel manager and client, [uuid.uuid4] and [time.time].  They are
    modelled by a [world]: for each external call the results it is going to
    give, in call order, and a log of the calls made so far.  Python
    exceptions are explicit: a call either returns or raises, and the
    attribute writes done before a raise stay done. *)

From Stdlib Require Import ZArith List String Ascii Lia.
From stdpp Require Import base option list strings gmap.
Import ListNotations.

Local Open Scope string_scope.
Local Open Scope list_scope.
Local Open Scope Z_scope.

(** ** Exceptions and results of calls *)

Inductive exn : Type :=
| TimeoutError                      (* asyncio.TimeoutError *)
| AttributeError (what : string)    (* attribute access on None *)
| RuntimeError (what : string).     (* raised by jupyter_client or zmq *)

Inductive outcome (A : Type) : Type :=
| Returned (a : A)
| Raised (e : exn).
Arguments Returned {A} a.
Arguments Raised {A} e.

#[global] Instance exn_eq_dec : EqDecision exn.
Proof. solve_decision. Defined.

(** ** Messages of the iopub channel

    [msg["parent_header"].get("msg_id")], [msg["header"]["msg_type"]] and
    [msg["content"]].  The content is a tagged union over the message types
    of the Jupyter messaging protocol that the code looks at; every other
    message type is [other]. *)

Inductive content : Type :=
| stream (text : string)                       (* content["text"] *)
| display_data (data : gmap string string)     (* content["data"] *)
| execute_result (data : gmap string string)   (* content["data"] *)
| error (traceback : list string)              (* content["traceback"] *)
| status (execution_state : string)            (* content["execution_state"] *)
| other.

Record message : Type := Message {
  parent_msg_id : option string;
  msg_content : content
}.

(** What a pending [get_iopub_msg()] is going to give: [ev_delay]
    milliseconds after the receive that waits for it began (the previous
    event taken, or the loop entered), either the next message or an
    exception of the channel. *)
Record event : Type := Event {
  ev_delay : Z;
  ev_payload : message + exn
}.

(** ** The objects and the world *)

(** The calls made on kernel managers and clients, as logged by the world.
    Managers and clients are objects; a natural number is their identity. *)
Inductive call : Type :=
| AsyncKernelManager_new (km : nat)
| start_kernel_call (km : nat)
| client_call (km kc : nat)
| start_channels_call (kc : nat)
| wait_for_ready_call (kc : nat)
| execute_call (kc : nat) (code : string) (msg_id : string)
| shutdown_kernel_call (km : nat).

Record world : Type := World {
  start_kernel_results : list (option exn);    (* of the [start_kernel()] calls to come *)
  wait_for_ready_results : list (option exn);  (* of the [wait_for_ready()] calls to come *)
  shutdown_kernel_results : list (option exn); (* of the [shutdown_kernel()] calls to come *)
  uuid4_values : list string;                  (* of the [uuid.uuid4()] calls to come *)
  time_values : list Z;                        (* of the [time.time()] calls to come, in ms *)
  execute_msg_ids : list string;               (* of the [kc.execute()] calls to come *)
  iopub : list event;                          (* what the iopub channel will deliver *)
  next_object : nat;                           (* the next new object *)
  calls : list call                            (* the calls made so far, oldest first *)
}.

(** [class KernelState] *)
Record KernelState : Type := mkKernelState {
  km : option nat;
  kc : option nat;
  kernel_id : string;
  start_time : Z;
  session_api_url : option string;
  session_id : option string
}.

Record machine : Type := Machine {
  state : KernelState;
  env : world
}.

(** ** The monad of the Python code: state, world and exceptions *)

Definition M (A : Type) : Type := machine -> outcome A * machine.

Definition ret {A} (a : A) : M A := fun m => (Returned a, m).

Definition bind {A B} (c : M A) (k : A -> M B) : M B :=
  fun m => match c m with
           | (Returned a, m') => k a m'
           | (Raised e, m') => (Raised e, m')
           end.

Definition raise {A} (e : exn) : M A := fun m => (Raised e, m).

Declare Scope py_scope.
Delimit Scope py_scope with py.
Notation "'let*' x := c 'in' k" := (bind c (fun x => k))
  (at level 10, x pattern, c at level 100, k at level 200) : py_scope.
Notation "c ;; k" := (bind c (fun _ => k))
  (at level 100, k at level 200, right associativity) : py_scope.
Local Open Scope py_scope.

Definition get_state : M KernelState := fun m => (Returned (state m), m).

Definition set_state (s : KernelState) : M unit :=
  fun m => (Returned tt, Machine s (env m)).

Definition get_env : M world := fun m => (Returned (env m), m).

Definition set_env (w : world) : M unit :=
  fun m => (Returned tt, Machine (state m) w).

(** Attribute writes on [state]. *)
Definition set_km (v : option nat) : M unit :=
  let* s := get_state in
  set_state (mkKernelState v (kc s) (kernel_id s) (start_time s)
                           (session_api_url s) (session_id s)).

Definition set_kc (v : option nat) : M unit :=
  let* s := get_state in
  set_state (mkKernelState (km s) v (kernel_id s) (start_time s)
                           (session_api_url s) (session_id s)).

Definition set_kernel_id (v : string) : M unit :=
  let* s := get_state in
  set_state (mkKernelState (km s) (kc s) v (start_time s)
                           (session_api_url s) (session_id s)).

Definition set_start_time (v : Z) : M unit :=
  let* s := get_state in
  set_state (mkKernelState (km s) (kc s) (kernel_id s) v
                           (session_api_url s) (session_id s)).

(** ** The external calls *)

Definition log (c : call) (w : world) : world :=
  World (start_kernel_results w) (wait_for_ready_results w)
        (shutdown_kernel_results w) (uuid4_values w) (time_values w)
        (execute_msg_ids w) (iopub w) (next_object w) (calls w ++ [c]).

(** The result lists: [None] is success, and a list that is used up answers
    success. *)
Definition finish (r : option exn) : M unit :=
  match r with
  | None => ret tt
  | Some e => raise e
  end.

(** [AsyncKernelManager()]: a new object. *)
Definition AsyncKernelManager : M nat :=
  let* w := get_env in
  let k := next_object w in
  set_env (log (AsyncKernelManager_new k)
    (World (start_kernel_results w) (wait_for_ready_results w)
           (shutdown_kernel_results w) (uuid4_values w) (time_values w)
           (execute_msg_ids w) (iopub w) (S k) (calls w)));;
  ret k.

(** [await km.start_kernel()]: spawns the worker process, or raises. *)
Definition start_kernel (k : nat) : M unit :=
  let* w := get_env in
  set_env (log (start_kernel_call k)
    (World (tl (start_kernel_results w)) (wait_for_ready_results w)
           (shutdown_kernel_results w) (uuid4_values w) (time_values w)
           (execute_msg_ids w) (iopub w) (next_object w) (calls w)));;
  finish (hd None (start_kernel_results w)).

(** [km.client()]: a new client object. *)
Definition client (k : nat) : M nat :=
  let* w := get_env in
  let c := next_object w in
  set_env (log (client_call k c)
    (World (start_kernel_results w) (wait_for_ready_results w)
           (shutdown_kernel_results w) (uuid4_values w) (time_values w)
           (execute_msg_ids w) (iopub w) (S c) (calls w)));;
  ret c.

(** [kc.start_channels()] *)
Definition start_channels (c : nat) : M unit :=
  let* w := get_env in
  set_env (log (start_channels_call c) w).

(** [await kc.wait_for_ready()]: the readiness handshake, or raises. *)
Definition wait_for_ready (c : nat) : M unit :=
  let* w := get_env in
  set_env (log (wait_for_ready_call c)
    (World (start_kernel_results w) (tl (wait_for_ready_results w))
           (shutdown_kernel_results w) (uuid4_values w) (time_values w)
           (execute_msg_ids w) (iopub w) (next_object w) (calls w)));;
  finish (hd None (wait_for_ready_results w)).

(** [await km.shutdown_kernel()], or raises. *)
Definition shutdown_kernel (k : nat) : M unit :=
  let* w := get_env in
  set_env (log (shutdown_kernel_call k)
    (World (start_kernel_results w) (wait_for_ready_results w)
           (tl (shutdown_kernel_results w)) (uuid4_values w) (time_values w)
           (execute_msg_ids w) (iopub w) (next_object w) (calls w)));;
  finish (hd None (shutdown_kernel_results w)).

(** [kc.execute(code)]: sends an execute request on the shell channel and
    returns the identifier of the request. *)
Definition kc_execute (c : nat) (code : string) : M string :=
  let* w := get_env in
  let i := hd EmptyString (execute_msg_ids w) in
  set_env (log (execute_call c code i)
    (World (start_kernel_results w) (wait_for_ready_results w)
           (shutdown_kernel_results w) (uuid4_values w) (time_values w)
           (tl (execute_msg_ids w)) (iopub w) (next_object w) (calls w)));;
  ret i.

(** [str(uuid.uuid4())] *)
Definition uuid4 : M string :=
  let* w := get_env in
  set_env (World (start_kernel_results w) (wait_for_ready_results w)
           (shutdown_kernel_results w) (tl (uuid4_values w)) (time_values w)
           (execute_msg_ids w) (iopub w) (next_object w) (calls w));;
  ret (hd EmptyString (uuid4_values w)).

(** [time.time()], in milliseconds. *)
Definition time_time : M Z :=
  let* w := get_env in
  set_env (World (start_kernel_results w) (wait_for_ready_results w)
           (shutdown_kernel_results w) (uuid4_values w) (tl (time_values w))
           (execute_msg_ids w) (iopub w) (next_object w) (calls w));;
  ret (hd 0 (time_values w)).

(** [state.kc.<method>]: the attribute access fails on [None]. *)
Definition the_kc (method : string) : M nat :=
  let* s := get_state in
  match kc s with
  | Some c => ret c
  | None => raise (AttributeError method)
  end.

Definition the_km (method : string) : M nat :=
  let* s := get_state in
  match km s with
  | Some k => ret k
  | None => raise (AttributeError method)
  end.

(** [KernelState.__init__], as run by [state = KernelState()]. *)
Definition KernelState_init : M unit :=
  let* u := uuid4 in
  let* t := time_time in
  set_state (mkKernelState None None u t None None).

(** [KernelState.get_uptime] *)
Definition get_uptime : M Z :=
  let* now := time_time in
  let* s := get_state in
  ret (now - start_time s).

(** ** The receive loop of [execute_python]

    [while True: try: msg = await asyncio.wait_for(state.kc.get_iopub_msg(),
    timeout=30.0) ... except asyncio.TimeoutError: ...; break].

    The two source files differ in the accumulators and in the [if]/[elif]
    chain over the message type; the loop around them is the same, and is
    written once over the accumulator type [A], the chain [dispatch] and the
    [except] clause [on_timeout]. *)

(** [timeout=30.0] seconds, in milliseconds. *)
Definition RECEIVE_TIMEOUT : Z := 30000.

(** What the chain does with a message of the current request. *)
Inductive step (A : Type) : Type :=
| Continue (a : A)     (* falls through to the next iteration *)
| Break (a : A).       (* the [break] of the idle branch *)
Arguments Continue {A} a.
Arguments Break {A} a.

(** Which [break] left the loop. *)
Inductive loop_exit : Type :=
| idle_break
| timeout_break.

#[global] Instance loop_exit_eq_dec : EqDecision loop_exit.
Proof. solve_decision. Defined.

(** [await asyncio.wait_for(state.kc.get_iopub_msg(), timeout=30.0)] on a
    channel that is going to deliver [ch]: the head event arrives within the
    budget and is taken off the channel, or the wait is cancelled after the
    budget and the event stays pending, that much closer.  A channel with
    nothing to come only times out.  The budget belongs to this one call. *)
Definition wait_for_iopub_msg (ch : list event) : outcome message * list event :=
  match ch with
  | [] => (Raised TimeoutError, [])
  | ev :: rest =>
      if bool_decide (ev_delay ev <= RECEIVE_TIMEOUT) then
        (match ev_payload ev with
         | inl msg => Returned msg
         | inr e => Raised e
         end, rest)
      else
        (Raised TimeoutError,
         Event (ev_delay ev - RECEIVE_TIMEOUT) (ev_payload ev) :: rest)
  end.

Inductive iteration (A : Type) : Type :=
| Next (a : A)                     (* [continue], or the end of the body *)
| Leave (x : loop_exit) (a : A)    (* [break] *)
| Throw (e : exn).                 (* an exception leaves the loop *)
Arguments Next {A} a.
Arguments Leave {A} x a.
Arguments Throw {A} e.

Section ReceiveLoop.
Context {A : Type}.
Variable dispatch : content -> A -> step A.
Variable on_timeout : A -> A.

(** One iteration, given what the [wait_for] gave. *)
Definition loop_body (msg_id : string) (r : outcome message) (a : A)
  : iteration A :=
  match r with
  | Returned msg =>
      if bool_decide (parent_msg_id msg <> Some msg_id) then Next a
      else match dispatch (msg_content msg) a with
           | Continue a' => Next a'
           | Break a' => Leave idle_break a'
           end
  | Raised TimeoutError => Leave timeout_break (on_timeout a)
  | Raised e => Throw e
  end.

(** The loop: [wait_for_iopub_msg], then [loop_body], until the body leaves
    ([receive_loop_unfold] below).  The recursion is on the events still to
    come, so the two cases of a wait that times out, where the loop ends,
    are written out: an iteration that goes round again has taken an event
    off the channel. *)
Fixpoint receive_loop (msg_id : string) (ch : list event) (a : A)
  : outcome (loop_exit * A) * list event :=
  match ch with
  | [] => (Returned (timeout_break, on_timeout a), [])
  | ev :: rest =>
      if bool_decide (ev_delay ev <= RECEIVE_TIMEOUT) then
        match loop_body msg_id
                (match ev_payload ev with
                 | inl msg => Returned msg
                 | inr e => Raised e
                 end) a with
        | Next a' => receive_loop msg_id rest a'
        | Leave x a' => (Returned (x, a'), rest)
        | Throw e => (Raised e, rest)
        end
      else
        (Returned (timeout_break, on_timeout a),
         Event (ev_delay ev - RECEIVE_TIMEOUT) (ev_payload ev) :: rest)
  end.

(** The loop on the channel of the world. *)
Definition run_receive_loop (msg_id : string) (a : A) : M (loop_exit * A) :=
  fun m =>
    let w := env m in
    let '(r, ch) := receive_loop msg_id (iopub w) a in
    (r, Machine (state m)
          (World (start_kernel_results w) (wait_for_ready_results w)
                 (shutdown_kernel_results w) (uuid4_values w) (time_values w)
                 (execute_msg_ids w) ch (next_object w) (calls w))).
End ReceiveLoop.

(** ** What [execute_python] returns *)

Definition LF : string := String "010"%char EmptyString.

(** ["\n".join(l)] *)
Definition join_lines (l : list string) : string := String.concat LF l.

(** The parts of the HTML page of the result that depend on the execution.
    The template shows a section when its text (or list) is non-empty, and
    the success line when both texts are empty. *)
Record ui_html : Type := UiHtml {
  ui_kernel : option (string * Z);   (* kernel id prefix and uptime, [Script] only *)
  ui_code : string;
  ui_images : list string;
  ui_output : option string;
  ui_errors : option string;
  ui_success : bool
}.

Inductive payload : Type :=
| Blob (b : string)      (* "blob": base64 data *)
| Html (h : ui_html).    (* "text": the HTML page *)

Inductive part : Type :=
| TextContent (text : string)
| KernelInfo (id_prefix : string) (uptime : Z)
   (* TextContent whose text is
      f"**Kernel Info:** ID: `{state.kernel_id[:8]}...` | Uptime: `{uptime:.1f}s`" *)
| EmbeddedResource (uri mimeType : string) (p : payload).

(** Python's truth value of a string, as the section it guards. *)
Definition if_nonempty (s : string) : option string :=
  match s with
  | EmptyString => None
  | _ => Some s
  end.

Definition is_empty_string (s : string) : bool :=
  match s with
  | EmptyString => true
  | _ => false
  end.

Definition is_nil {X} (l : list X) : bool :=
  match l with
  | [] => true
  | _ => false
  end.

Definition TIMEOUT_NOTICE : string := "Execution timed out after 30 seconds".

(** ** [src/pykernel_mcp/server.py] *)

Module Server.

Definition IMPORTS : string :=
  "import numpy as np" +:+ LF +:+ "import pandas as pd" +:+ LF +:+
  "import matplotlib.pyplot as plt" +:+ LF.

(** [KernelState.ensure_started] *)
Definition ensure_started : M unit :=
  let* s := get_state in
  match km s with
  | None =>
      let* k := AsyncKernelManager in
      set_km (Some k);;
      let* k := the_km "start_kernel" in
      start_kernel k;;
      let* k := the_km "client" in
      let* c := client k in
      set_kc (Some c);;
      let* c := the_kc "start_channels" in
      start_channels c;;
      let* c := the_kc "wait_for_ready" in
      wait_for_ready c;;
      let* c := the_kc "execute" in
      kc_execute c IMPORTS;;
      let* c := the_kc "execute" in
      kc_execute c "%matplotlib inline";;
      let* u := uuid4 in
      set_kernel_id u;;
      let* t := time_time in
      set_start_time t
  | Some _ => ret tt
  end.

(** [outputs], [errors], [images] *)
Record acc : Type := Acc {
  outputs : list string;
  errors : list string;
  images : list string
}.

(** The [if msg_type == ...] chain. *)
Definition dispatch (c : content) (a : acc) : step acc :=
  match c with
  | stream text => Continue (Acc (outputs a ++ [text]) (errors a) (images a))
  | display_data data =>
      match data !! "image/png" with
      | Some img => Continue (Acc (outputs a) (errors a) (images a ++ [img]))
      | None => Continue a
      end
  | execute_result data =>
      Continue (Acc (outputs a ++ [default EmptyString (data !! "text/plain")])
                    (errors a) (images a))
  | error traceback => Continue (Acc (outputs a) (errors a ++ traceback) (images a))
  | status execution_state =>
      if bool_decide (execution_state = "idle") then Break a else Continue a
  | other => Continue a
  end.

(** [except asyncio.TimeoutError: errors.append(...)] *)
Definition on_timeout (a : acc) : acc :=
  Acc (outputs a) (errors a ++ [TIMEOUT_NOTICE]) (images a).

(** [html_result] *)
Definition html_result (code error_text output_text : string)
           (imgs : list string) : ui_html :=
  UiHtml None code imgs (if_nonempty output_text) (if_nonempty error_text)
         (is_empty_string output_text && is_empty_string error_text).

(** [execute_python] up to the end of the loop. *)
Definition receive (code : string) : M (loop_exit * acc) :=
  ensure_started;;
  let* c := the_kc "execute" in
  let* msg_id := kc_execute c code in
  run_receive_loop dispatch on_timeout msg_id (Acc [] [] []).

(** [for img_data in images: result_parts.append(EmbeddedResource(...))] *)
Fixpoint image_parts (imgs : list string) : M (list part) :=
  match imgs with
  | [] => ret []
  | img_data :: rest =>
      let* u := uuid4 in
      let* ps := image_parts rest in
      ret (EmbeddedResource ("image://pykernel/" +:+ u +:+ ".png") "image/png"
                            (Blob img_data) :: ps)
  end.

Definition output_part (outs : list string) : list part :=
  if is_nil outs then []
  else [TextContent ("**Output:**" +:+ LF +:+ "```" +:+ LF +:+ join_lines outs
                       +:+ LF +:+ "```")].

Definition error_part (errs : list string) : list part :=
  if is_nil errs then []
  else [TextContent ("**Errors:**" +:+ LF +:+ "```python" +:+ LF +:+ join_lines errs
                       +:+ LF +:+ "```")].

Definition SUCCESS : string := "✓ Code executed successfully".

Definition success_part (a : acc) : list part :=
  if is_nil (outputs a) && is_nil (errors a) && is_nil (images a)
  then [TextContent SUCCESS] else [].

(** [execute_python] after the loop. *)
Definition result_parts (code : string) (a : acc) : M (list part) :=
  let* uptime := get_uptime in
  let* s := get_state in
  let* imgs := image_parts (images a) in
  let output_text := if is_nil (outputs a) then EmptyString else join_lines (outputs a) in
  let error_text := if is_nil (errors a) then EmptyString else join_lines (errors a) in
  let ui := html_result code error_text output_text (images a) in
  let* u := uuid4 in
  ret ([KernelInfo (substring 0%nat 8%nat (kernel_id s)) uptime;
        TextContent ("**Executed:**" +:+ LF +:+ "```python" +:+ LF +:+ code +:+ LF +:+ "```")]
         ++ imgs ++ output_part (outputs a) ++ error_part (errors a)
         ++ success_part a
         ++ [EmbeddedResource ("ui://pykernel_mcp/result-" +:+ u) "text/html" (Html ui)]).

Definition execute_python (code : string) : M (list part) :=
  let* r := receive code in
  result_parts code (snd r).

(** [install_package] *)
Definition install_package (package : string) : M (list part) :=
  execute_python ("%pip install " +:+ package).

(** [restart_kernel] *)
Definition restart_kernel : M string :=
  let* s := get_state in
  match km s with
  | Some k =>
      shutdown_kernel k;;
      set_km None;;
      set_kc None
  | None => ret tt
  end;;
  ensure_started;;
  let* s := get_state in
  ret ("Kernel restarted. New ID: " +:+ kernel_id s).

End Server.

(** ** [pykernel_mcp.py] *)

Module Script.

(** [KernelState.ensure_started]: "Start kernel if not already running" *)
Definition ensure_started : M unit :=
  let* s := get_state in
  match km s with
  | None =>
      let* k := AsyncKernelManager in
      set_km (Some k);;
      let* k := the_km "start_kernel" in
      start_kernel k;;
      let* k := the_km "client" in
      let* c := client k in
      set_kc (Some c);;
      let* c := the_kc "start_channels" in
      start_channels c;;
      let* c := the_kc "wait_for_ready" in
      wait_for_ready c;;
      let* u := uuid4 in
      set_kernel_id u;;
      let* t := time_time in
      set_start_time t
  | Some _ => ret tt
  end.

(** [outputs], [errors] *)
Record acc : Type := Acc {
  outputs : list string;
  errors : list string
}.

(** The [if msg_type == ...] chain. *)
Definition dispatch (c : content) (a : acc) : step acc :=
  match c with
  | stream text => Continue (Acc (outputs a ++ [text]) (errors a))
  | execute_result data =>
      Continue (Acc (outputs a ++ [default EmptyString (data !! "text/plain")])
                    (errors a))
  | error traceback => Continue (Acc (outputs a) (errors a ++ traceback))
  | status execution_state =>
      if bool_decide (execution_state = "idle") then Break a else Continue a
  | display_data _ | other => Continue a
  end.

(** [except asyncio.TimeoutError: errors.append(...)] *)
Definition on_timeout (a : acc) : acc :=
  Acc (outputs a) (errors a ++ [TIMEOUT_NOTICE]).

(** [execute_python] up to the end of the loop. *)
Definition receive (code : string) : M (loop_exit * acc) :=
  ensure_started;;
  let* c := the_kc "execute" in
  let* msg_id := kc_execute c code in
  run_receive_loop dispatch on_timeout msg_id (Acc [] []).

Definition output_part (outs : list string) : list part :=
  if is_nil outs then []
  else [TextContent ("**Output:**" +:+ LF +:+ "```" +:+ LF +:+ join_lines outs
                       +:+ LF +:+ "```")].

Definition error_part (errs : list string) : list part :=
  if is_nil errs then []
  else [TextContent ("**Errors:**" +:+ LF +:+ "```python" +:+ LF +:+ join_lines errs
                       +:+ LF +:+ "```")].

Definition SUCCESS : string := "✓ Code executed successfully (no output)".

Definition success_part (a : acc) : list part :=
  if is_nil (outputs a) && is_nil (errors a)
  then [TextContent SUCCESS] else [].

(** [execute_python] after the loop. *)
Definition result_parts (code : string) (a : acc) : M (list part) :=
  let* uptime := get_uptime in
  let* s := get_state in
  let output_text := if is_nil (outputs a) then EmptyString else join_lines (outputs a) in
  let error_text := if is_nil (errors a) then EmptyString else join_lines (errors a) in
  let* s' := get_state in
  let ui := UiHtml (Some (substring 0%nat 8%nat (kernel_id s'), uptime)) code []
                   (if_nonempty output_text) (if_nonempty error_text)
                   (is_empty_string output_text && is_empty_string error_text) in
  let* u := uuid4 in
  ret ([KernelInfo (substring 0%nat 8%nat (kernel_id s)) uptime;
        TextContent ("**Executed:**" +:+ LF +:+ "```python" +:+ LF +:+ code +:+ LF +:+ "```")]
         ++ output_part (outputs a) ++ error_part (errors a)
         ++ success_part a
         ++ [EmbeddedResource ("ui://python-kernel/result-" +:+ u) "text/html" (Html ui)]).

Definition execute_python (code : string) : M (list part) :=
  let* r := receive code in
  result_parts code (snd r).

(** [kernel_status] *)
Inductive status_report : Type :=
| NoKernelRunning                               (* "No kernel running" *)
| KernelStatus (id : string) (uptime : Z).      (* "Kernel Status: ... Running: Yes" *)

Definition kernel_status : M status_report :=
  let* s := get_state in
  match km s with
  | None => ret NoKernelRunning
  | Some _ =>
      let* uptime := get_uptime in
      let* s := get_state in
      ret (KernelStatus (kernel_id s) uptime)
  end.

(** [restart_kernel] *)
Definition restart_kernel : M string :=
  let* s := get_state in
  match km s with
  | Some k =>
      shutdown_kernel k;;
      set_km None;;
      set_kc None
  | None => ret tt
  end;;
  ensure_started;;
  let* s := get_state in
  ret ("Kernel restarted. New ID: " +:+ kernel_id s).

End Script.

(** ** Vocabulary for channels and results *)

(** The event arrives within the budget of the receive that waits for it. *)
Definition in_time (ev : event) : Prop := ev_delay ev <= RECEIVE_TIMEOUT.

(** [msg["parent_header"].get("msg_id") == msg_id] *)
Definition tagged (msg_id : string) (m : message) : Prop :=
  parent_msg_id m = Some msg_id.

#[global] Instance tagged_dec msg_id m : Decision (tagged msg_id m).
Proof. unfold tagged. apply _. Defined.

(** The idle marker of request [msg_id]. *)
Definition idle_for (msg_id : string) (m : message) : Prop :=
  tagged msg_id m /\ msg_content m = status "idle".

(** An event the loop of request [msg_id] receives and goes on after: a
    message in time that is not the idle marker of the request. *)
Definition passes (msg_id : string) (ev : event) : Prop :=
  in_time ev /\ exists m, ev_payload ev = inl m /\ ~ idle_for msg_id m.

(** The messages among events. *)
Definition arrived (evs : list event) : list message :=
  omap (fun ev => match ev_payload ev with
                  | inl m => Some m
                  | inr _ => None
                  end) evs.

(** How a channel looks to the loop of a request: events that pass, and
    then silence, or the first event that does not pass. *)
Inductive channel_view (msg_id : string) (ch : list event) : Type :=
| runs_dry :
    Forall (passes msg_id) ch -> channel_view msg_id ch
| ends_idle pre d m post :
    ch = pre ++ Event d (inl m) :: post ->
    Forall (passes msg_id) pre -> d <= RECEIVE_TIMEOUT -> idle_for msg_id m ->
    channel_view msg_id ch
| ends_late pre d p post :
    ch = pre ++ Event d p :: post ->
    Forall (passes msg_id) pre -> RECEIVE_TIMEOUT < d ->
    channel_view msg_id ch
| ends_failed pre d e post :
    ch = pre ++ Event d (inr e) :: post ->
    Forall (passes msg_id) pre -> d <= RECEIVE_TIMEOUT ->
    channel_view msg_id ch.

Section Absorb.
Context {A : Type}.
Variable dispatch : content -> A -> step A.

(** The accumulators after one more received message. *)
Definition absorb (msg_id : string) (a : A) (m : message) : A :=
  if bool_decide (parent_msg_id m <> Some msg_id) then a
  else match dispatch (msg_content m) a with
       | Continue a' => a'
       | Break a' => a'
       end.
End Absorb.

(** The three lists of the Result as the design document words them, message
    by message in arrival order, for the messages tagged [msg_id]:
    stream text and the final value go to the text output, the traceback
    lines of an error message to the error list, an image payload of a
    display message to the artifacts. *)
Definition spec_text_of (msg_id : string) (m : message) : list string :=
  if bool_decide (tagged msg_id m) then
    match msg_content m with
    | stream text => [text]
    | execute_result data => [default EmptyString (data !! "text/plain")]
    | _ => []
    end
  else [].

Definition spec_errors_of (msg_id : string) (m : message) : list string :=
  if bool_decide (tagged msg_id m) then
    match msg_content m with
    | error traceback => traceback
    | _ => []
    end
  else [].

Definition spec_artifacts_of (msg_id : string) (m : message) : list string :=
  if bool_decide (tagged msg_id m) then
    match msg_content m with
    | display_data data =>
        match data !! "image/png" with
        | Some img => [img]
        | None => []
        end
    | _ => []
    end
  else [].

Definition spec_text_output (msg_id : string) (ms : list message) : list string :=
  flat_map (spec_text_of msg_id) ms.

Definition spec_error_list (msg_id : string) (ms : list message) : list string :=
  flat_map (spec_errors_of msg_id) ms.

Definition spec_artifacts (msg_id : string) (ms : list message) : list string :=
  flat_map (spec_artifacts_of msg_id) ms.

(** The machine after [kc.execute(code)] and a receive loop that left [ch]
    on the channel. *)
Definition after_receive (m : machine) (c : nat) (code : string)
           (ch : list event) : machine :=
  let w := env m in
  Machine (state m)
    (World (start_kernel_results w) (wait_for_ready_results w)
           (shutdown_kernel_results w) (uuid4_values w) (time_values w)
           (tl (execute_msg_ids w)) ch (next_object w)
           (calls w ++ [execute_call c code (hd EmptyString (execute_msg_ids w))])).

(** The world after reading the clock once and drawing [n] uuids. *)
Definition after_result (n : nat) (m : machine) : machine :=
  let w := env m in
  Machine (state m)
    (World (start_kernel_results w) (wait_for_ready_results w)
           (shutdown_kernel_results w) (drop n (uuid4_values w))
           (tl (time_values w)) (execute_msg_ids w) (iopub w)
           (next_object w) (calls w)).

(** The image parts, given the uuids to come. *)
Fixpoint image_resources (us imgs : list string) : list part :=
  match imgs with
  | [] => []
  | img_data :: rest =>
      EmbeddedResource ("image://pykernel/" +:+ hd EmptyString us +:+ ".png")
                       "image/png" (Blob img_data)
        :: image_resources (tl us) rest
  end.

(** The base64 payloads of the binary resources of a Result, in order. *)
Definition image_blobs (parts : list part) : list string :=
  omap (fun p => match p with
                 | EmbeddedResource _ _ (Blob b) => Some b
                 | _ => None
                 end) parts.

(** The HTML page of a Result: its last part. *)
Definition html_page (parts : list part) : option ui_html :=
  match last parts with
  | Some (EmbeddedResource _ _ (Html h)) => Some h
  | _ => None
  end.

(** The stream messages of a request that prints [texts], and the events
    that deliver them, each text after its delay. *)
Definition stream_messages (msg_id : string) (texts : list string) : list message :=
  map (fun t => Message (Some msg_id) (stream t)) texts.

Definition stream_events (msg_id : string) (timed : list (Z * string)) : list event :=
  map (fun p => Event (fst p) (inl (Message (Some msg_id) (stream (snd p))))) timed.

(** The channels on which the loop of a request ends by a timeout, after
    the events [pre]: nothing more ever comes, or the next event is late
    (and stays pending), or the channel itself fails with a timeout.  [ch']
    is what is left on the channel. *)
Definition times_out_after (msg_id : string) (ch pre ch' : list event) : Prop :=
  Forall (passes msg_id) pre /\
  ((ch = pre /\ ch' = []) \/
   (exists d p post, ch = pre ++ Event d p :: post /\ RECEIVE_TIMEOUT < d /\
                     ch' = Event (d - RECEIVE_TIMEOUT) p :: post) \/
   (exists d, ch = pre ++ Event d (inr TimeoutError) :: ch' /\ d <= RECEIVE_TIMEOUT)).

(** ** Two calls of [execute_python] on one event loop

    [execute_python] is a coroutine: at each [await asyncio.wait_for(...)]
    it is suspended and the event loop may run another call.  Nothing in
    either source file takes a lock.  With the kernel started, a call runs
    from its start to its first receive ([kc.execute] gives it its request
    identifier), and then from one receive to the next.  The calls share
    the client, so a message of the iopub channel goes to whichever pending
    receive the event loop hands it to. *)

Inductive caller : Type := first | second.

Inductive task (A : Type) : Type :=
| Called (code : string)                           (* not yet run *)
| Waiting (msg_id : string) (a : A)                (* suspended in the loop *)
| Finished (msg_id : string) (x : loop_exit) (a : A)
| Crashed (msg_id : string) (e : exn).
Arguments Called {A} code.
Arguments Waiting {A} msg_id a.
Arguments Finished {A} msg_id x a.
Arguments Crashed {A} msg_id e.

(** What the event loop does next. *)
Inductive action : Type :=
| run_call (who : caller)    (* runs a new call up to its first receive *)
| deliver (who : caller)     (* hands the next message to that call's receive *)
| expire (who : caller).     (* lets that call's receive time out *)

Record tasks (A : Type) : Type := Tasks {
  task1 : task A;
  task2 : task A;
  msg_ids : list string;      (* the identifiers [kc.execute] will give *)
  channel : list message      (* what the kernel will publish *)
}.
Arguments Tasks {A} task1 task2 msg_ids channel.
Arguments task1 {A} t.
Arguments task2 {A} t.
Arguments msg_ids {A} t.
Arguments channel {A} t.

Section EventLoop.
Context {A : Type}.
Variable dispatch : content -> A -> step A.
Variable on_timeout : A -> A.
Variable empty : A.

Definition task_of (who : caller) (t : tasks A) : task A :=
  match who with
  | first => task1 t
  | second => task2 t
  end.

Definition set_task (who : caller) (k : task A) (t : tasks A) : tasks A :=
  match who with
  | first => Tasks k (task2 t) (msg_ids t) (channel t)
  | second => Tasks (task1 t) k (msg_ids t) (channel t)
  end.

(** The suspended call [who] resumes with the result [r] of its receive and
    runs one iteration of the loop. *)
Definition resume (who : caller) (r : outcome message) (t : tasks A) : tasks A :=
  match task_of who t with
  | Waiting msg_id a =>
      set_task who
        (match loop_body dispatch on_timeout msg_id r a with
         | Next a' => Waiting msg_id a'
         | Leave x a' => Finished msg_id x a'
         | Throw e => Crashed msg_id e
         end) t
  | _ => t
  end.

Definition event_loop_step (t : tasks A) (act : action) : tasks A :=
  match act with
  | run_call who =>
      match task_of who t with
      | Called code =>
          set_task who (Waiting (hd EmptyString (msg_ids t)) empty)
                   (Tasks (task1 t) (task2 t) (tl (msg_ids t)) (channel t))
      | _ => t
      end
  | deliver who =>
      match task_of who t, channel t with
      | Waiting _ _, m :: rest =>
          resume who (Returned m) (Tasks (task1 t) (task2 t) (msg_ids t) rest)
      | _, _ => t
      end
  | expire who => resume who (Raised TimeoutError) t
  end.

Definition event_loop (schedule : list action) (t : tasks A) : tasks A :=
  fold_left event_loop_step schedule t.

(** Both calls are between their [kc.execute] and the end of their loop. *)
Definition both_in_flight (t : tasks A) : Prop :=
  match task1 t, task2 t with
  | Waiting _ _, Waiting _ _ => True
  | _, _ => False
  end.
End EventLoop.

(** What a call has gathered comes from the messages tagged with its own
    request identifier among the messages [seen] taken off the channel so
    far, in their order; a finished call may have the timeout notice at the
    end of its errors.  [outs], [errs] and [imgs] read the three lists off
    the accumulators. *)
Definition gathered {A : Type} (outs errs imgs : A -> list string)
           (seen : list message) (k : task A) : Prop :=
  match k with
  | Waiting msg_id a =>
      sublist (outs a) (spec_text_output msg_id seen) /\
      sublist (errs a) (spec_error_list msg_id seen) /\
      sublist (imgs a) (spec_artifacts msg_id seen)
  | Finished msg_id _ a =>
      sublist (outs a) (spec_text_output msg_id seen) /\
      sublist (errs a) (spec_error_list msg_id seen ++ [TIMEOUT_NOTICE]) /\
      sublist (imgs a) (spec_artifacts msg_id seen)
  | _ => True
  end.

(** Two calls, [print('A')] and [print('B')], and what the kernel publishes
    for them. *)
Definition two_calls : tasks Server.acc :=
  Tasks (Called "print('A')") (Called "print('B')") ["m1"; "m2"]
        [Message (Some "m1") (stream "A"); Message (Some "m1") (status "idle");
         Message (Some "m2") (stream "B"); Message (Some "m2") (status "idle")].

(** The calls one after the other. *)
Definition serial_schedule : list action :=
  [run_call first; deliver first; deliver first;
   run_call second; deliver second; deliver second].

(** Both calls started, the pending receives served in turn. *)
Definition interleaved_schedule : list action :=
  [run_call first; run_call second;
   deliver first; deliver second; deliver first; deliver second;
   expire first].

(** ** Concrete runs *)

Definition fresh_state : KernelState :=
  mkKernelState None None "00000000-init" 0 None None.

Definition started_state : KernelState :=
  mkKernelState (Some 0%nat) (Some 1%nat) "3f2a9c1e-old" 500 None None.

Definition quiet_world (ch : list event) : world :=
  World [] [] [] ["uuid-a"; "uuid-b"; "uuid-c"; "uuid-d"] [1000; 3500; 9000]
        ["m1"; "m2"; "m3"; "m4"] ch 2 [].

Definition msg (id : string) (c : content) : event :=
  Event 10 (inl (Message (Some id) c)).

(** A world in which the kernel process cannot be spawned. *)
Definition no_kernel_world : world :=
  World [Some (RuntimeError "kernel died")] [] [] ["uuid-a"; "uuid-b"] [1000; 2000]
        ["m1"; "m2"] [] 0 [].

(** A world in which the running kernel cannot be shut down. *)
Definition stuck_kernel_world : world :=
  World [] [] [Some (RuntimeError "shutdown failed")] ["uuid-a"; "uuid-b"]
        [1000; 2000] ["m1"; "m2"] [] 2 [].

(** A started session whose channel is severed after one stream message. *)
Definition severed_machine : machine :=
  Machine started_state
    (quiet_world [msg "m1" (stream "partial");
                  Event 5 (inr (RuntimeError "channel closed"))]).

(** A started session on which one idle marker arrives. *)
Definition idle_machine : machine :=
  Machine started_state (quiet_world [msg "m1" (status "idle")]).

(** A started session: the code prints, then sleeps 40 seconds, prints and
    ends.  Three stream messages arrive 20 seconds apart before the sleep. *)
Definition sleepy_machine : machine :=
  Machine started_state
    (quiet_world [Event 20000 (inl (Message (Some "m1") (stream "a")));
                  Event 20000 (inl (Message (Some "m1") (stream "b")));
                  Event 20000 (inl (Message (Some "m1") (stream "c")));
                  Event 40000 (inl (Message (Some "m1") (stream "late")));
                  msg "m1" (status "idle");
                  msg "m2" (stream "next");
                  msg "m2" (status "idle")]).

(** A started session: the code prints, then divides by zero. *)
Definition faulty_machine : machine :=
  Machine started_state
    (quiet_world [msg "m1" (status "busy");
                  msg "m1" (stream "before");
                  msg "m1" (error ["Traceback (most recent call last)";
                                   "ZeroDivisionError: division by zero"]);
                  msg "m1" (status "idle")]).

(** A started session: the code prints and shows a figure. *)
Definition plotting_machine : machine :=
  Machine started_state
    (quiet_world [msg "m1" (stream "plotting");
                  msg "m1" (display_data {["image/png" := "iVBORw0KGgo="]});
                  msg "m1" (status "idle")]).

(** A started session: the final value of the code has no plain text. *)
Definition textless_machine : machine :=
  Machine started_state
    (quiet_world [msg "m1" (execute_result {["text/html" := "<b>x</b>"]});
                  msg "m1" (status "idle")]).

(** A world in which everything works: the kernel replies to the two
    priming statements of [server.py] and then to the first request. *)
Definition priming_world : world :=
  World [] [] [] ["uuid-a"; "uuid-b"; "uuid-c"] [1000; 3500; 9000]
        ["m1"; "m2"; "m3"; "m4"]
        [msg "m1" (status "busy"); msg "m1" (status "idle");
         msg "m2" (status "busy"); msg "m2" (stream "inline backend");
         msg "m2" (status "idle");
         msg "m3" (status "idle")] 0 [].

(** A started session: the code prints two lines, between messages of
    another request. *)
Definition printing_machine : machine :=
  Machine started_state
    (quiet_world [msg "m1" (stream "one");
                  msg "m1" (stream "two");
                  msg "m1" (status "idle")]).

(** A started session: the code shows a figure and gives nothing else. *)
Definition figure_machine : machine :=
  Machine started_state
    (quiet_world [msg "m1" (display_data {["image/png" := "iVBORw0KGgo="]});
                  msg "m1" (status "idle")]).

(** * Properties *)

(** ** The receive loop, for any chain and [except] clause *)

Section ReceiveLoopFacts.
Context {A : Type}.
Variable dispatch : content -> A -> step A.
Variable on_timeout : A -> A.

Local Abbreviation loop := (receive_loop dispatch on_timeout).
Local Abbreviation body := (loop_body dispatch on_timeout).

(** The loop is the iteration of [wait_for] and the body. *)
Lemma receive_loop_unfold msg_id ch a :
  loop msg_id ch a =
  let '(r, ch') := wait_for_iopub_msg ch in
  match body msg_id r a with
  | Next a' => loop msg_id ch' a'
  | Leave x a' => (Returned (x, a'), ch')
  | Throw e => (Raised e, ch')
  end.
Proof.
  destruct ch as [|ev rest]; [reflexivity|].
  unfold wait_for_iopub_msg. cbn [receive_loop].
  destruct (bool_decide (ev_delay ev <= RECEIVE_TIMEOUT)); reflexivity.
Qed.

(** A message of another request is dropped and the loop goes on. *)
Lemma receive_loop_discard msg_id d m rest a :
  d <= RECEIVE_TIMEOUT ->
  parent_msg_id m <> Some msg_id ->
  loop msg_id (Event d (inl m) :: rest) a = loop msg_id rest a.
Proof.
  intros Hd Hp. cbn [receive_loop ev_delay ev_payload loop_body].
  rewrite bool_decide_true by exact Hd.
  rewrite bool_decide_true by exact Hp. reflexivity.
Qed.

(** A receive that exceeds the budget ends the loop, whatever came before.
    The pending event stays on the channel. *)
Lemma receive_loop_late msg_id d p rest a :
  RECEIVE_TIMEOUT < d ->
  loop msg_id (Event d p :: rest) a =
  (Returned (timeout_break, on_timeout a),
   Event (d - RECEIVE_TIMEOUT) p :: rest).
Proof.
  intros Hd. cbn [receive_loop ev_delay ev_payload].
  rewrite bool_decide_false by lia. reflexivity.
Qed.

Lemma receive_loop_silent msg_id a :
  loop msg_id [] a = (Returned (timeout_break, on_timeout a), []).
Proof. reflexivity. Qed.

(** A failure of the channel other than a timeout leaves the loop as an
    exception. *)
Lemma receive_loop_failure msg_id d e rest a :
  d <= RECEIVE_TIMEOUT ->
  e <> TimeoutError ->
  loop msg_id (Event d (inr e) :: rest) a = (Raised e, rest).
Proof.
  intros Hd He. cbn [receive_loop ev_delay ev_payload loop_body].
  rewrite bool_decide_true by exact Hd.
  destruct e; [congruence | reflexivity | reflexivity].
Qed.

Lemma receive_loop_channel_timeout msg_id d rest a :
  d <= RECEIVE_TIMEOUT ->
  loop msg_id (Event d (inr TimeoutError) :: rest) a =
  (Returned (timeout_break, on_timeout a), rest).
Proof.
  intros Hd. cbn [receive_loop ev_delay ev_payload loop_body].
  rewrite bool_decide_true by exact Hd. reflexivity.
Qed.

Hypothesis dispatch_break :
  forall c a a', dispatch c a = Break a' -> c = status "idle".
Hypothesis dispatch_idle :
  forall a, dispatch (status "idle") a = Break a.

(** A message that passes is absorbed and the loop goes on. *)
Lemma receive_loop_pass msg_id ev m rest a :
  in_time ev ->
  ev_payload ev = inl m ->
  ~ idle_for msg_id m ->
  loop msg_id (ev :: rest) a = loop msg_id rest (absorb dispatch msg_id a m).
Proof.
  intros Hd Hp Hn. cbn [receive_loop loop_body].
  rewrite bool_decide_true by exact Hd. rewrite Hp.
  unfold absorb. cbn [loop_body].
  destruct (bool_decide (parent_msg_id m <> Some msg_id)) eqn:Ht; [reflexivity|].
  destruct (dispatch (msg_content m) a) as [a'|a'] eqn:Hc; [reflexivity|].
  exfalso. apply Hn. split.
  - apply bool_decide_eq_false in Ht. unfold tagged.
    destruct (decide (parent_msg_id m = Some msg_id)); [assumption|contradiction].
  - eapply dispatch_break, Hc.
Qed.

Lemma arrived_cons ev evs :
  arrived (ev :: evs) =
  match ev_payload ev with
  | inl m => m :: arrived evs
  | inr _ => arrived evs
  end.
Proof. unfold arrived. simpl. destruct (ev_payload ev); reflexivity. Qed.

Lemma receive_loop_passes msg_id pre ch a :
  Forall (passes msg_id) pre ->
  loop msg_id (pre ++ ch) a =
  loop msg_id ch (fold_left (absorb dispatch msg_id) (arrived pre) a).
Proof.
  intros Hpre. revert a.
  induction Hpre as [|ev pre [Hd (m & Hp & Hn)] _ IH]; intros a; [reflexivity|].
  cbn [app]. rewrite (receive_loop_pass _ _ m) by assumption.
  rewrite IH, arrived_cons, Hp. reflexivity.
Qed.

(** The idle marker of the request ends the loop. *)
Lemma receive_loop_idle msg_id d m rest a :
  d <= RECEIVE_TIMEOUT ->
  idle_for msg_id m ->
  loop msg_id (Event d (inl m) :: rest) a = (Returned (idle_break, a), rest).
Proof.
  intros Hd [Ht Hc]. cbn [receive_loop ev_delay ev_payload loop_body].
  rewrite bool_decide_true by exact Hd.
  rewrite bool_decide_false by (intros Hne; apply Hne, Ht).
  rewrite Hc, dispatch_idle. reflexivity.
Qed.

Lemma idle_for_dec msg_id m : {idle_for msg_id m} + {~ idle_for msg_id m}.
Proof.
  unfold idle_for, tagged.
  destruct (decide (parent_msg_id m = Some msg_id)) as [Ht|Ht];
    [|right; tauto].
  destruct (msg_content m) as [ | | | |st| ];
    try (right; intros [_ H]; discriminate H).
  destruct (decide (st = "idle")) as [->|Hs]; [left; tauto|].
  right. intros [_ H]. congruence.
Qed.

Lemma view_channel msg_id ch : channel_view msg_id ch.
Proof.
  induction ch as [|[d p] ch IH]; [apply runs_dry; constructor|].
  destruct (Z_le_gt_dec d RECEIVE_TIMEOUT) as [Hd|Hd].
  2:{ apply (ends_late _ _ [] d p ch); [reflexivity|constructor|lia]. }
  destruct p as [m|e].
  2:{ apply (ends_failed _ _ [] d e ch); [reflexivity|constructor|assumption]. }
  destruct (idle_for_dec msg_id m) as [Hi|Hi].
  { apply (ends_idle _ _ [] d m ch); [reflexivity|constructor|assumption|assumption]. }
  assert (Hp : passes msg_id (Event d (inl m))).
  { split; [exact Hd|]. exists m. split; [reflexivity|assumption]. }
  destruct IH as [Hall|pre d' m' post -> Hall Hd' Hi'
                 |pre d' p' post -> Hall Hd'|pre d' e' post -> Hall Hd'].
  - apply runs_dry. constructor; assumption.
  - apply (ends_idle _ _ (Event d (inl m) :: pre) d' m' post);
      [reflexivity|constructor; assumption|assumption|assumption].
  - apply (ends_late _ _ (Event d (inl m) :: pre) d' p' post);
      [reflexivity|constructor; assumption|assumption].
  - apply (ends_failed _ _ (Event d (inl m) :: pre) d' e' post);
      [reflexivity|constructor; assumption|assumption].
Qed.

(** The result of the loop in each of the four cases. *)
Lemma receive_loop_ends_idle msg_id pre d m post a :
  Forall (passes msg_id) pre -> d <= RECEIVE_TIMEOUT -> idle_for msg_id m ->
  loop msg_id (pre ++ Event d (inl m) :: post) a =
  (Returned (idle_break, fold_left (absorb dispatch msg_id) (arrived pre) a), post).
Proof.
  intros Hpre Hd Hi. rewrite receive_loop_passes by assumption.
  apply receive_loop_idle; assumption.
Qed.

Lemma receive_loop_ends_late msg_id pre d p post a :
  Forall (passes msg_id) pre -> RECEIVE_TIMEOUT < d ->
  loop msg_id (pre ++ Event d p :: post) a =
  (Returned (timeout_break,
             on_timeout (fold_left (absorb dispatch msg_id) (arrived pre) a)),
   Event (d - RECEIVE_TIMEOUT) p :: post).
Proof.
  intros Hpre Hd. rewrite receive_loop_passes by assumption.
  apply receive_loop_late; assumption.
Qed.

Lemma receive_loop_runs_dry msg_id pre a :
  Forall (passes msg_id) pre ->
  loop msg_id pre a =
  (Returned (timeout_break,
             on_timeout (fold_left (absorb dispatch msg_id) (arrived pre) a)),
   []).
Proof.
  intros Hpre. rewrite <- (app_nil_r pre) at 1.
  rewrite receive_loop_passes by assumption. reflexivity.
Qed.

Lemma receive_loop_ends_failed msg_id pre d e post a :
  Forall (passes msg_id) pre -> d <= RECEIVE_TIMEOUT -> e <> TimeoutError ->
  loop msg_id (pre ++ Event d (inr e) :: post) a = (Raised e, post).
Proof.
  intros Hpre Hd He. rewrite receive_loop_passes by assumption.
  apply receive_loop_failure; assumption.
Qed.

Lemma receive_loop_ends_channel_timeout msg_id pre d post a :
  Forall (passes msg_id) pre -> d <= RECEIVE_TIMEOUT ->
  loop msg_id (pre ++ Event d (inr TimeoutError) :: post) a =
  (Returned (timeout_break,
             on_timeout (fold_left (absorb dispatch msg_id) (arrived pre) a)),
   post).
Proof.
  intros Hpre Hd. rewrite receive_loop_passes by assumption.
  apply receive_loop_channel_timeout; assumption.
Qed.

(** The loop leaves by the idle [break] exactly on a channel whose first
    event that does not pass is the idle marker of the request, in time. *)
Lemma receive_loop_idle_break_iff msg_id ch a a' ch' :
  loop msg_id ch a = (Returned (idle_break, a'), ch') <->
  exists pre d m,
    ch = pre ++ Event d (inl m) :: ch' /\
    Forall (passes msg_id) pre /\ d <= RECEIVE_TIMEOUT /\ idle_for msg_id m /\
    a' = fold_left (absorb dispatch msg_id) (arrived pre) a.
Proof.
  split.
  - intros H.
    destruct (view_channel msg_id ch)
      as [Hall|pre d m post -> Hall Hd Hi|pre d p post -> Hall Hd
         |pre d e post -> Hall Hd].
    + rewrite receive_loop_runs_dry in H by assumption. discriminate H.
    + rewrite receive_loop_ends_idle in H by assumption.
      injection H as <- <-. exists pre, d, m.
      split; [reflexivity|]. split; [assumption|]. split; [assumption|].
      split; [assumption|reflexivity].
    + rewrite receive_loop_ends_late in H by assumption. discriminate H.
    + destruct (decide (e = TimeoutError)) as [->|He].
      * rewrite receive_loop_ends_channel_timeout in H by assumption.
        discriminate H.
      * rewrite receive_loop_ends_failed in H by assumption. discriminate H.
  - intros (pre & d & m & -> & Hall & Hd & Hi & ->).
    apply receive_loop_ends_idle; assumption.
Qed.

(** The loop raises exactly on a channel whose first event that does not
    pass is a failure other than a timeout, in time. *)
Lemma receive_loop_raises_iff msg_id ch a e ch' :
  loop msg_id ch a = (Raised e, ch') <->
  exists pre d,
    ch = pre ++ Event d (inr e) :: ch' /\
    Forall (passes msg_id) pre /\ d <= RECEIVE_TIMEOUT /\ e <> TimeoutError.
Proof.
  split.
  - intros H.
    destruct (view_channel msg_id ch)
      as [Hall|pre d m post -> Hall Hd Hi|pre d p post -> Hall Hd
         |pre d e0 post -> Hall Hd].
    + rewrite receive_loop_runs_dry in H by assumption. discriminate H.
    + rewrite receive_loop_ends_idle in H by assumption. discriminate H.
    + rewrite receive_loop_ends_late in H by assumption. discriminate H.
    + destruct (decide (e0 = TimeoutError)) as [->|He].
      * rewrite receive_loop_ends_channel_timeout in H by assumption.
        discriminate H.
      * rewrite receive_loop_ends_failed in H by assumption.
        injection H as <- <-. exists pre, d.
        split; [reflexivity|]. split; [assumption|]. split; assumption.
  - intros (pre & d & -> & Hall & Hd & He).
    apply receive_loop_ends_failed; assumption.
Qed.
End ReceiveLoopFacts.

Lemma tail_drop {X} (n : nat) (l : list X) : tail (drop n l) = drop (S n) l.
Proof.
  revert n. induction l as [|x l IH]; intros [|n]; try reflexivity.
  cbn [drop]. apply IH.
Qed.

(** ** [server.py]: the chain, the loop and the parts of the result *)

Module ServerFacts.
Import Server.

Lemma server_dispatch_break c a a' : dispatch c a = Break a' -> c = status "idle".
Proof.
  destruct c as [t|d|d|tb|st|]; cbn; try discriminate.
  - destruct (d !! "image/png"); discriminate.
  - destruct (decide (st = "idle")) as [->|Hs]; [reflexivity|].
    rewrite bool_decide_false by assumption. discriminate.
Qed.

Lemma server_dispatch_idle a : dispatch (status "idle") a = Break a.
Proof. reflexivity. Qed.

(** One message changes the three lists as the design says. *)
Lemma server_absorb_spec msg_id a m :
  absorb dispatch msg_id a m =
  Acc (outputs a ++ spec_text_of msg_id m)
      (errors a ++ spec_errors_of msg_id m)
      (images a ++ spec_artifacts_of msg_id m).
Proof.
  unfold absorb, spec_text_of, spec_errors_of, spec_artifacts_of, tagged.
  destruct (decide (parent_msg_id m = Some msg_id)) as [Ht|Ht].
  - rewrite bool_decide_false by tauto. rewrite !bool_decide_true by assumption.
    destruct a as [o e i].
    destruct (msg_content m) as [t|d|d|tb|st|]; cbn;
      rewrite ?app_nil_r; try reflexivity.
    + destruct (d !! "image/png"); rewrite ?app_nil_r; reflexivity.
    + destruct (bool_decide (st = "idle")); reflexivity.
  - rewrite bool_decide_true by assumption.
    rewrite !bool_decide_false by assumption.
    destruct a; cbn; rewrite ?app_nil_r; reflexivity.
Qed.

(** The loop refines the aggregation of the design: the lists after the
    messages [ms] are the arrival-order lists of the design. *)
Lemma server_absorb_all_spec msg_id ms a :
  fold_left (absorb dispatch msg_id) ms a =
  Acc (outputs a ++ spec_text_output msg_id ms)
      (errors a ++ spec_error_list msg_id ms)
      (images a ++ spec_artifacts msg_id ms).
Proof.
  revert a. induction ms as [|m ms IH]; intros a.
  - destruct a; cbn; rewrite ?app_nil_r; reflexivity.
  - cbn [fold_left]. rewrite IH, server_absorb_spec. cbn.
    rewrite <- !app_assoc. reflexivity.
Qed.

(** With a worker up, [execute_python] sends the request and enters the
    loop: no start-up call is made. *)
Lemma server_receive_started code m k c :
  km (state m) = Some k ->
  kc (state m) = Some c ->
  receive code m =
  let '(r, ch) := receive_loop dispatch on_timeout
                    (hd EmptyString (execute_msg_ids (env m)))
                    (iopub (env m)) (Acc [] [] []) in
  (r, after_receive m c code ch).
Proof.
  destruct m as [s w]. cbn [state env]. intros Hk Hc.
  unfold receive, ensure_started, the_kc, kc_execute, run_receive_loop,
    after_receive, bind, get_state, get_env, set_env, ret, log.
  cbn. rewrite Hk. cbn. rewrite Hc. cbn.
  destruct (receive_loop _ _ _ _ _) as [r ch]. reflexivity.
Qed.

Lemma server_image_parts_eq imgs s w :
  image_parts imgs (Machine s w) =
  (Returned (image_resources (uuid4_values w) imgs),
   Machine s
     (World (start_kernel_results w) (wait_for_ready_results w)
            (shutdown_kernel_results w) (drop (length imgs) (uuid4_values w))
            (time_values w) (execute_msg_ids w) (iopub w)
            (next_object w) (calls w))).
Proof.
  revert w. induction imgs as [|i imgs IH]; intros w.
  - destruct w; reflexivity.
  - cbn [image_parts]. unfold bind at 1. unfold uuid4 at 1.
    unfold bind, get_env, set_env, ret. cbn [env state].
    rewrite IH. cbn.
    destruct (uuid4_values w) as [|u us]; cbn; [|reflexivity].
    rewrite drop_nil. reflexivity.
Qed.

(** The parts of the result, in order: kernel line, code, one resource per
    image, output, errors, success line, HTML page. *)
Lemma server_result_parts_eq code a m :
  result_parts code a m =
  (Returned
     ([KernelInfo (substring 0%nat 8%nat (kernel_id (state m)))
                  (hd 0 (time_values (env m)) - start_time (state m));
       TextContent ("**Executed:**" +:+ LF +:+ "```python" +:+ LF +:+ code
                      +:+ LF +:+ "```")]
        ++ image_resources (uuid4_values (env m)) (images a)
        ++ output_part (outputs a) ++ error_part (errors a)
        ++ success_part a
        ++ [EmbeddedResource
              ("ui://pykernel_mcp/result-"
                 +:+ hd EmptyString (drop (length (images a)) (uuid4_values (env m))))
              "text/html"
              (Html (html_result code
                       (if is_nil (errors a) then EmptyString
                        else join_lines (errors a))
                       (if is_nil (outputs a) then EmptyString
                        else join_lines (outputs a))
                       (images a)))]),
   after_result (S (length (images a))) m).
Proof.
  destruct m as [s w].
  unfold result_parts, get_uptime, time_time, uuid4,
    bind, get_env, set_env, get_state, ret, after_result.
  cbn. rewrite server_image_parts_eq. cbn.
  rewrite tail_drop. reflexivity.
Qed.

(** With a worker up, [execute_python] is the loop followed by the
    assembly of the parts; an exception of the loop is its result. *)
Lemma server_execute_python_started code m k c :
  km (state m) = Some k ->
  kc (state m) = Some c ->
  execute_python code m =
  match receive_loop dispatch on_timeout
          (hd EmptyString (execute_msg_ids (env m)))
          (iopub (env m)) (Acc [] [] []) with
  | (Returned (_, a), ch) => result_parts code a (after_receive m c code ch)
  | (Raised e, ch) => (Raised e, after_receive m c code ch)
  end.
Proof.
  intros Hk Hc. unfold execute_python, bind.
  rewrite (server_receive_started code m k c Hk Hc).
  destruct (receive_loop _ _ _ _ _) as [[[x a]|e] ch]; reflexivity.
Qed.

Lemma server_success_not_output outs : TextContent SUCCESS ∉ output_part outs.
Proof.
  unfold output_part. destruct (is_nil outs); [apply not_elem_of_nil|].
  intros H. apply list_elem_of_singleton in H. discriminate H.
Qed.

Lemma server_success_not_error errs : TextContent SUCCESS ∉ error_part errs.
Proof.
  unfold error_part. destruct (is_nil errs); [apply not_elem_of_nil|].
  intros H. apply list_elem_of_singleton in H. discriminate H.
Qed.

Lemma server_success_not_image us imgs : TextContent SUCCESS ∉ image_resources us imgs.
Proof.
  revert us. induction imgs as [|i imgs IH]; intros us; [apply not_elem_of_nil|].
  cbn. intros H. apply elem_of_cons in H as [H|H]; [discriminate H|].
  exact (IH _ H).
Qed.

(** The success line is in the result only through [success_part]. *)
Lemma server_success_in_result code a m :
  TextContent SUCCESS ∈
    match fst (result_parts code a m) with
    | Returned parts => parts
    | Raised _ => []
    end ->
  outputs a = [] /\ errors a = [] /\ images a = [].
Proof.
  rewrite server_result_parts_eq. cbn [fst].
  rewrite !elem_of_app. intros [H|[H|[H|[H|[H|H]]]]].
  - apply elem_of_cons in H as [H|H]; [discriminate H|].
    apply list_elem_of_singleton in H. discriminate H.
  - exfalso. exact (server_success_not_image _ _ H).
  - exfalso. exact (server_success_not_output _ H).
  - exfalso. exact (server_success_not_error _ H).
  - unfold success_part in H.
    destruct (outputs a), (errors a), (images a); cbn in H;
      try (exfalso; exact (not_elem_of_nil _ H)). auto.
  - apply list_elem_of_singleton in H. discriminate H.
Qed.

Lemma server_image_in_resources us imgs img :
  img ∈ imgs ->
  exists uri, EmbeddedResource uri "image/png" (Blob img) ∈ image_resources us imgs.
Proof.
  revert us. induction imgs as [|i imgs IH]; intros us H.
  - exfalso. exact (not_elem_of_nil _ H).
  - apply elem_of_cons in H as [->|H]; cbn.
    + eexists. apply list_elem_of_here.
    + destruct (IH (tl us) H) as [uri Hu]. exists uri.
      apply list_elem_of_further, Hu.
Qed.

(** The loop of a call, in the words of the design: after the events [pre]
    that pass, the three lists are the arrival-order lists of the messages
    of [pre]. *)
Lemma server_receive_ends_idle code m k c pre d mi post :
  km (state m) = Some k ->
  kc (state m) = Some c ->
  iopub (env m) = pre ++ Event d (inl mi) :: post ->
  Forall (passes (hd EmptyString (execute_msg_ids (env m)))) pre ->
  d <= RECEIVE_TIMEOUT ->
  idle_for (hd EmptyString (execute_msg_ids (env m))) mi ->
  receive code m =
  (Returned (idle_break,
             Acc (spec_text_output (hd EmptyString (execute_msg_ids (env m))) (arrived pre))
                 (spec_error_list (hd EmptyString (execute_msg_ids (env m))) (arrived pre))
                 (spec_artifacts (hd EmptyString (execute_msg_ids (env m))) (arrived pre))),
   after_receive m c code post).
Proof.
  intros Hk Hc Hch Hpre Hd Hi.
  rewrite (server_receive_started code m k c Hk Hc), Hch.
  rewrite (receive_loop_ends_idle _ _ server_dispatch_break server_dispatch_idle)
    by assumption.
  rewrite server_absorb_all_spec. reflexivity.
Qed.

Lemma server_receive_ends_late code m k c pre d p post :
  km (state m) = Some k ->
  kc (state m) = Some c ->
  iopub (env m) = pre ++ Event d p :: post ->
  Forall (passes (hd EmptyString (execute_msg_ids (env m)))) pre ->
  RECEIVE_TIMEOUT < d ->
  receive code m =
  (Returned (timeout_break,
             Acc (spec_text_output (hd EmptyString (execute_msg_ids (env m))) (arrived pre))
                 (spec_error_list (hd EmptyString (execute_msg_ids (env m))) (arrived pre)
                    ++ [TIMEOUT_NOTICE])
                 (spec_artifacts (hd EmptyString (execute_msg_ids (env m))) (arrived pre))),
   after_receive m c code (Event (d - RECEIVE_TIMEOUT) p :: post)).
Proof.
  intros Hk Hc Hch Hpre Hd.
  rewrite (server_receive_started code m k c Hk Hc), Hch.
  rewrite (receive_loop_ends_late _ _ server_dispatch_break) by assumption.
  rewrite server_absorb_all_spec. reflexivity.
Qed.

(** [execute_python] after a loop that returned. *)
Lemma server_execute_python_after code m x a m1 :
  receive code m = (Returned (x, a), m1) ->
  execute_python code m = result_parts code a m1.
Proof. intros H. unfold execute_python, bind. rewrite H. reflexivity. Qed.

Lemma server_error_part_nonempty errs :
  errs <> [] ->
  error_part errs =
  [TextContent ("**Errors:**" +:+ LF +:+ "```python" +:+ LF +:+ join_lines errs
                  +:+ LF +:+ "```")].
Proof. destruct errs; [congruence|reflexivity]. Qed.

Lemma server_output_part_nonempty outs :
  outs <> [] ->
  output_part outs =
  [TextContent ("**Output:**" +:+ LF +:+ "```" +:+ LF +:+ join_lines outs
                  +:+ LF +:+ "```")].
Proof. destruct outs; [congruence|reflexivity]. Qed.
End ServerFacts.

(** ** [pykernel_mcp.py]: the chain, the loop and the parts of the result *)

Module ScriptFacts.
Import Script.

Lemma script_dispatch_break c a a' : dispatch c a = Break a' -> c = status "idle".
Proof.
  destruct c as [t|d|d|tb|st|]; cbn; try discriminate.
  destruct (decide (st = "idle")) as [->|Hs]; [reflexivity|].
  rewrite bool_decide_false by assumption. discriminate.
Qed.

Lemma script_dispatch_idle a : dispatch (status "idle") a = Break a.
Proof. reflexivity. Qed.

(** The script has no artifacts; its two lists are those of the design. *)
Lemma script_absorb_spec msg_id a m :
  absorb dispatch msg_id a m =
  Acc (outputs a ++ spec_text_of msg_id m)
      (errors a ++ spec_errors_of msg_id m).
Proof.
  unfold absorb, spec_text_of, spec_errors_of, tagged.
  destruct (decide (parent_msg_id m = Some msg_id)) as [Ht|Ht].
  - rewrite bool_decide_false by tauto. rewrite !bool_decide_true by assumption.
    destruct a as [o e].
    destruct (msg_content m) as [t|d|d|tb|st|]; cbn;
      rewrite ?app_nil_r; try reflexivity.
    destruct (bool_decide (st = "idle")); reflexivity.
  - rewrite bool_decide_true by assumption.
    rewrite !bool_decide_false by assumption.
    destruct a; cbn; rewrite ?app_nil_r; reflexivity.
Qed.

Lemma script_absorb_all_spec msg_id ms a :
  fold_left (absorb dispatch msg_id) ms a =
  Acc (outputs a ++ spec_text_output msg_id ms)
      (errors a ++ spec_error_list msg_id ms).
Proof.
  revert a. induction ms as [|m ms IH]; intros a.
  - destruct a; cbn; rewrite ?app_nil_r; reflexivity.
  - cbn [fold_left]. rewrite IH, script_absorb_spec. cbn.
    rewrite <- !app_assoc. reflexivity.
Qed.

Lemma script_receive_started code m k c :
  km (state m) = Some k ->
  kc (state m) = Some c ->
  receive code m =
  let '(r, ch) := receive_loop dispatch on_timeout
                    (hd EmptyString (execute_msg_ids (env m)))
                    (iopub (env m)) (Acc [] []) in
  (r, after_receive m c code ch).
Proof.
  destruct m as [s w]. cbn [state env]. intros Hk Hc.
  unfold receive, ensure_started, the_kc, kc_execute, run_receive_loop,
    after_receive, bind, get_state, get_env, set_env, ret, log.
  cbn. rewrite Hk. cbn. rewrite Hc. cbn.
  destruct (receive_loop _ _ _ _ _) as [r ch]. reflexivity.
Qed.

Lemma script_result_parts_eq code a m :
  result_parts code a m =
  (Returned
     ([KernelInfo (substring 0%nat 8%nat (kernel_id (state m)))
                  (hd 0 (time_values (env m)) - start_time (state m));
       TextContent ("**Executed:**" +:+ LF +:+ "```python" +:+ LF +:+ code
                      +:+ LF +:+ "```")]
        ++ output_part (outputs a) ++ error_part (errors a)
        ++ success_part a
        ++ [EmbeddedResource
              ("ui://python-kernel/result-"
                 +:+ hd EmptyString (uuid4_values (env m)))
              "text/html"
              (Html (UiHtml
                       (Some (substring 0%nat 8%nat (kernel_id (state m)),
                              hd 0 (time_values (env m)) - start_time (state m)))
                       code []
                       (if_nonempty (if is_nil (outputs a) then EmptyString
                                     else join_lines (outputs a)))
                       (if_nonempty (if is_nil (errors a) then EmptyString
                                     else join_lines (errors a)))
                       (is_empty_string (if is_nil (outputs a) then EmptyString
                                         else join_lines (outputs a))
                        && is_empty_string (if is_nil (errors a) then EmptyString
                                            else join_lines (errors a)))))]),
   after_result 1 m).
Proof.
  destruct m as [s w].
  unfold result_parts, get_uptime, time_time, uuid4,
    bind, get_env, set_env, get_state, ret, after_result.
  cbn. destruct (uuid4_values w); reflexivity.
Qed.

Lemma script_execute_python_started code m k c :
  km (state m) = Some k ->
  kc (state m) = Some c ->
  execute_python code m =
  match receive_loop dispatch on_timeout
          (hd EmptyString (execute_msg_ids (env m)))
          (iopub (env m)) (Acc [] []) with
  | (Returned (_, a), ch) => result_parts code a (after_receive m c code ch)
  | (Raised e, ch) => (Raised e, after_receive m c code ch)
  end.
Proof.
  intros Hk Hc. unfold execute_python, bind.
  rewrite (script_receive_started code m k c Hk Hc).
  destruct (receive_loop _ _ _ _ _) as [[[x a]|e] ch]; reflexivity.
Qed.

Lemma script_success_not_output outs : TextContent SUCCESS ∉ output_part outs.
Proof.
  unfold output_part. destruct (is_nil outs); [apply not_elem_of_nil|].
  intros H. apply list_elem_of_singleton in H. discriminate H.
Qed.

Lemma script_success_not_error errs : TextContent SUCCESS ∉ error_part errs.
Proof.
  unfold error_part. destruct (is_nil errs); [apply not_elem_of_nil|].
  intros H. apply list_elem_of_singleton in H. discriminate H.
Qed.

Lemma script_success_in_result code a m :
  TextContent SUCCESS ∈
    match fst (result_parts code a m) with
    | Returned parts => parts
    | Raised _ => []
    end ->
  outputs a = [] /\ errors a = [].
Proof.
  rewrite script_result_parts_eq. cbn [fst].
  rewrite !elem_of_app. intros [H|[H|[H|[H|H]]]].
  - apply elem_of_cons in H as [H|H]; [discriminate H|].
    apply list_elem_of_singleton in H. discriminate H.
  - exfalso. exact (script_success_not_output _ H).
  - exfalso. exact (script_success_not_error _ H).
  - unfold success_part in H.
    destruct (outputs a), (errors a); cbn in H;
      try (exfalso; exact (not_elem_of_nil _ H)). auto.
  - apply list_elem_of_singleton in H. discriminate H.
Qed.

(** The loop of a call, in the words of the design: after the events [pre]
    that pass, the three lists are the arrival-order lists of the messages
    of [pre]. *)
Lemma script_receive_ends_idle code m k c pre d mi post :
  km (state m) = Some k ->
  kc (state m) = Some c ->
  iopub (env m) = pre ++ Event d (inl mi) :: post ->
  Forall (passes (hd EmptyString (execute_msg_ids (env m)))) pre ->
  d <= RECEIVE_TIMEOUT ->
  idle_for (hd EmptyString (execute_msg_ids (env m))) mi ->
  receive code m =
  (Returned (idle_break,
             Acc (spec_text_output (hd EmptyString (execute_msg_ids (env m))) (arrived pre))
                 (spec_error_list (hd EmptyString (execute_msg_ids (env m))) (arrived pre))),
   after_receive m c code post).
Proof.
  intros Hk Hc Hch Hpre Hd Hi.
  rewrite (script_receive_started code m k c Hk Hc), Hch.
  rewrite (receive_loop_ends_idle _ _ script_dispatch_break script_dispatch_idle)
    by assumption.
  rewrite script_absorb_all_spec. reflexivity.
Qed.

Lemma script_receive_ends_late code m k c pre d p post :
  km (state m) = Some k ->
  kc (state m) = Some c ->
  iopub (env m) = pre ++ Event d p :: post ->
  Forall (passes (hd EmptyString (execute_msg_ids (env m)))) pre ->
  RECEIVE_TIMEOUT < d ->
  receive code m =
  (Returned (timeout_break,
             Acc (spec_text_output (hd EmptyString (execute_msg_ids (env m))) (arrived pre))
                 (spec_error_list (hd EmptyString (execute_msg_ids (env m))) (arrived pre)
                    ++ [TIMEOUT_NOTICE])),
   after_receive m c code (Event (d - RECEIVE_TIMEOUT) p :: post)).
Proof.
  intros Hk Hc Hch Hpre Hd.
  rewrite (script_receive_started code m k c Hk Hc), Hch.
  rewrite (receive_loop_ends_late _ _ script_dispatch_break) by assumption.
  rewrite script_absorb_all_spec. reflexivity.
Qed.

(** [execute_python] after a loop that returned. *)
Lemma script_execute_python_after code m x a m1 :
  receive code m = (Returned (x, a), m1) ->
  execute_python code m = result_parts code a m1.
Proof. intros H. unfold execute_python, bind. rewrite H. reflexivity. Qed.

Lemma script_error_part_nonempty errs :
  errs <> [] ->
  error_part errs =
  [TextContent ("**Errors:**" +:+ LF +:+ "```python" +:+ LF +:+ join_lines errs
                  +:+ LF +:+ "```")].
Proof. destruct errs; [congruence|reflexivity]. Qed.

Lemma script_output_part_nonempty outs :
  outs <> [] ->
  output_part outs =
  [TextContent ("**Output:**" +:+ LF +:+ "```" +:+ LF +:+ join_lines outs
                  +:+ LF +:+ "```")].
Proof. destruct outs; [congruence|reflexivity]. Qed.
End ScriptFacts.

(** ** Start-up and restart *)

Ltac run_py :=
  unfold bind, ret, raise, finish, get_state, set_state, get_env, set_env,
    set_km, set_kc, set_kernel_id, set_start_time, the_km, the_kc,
    AsyncKernelManager, start_kernel, client, start_channels, wait_for_ready,
    shutdown_kernel, kc_execute, uuid4, time_time, log in *;
  cbn in *.

Section StartUp.
Variable m : machine.
Let k := next_object (env m).

(** A call with a worker reference set does nothing at all. *)
Lemma server_ensure_started_noop k0 :
  km (state m) = Some k0 -> Server.ensure_started m = (Returned tt, m).
Proof.
  destruct m as [s w]. cbn. intros H. unfold Server.ensure_started.
  run_py. rewrite H. reflexivity.
Qed.

Lemma script_ensure_started_noop k0 :
  km (state m) = Some k0 -> Script.ensure_started m = (Returned tt, m).
Proof.
  destruct m as [s w]. cbn. intros H. unfold Script.ensure_started.
  run_py. rewrite H. reflexivity.
Qed.

(** [start_kernel] raises: the manager assigned just before stays in
    [state.km]. *)
Lemma server_ensure_started_spawn_fails e :
  km (state m) = None ->
  hd None (start_kernel_results (env m)) = Some e ->
  exists m',
    Server.ensure_started m = (Raised e, m') /\
    km (state m') = Some k /\ kc (state m') = kc (state m) /\
    kernel_id (state m') = kernel_id (state m) /\
    calls (env m') = calls (env m) ++ [AsyncKernelManager_new k; start_kernel_call k].
Proof.
  subst k. destruct m as [s w]. cbn. intros Hk He.
  unfold Server.ensure_started. run_py. rewrite Hk. cbn. rewrite He. cbn.
  eexists. split; [reflexivity|]. cbn. rewrite <- app_assoc. auto.
Qed.

Lemma script_ensure_started_spawn_fails e :
  km (state m) = None ->
  hd None (start_kernel_results (env m)) = Some e ->
  exists m',
    Script.ensure_started m = (Raised e, m') /\
    km (state m') = Some k /\ kc (state m') = kc (state m) /\
    kernel_id (state m') = kernel_id (state m) /\
    calls (env m') = calls (env m) ++ [AsyncKernelManager_new k; start_kernel_call k].
Proof.
  subst k. destruct m as [s w]. cbn. intros Hk He.
  unfold Script.ensure_started. run_py. rewrite Hk. cbn. rewrite He. cbn.
  eexists. split; [reflexivity|]. cbn. rewrite <- app_assoc. auto.
Qed.

(** The handshake raises: manager and client both stay. *)
Lemma server_ensure_started_handshake_fails e :
  km (state m) = None ->
  hd None (start_kernel_results (env m)) = None ->
  hd None (wait_for_ready_results (env m)) = Some e ->
  exists m',
    Server.ensure_started m = (Raised e, m') /\
    km (state m') = Some k /\ kc (state m') = Some (S k) /\
    kernel_id (state m') = kernel_id (state m).
Proof.
  subst k. destruct m as [s w]. cbn. intros Hk Hs He.
  unfold Server.ensure_started. run_py. rewrite Hk. cbn. rewrite Hs. cbn.
  rewrite He. cbn. eexists. split; [reflexivity|]. cbn. auto.
Qed.

Lemma script_ensure_started_handshake_fails e :
  km (state m) = None ->
  hd None (start_kernel_results (env m)) = None ->
  hd None (wait_for_ready_results (env m)) = Some e ->
  exists m',
    Script.ensure_started m = (Raised e, m') /\
    km (state m') = Some k /\ kc (state m') = Some (S k) /\
    kernel_id (state m') = kernel_id (state m).
Proof.
  subst k. destruct m as [s w]. cbn. intros Hk Hs He.
  unfold Script.ensure_started. run_py. rewrite Hk. cbn. rewrite Hs. cbn.
  rewrite He. cbn. eexists. split; [reflexivity|]. cbn. auto.
Qed.
End StartUp.

(** C9.  [ensure_started] is idempotent: called while [state.km] holds a
    worker it returns at once and leaves everything as it was, in both
    source files: the worker reference, the client, the session identifier
    and the start timestamp, and the world too, so no process is spawned,
    no call is made and neither a uuid nor the clock is read. *)
Theorem ensure_started_idempotent (m : machine) (k : nat) :
  km (state m) = Some k ->
  Server.ensure_started m = (Returned tt, m) /\
  Script.ensure_started m = (Returned tt, m).
Proof.
  intros H. split.
  - eapply server_ensure_started_noop, H.
  - eapply script_ensure_started_noop, H.
Qed.

Lemma ensure_started_idempotent_witness :
  Server.ensure_started (Machine started_state (quiet_world [])) =
    (Returned tt, Machine started_state (quiet_world [])) /\
  Script.ensure_started (Machine started_state (quiet_world [])) =
    (Returned tt, Machine started_state (quiet_world [])).
Proof.
  apply (ensure_started_idempotent (Machine started_state (quiet_world [])) 0%nat).
  reflexivity.
Defined.

(** C1.  What the code does when the spawn or the readiness handshake
    fails, in both source files: the error reaches the caller of
    [ensure_started], but [state.km] was assigned before the call that
    failed and keeps the manager of the worker that did not come up.  The
    session does not go back to "not started", and the next
    [ensure_started] returns without trying anything. *)
Theorem ensure_started_failure_keeps_reference (m : machine) (e : exn) :
  km (state m) = None ->
  hd None (start_kernel_results (env m)) = Some e \/
  (hd None (start_kernel_results (env m)) = None /\
   hd None (wait_for_ready_results (env m)) = Some e) ->
  (exists m',
      Server.ensure_started m = (Raised e, m') /\
      km (state m') = Some (next_object (env m)) /\
      Server.ensure_started m' = (Returned tt, m')) /\
  (exists m',
      Script.ensure_started m = (Raised e, m') /\
      km (state m') = Some (next_object (env m)) /\
      Script.ensure_started m' = (Returned tt, m')).
Proof.
  intros Hk [Hs|[Hs Hr]]; split.
  - destruct (server_ensure_started_spawn_fails m e Hk Hs) as (m' & H & Hk' & _).
    exists m'. repeat split; try assumption.
    eapply server_ensure_started_noop, Hk'.
  - destruct (script_ensure_started_spawn_fails m e Hk Hs) as (m' & H & Hk' & _).
    exists m'. repeat split; try assumption.
    eapply script_ensure_started_noop, Hk'.
  - destruct (server_ensure_started_handshake_fails m e Hk Hs Hr)
      as (m' & H & Hk' & _).
    exists m'. repeat split; try assumption.
    eapply server_ensure_started_noop, Hk'.
  - destruct (script_ensure_started_handshake_fails m e Hk Hs Hr)
      as (m' & H & Hk' & _).
    exists m'. repeat split; try assumption.
    eapply script_ensure_started_noop, Hk'.
Qed.

Lemma ensure_started_failure_keeps_reference_witness :
  (exists m',
      Server.ensure_started (Machine fresh_state no_kernel_world)
        = (Raised (RuntimeError "kernel died"), m') /\
      km (state m') = Some 0%nat /\
      Server.ensure_started m' = (Returned tt, m')) /\
  (exists m',
      Script.ensure_started (Machine fresh_state no_kernel_world)
        = (Raised (RuntimeError "kernel died"), m') /\
      km (state m') = Some 0%nat /\
      Script.ensure_started m' = (Returned tt, m')).
Proof.
  apply (ensure_started_failure_keeps_reference
           (Machine fresh_state no_kernel_world) (RuntimeError "kernel died")).
  - reflexivity.
  - left. reflexivity.
Defined.

(** After the failed spawn [state.kc] is still [None]: [execute_python]
    passes [ensure_started] and fails on [state.kc.execute]; [kernel_status]
    of the script reports a running kernel. *)
Example execute_python_after_failed_spawn :
  let m1 := snd (Server.ensure_started (Machine fresh_state no_kernel_world)) in
  fst (Server.execute_python "1 + 1" m1) = Raised (AttributeError "execute") /\
  fst (Script.execute_python "1 + 1" m1) = Raised (AttributeError "execute") /\
  fst (Script.kernel_status m1) = Returned (Script.KernelStatus "00000000-init" 1000).
Proof. vm_compute. auto. Qed.

Section Restart.
Variable m : machine.
Let k := next_object (env m).
Let u := hd EmptyString (uuid4_values (env m)).

(** [shutdown_kernel] raises: [restart_kernel] stops there. *)
Lemma server_restart_shutdown_fails k0 e :
  km (state m) = Some k0 ->
  hd None (shutdown_kernel_results (env m)) = Some e ->
  exists m',
    Server.restart_kernel m = (Raised e, m') /\
    state m' = state m /\
    calls (env m') = calls (env m) ++ [shutdown_kernel_call k0].
Proof.
  destruct m as [s w]. cbn. intros Hk He.
  unfold Server.restart_kernel. run_py. rewrite Hk. cbn. rewrite He. cbn.
  eexists. split; [reflexivity|]. cbn. auto.
Qed.

Lemma script_restart_shutdown_fails k0 e :
  km (state m) = Some k0 ->
  hd None (shutdown_kernel_results (env m)) = Some e ->
  exists m',
    Script.restart_kernel m = (Raised e, m') /\
    state m' = state m /\
    calls (env m') = calls (env m) ++ [shutdown_kernel_call k0].
Proof.
  destruct m as [s w]. cbn. intros Hk He.
  unfold Script.restart_kernel. run_py. rewrite Hk. cbn. rewrite He. cbn.
  eexists. split; [reflexivity|]. cbn. auto.
Qed.

(** The shutdown and the start succeed. *)
Lemma server_restart_ok k0 :
  km (state m) = Some k0 ->
  hd None (shutdown_kernel_results (env m)) = None ->
  hd None (start_kernel_results (env m)) = None ->
  hd None (wait_for_ready_results (env m)) = None ->
  exists m' more,
    Server.restart_kernel m = (Returned ("Kernel restarted. New ID: " +:+ u), m') /\
    km (state m') = Some k /\ kc (state m') = Some (S k) /\
    kernel_id (state m') = u /\
    start_time (state m') = hd 0 (time_values (env m)) /\
    calls (env m') =
      calls (env m) ++ shutdown_kernel_call k0 :: AsyncKernelManager_new k
                    :: start_kernel_call k :: more.
Proof.
  subst k u. destruct m as [s w]. cbn. intros Hk Hd Hs Hr.
  unfold Server.restart_kernel, Server.ensure_started. run_py.
  rewrite Hk. cbn. rewrite Hd. cbn. rewrite Hs. cbn. rewrite Hr. cbn.
  eexists. eexists. split; [reflexivity|]. cbn.
  rewrite <- !app_assoc. cbn. auto 6.
Qed.

Lemma script_restart_ok k0 :
  km (state m) = Some k0 ->
  hd None (shutdown_kernel_results (env m)) = None ->
  hd None (start_kernel_results (env m)) = None ->
  hd None (wait_for_ready_results (env m)) = None ->
  exists m' more,
    Script.restart_kernel m = (Returned ("Kernel restarted. New ID: " +:+ u), m') /\
    km (state m') = Some k /\ kc (state m') = Some (S k) /\
    kernel_id (state m') = u /\
    start_time (state m') = hd 0 (time_values (env m)) /\
    calls (env m') =
      calls (env m) ++ shutdown_kernel_call k0 :: AsyncKernelManager_new k
                    :: start_kernel_call k :: more.
Proof.
  subst k u. destruct m as [s w]. cbn. intros Hk Hd Hs Hr.
  unfold Script.restart_kernel, Script.ensure_started. run_py.
  rewrite Hk. cbn. rewrite Hd. cbn. rewrite Hs. cbn. rewrite Hr. cbn.
  eexists. eexists. split; [reflexivity|]. cbn.
  rewrite <- !app_assoc. cbn. auto 6.
Qed.
End Restart.

(** C3, as the code has it.  [restart_kernel] shuts the old worker down and
    then calls [ensure_started].  When the shutdown and the start succeed,
    the session holds a new manager and client, the session identifier is
    the uuid drawn by this start, and the log shows the shutdown before the
    spawn.  When the shutdown raises, the exception is the result of
    [restart_kernel]: nothing is started, and the session still refers to
    the old worker under the old identifier. *)
Theorem restart_kernel_shutdown_then_start (m : machine) (k0 : nat) :
  km (state m) = Some k0 ->
  (hd None (shutdown_kernel_results (env m)) = None ->
   hd None (start_kernel_results (env m)) = None ->
   hd None (wait_for_ready_results (env m)) = None ->
   forall restart, restart = Server.restart_kernel \/ restart = Script.restart_kernel ->
   exists m' more,
     restart m = (Returned ("Kernel restarted. New ID: "
                              +:+ hd EmptyString (uuid4_values (env m))), m') /\
     km (state m') = Some (next_object (env m)) /\
     kc (state m') = Some (S (next_object (env m))) /\
     kernel_id (state m') = hd EmptyString (uuid4_values (env m)) /\
     calls (env m') =
       calls (env m) ++ shutdown_kernel_call k0
                     :: AsyncKernelManager_new (next_object (env m))
                     :: start_kernel_call (next_object (env m)) :: more) /\
  (forall e, hd None (shutdown_kernel_results (env m)) = Some e ->
   forall restart, restart = Server.restart_kernel \/ restart = Script.restart_kernel ->
   exists m',
     restart m = (Raised e, m') /\
     state m' = state m /\
     calls (env m') = calls (env m) ++ [shutdown_kernel_call k0]).
Proof.
  intros Hk. split.
  - intros Hd Hs Hr restart [->| ->].
    + destruct (server_restart_ok m k0 Hk Hd Hs Hr)
        as (m' & more & H & H1 & H2 & H3 & _ & H5).
      exists m', more. auto 6.
    + destruct (script_restart_ok m k0 Hk Hd Hs Hr)
        as (m' & more & H & H1 & H2 & H3 & _ & H5).
      exists m', more. auto 6.
  - intros e He restart [->| ->].
    + apply server_restart_shutdown_fails; assumption.
    + apply script_restart_shutdown_fails; assumption.
Qed.

Lemma restart_kernel_shutdown_then_start_witness :
  (exists m' more,
     Server.restart_kernel (Machine started_state (quiet_world []))
       = (Returned "Kernel restarted. New ID: uuid-a", m') /\
     km (state m') = Some 2%nat /\ kc (state m') = Some 3%nat /\
     kernel_id (state m') = "uuid-a" /\
     calls (env m') =
       [] ++ shutdown_kernel_call 0 :: AsyncKernelManager_new 2
          :: start_kernel_call 2 :: more) /\
  (exists m',
     Script.restart_kernel (Machine started_state stuck_kernel_world)
       = (Raised (RuntimeError "shutdown failed"), m') /\
     state m' = started_state /\
     calls (env m') = [] ++ [shutdown_kernel_call 0]).
Proof.
  split.
  - destruct (restart_kernel_shutdown_then_start
                (Machine started_state (quiet_world [])) 0%nat) as [H _];
      [reflexivity|].
    apply (H eq_refl eq_refl eq_refl Server.restart_kernel). left. reflexivity.
  - destruct (restart_kernel_shutdown_then_start
                (Machine started_state stuck_kernel_world) 0%nat) as [_ H];
      [reflexivity|].
    apply (H (RuntimeError "shutdown failed") eq_refl Script.restart_kernel).
    right. reflexivity.
Defined.

(** C3 fails as stated.  The kernel could be started (no start or handshake
    failure is pending), but shutting the old one down raises: in both
    source files [restart_kernel] raises too, makes no call after
    [shutdown_kernel], and the session keeps the old manager, client and
    identifier. *)
Lemma restart_kernel_not_best_effort :
  let m0 := Machine started_state stuck_kernel_world in
  hd None (start_kernel_results (env m0)) = None /\
  hd None (wait_for_ready_results (env m0)) = None /\
  fst (Server.restart_kernel m0) = Raised (RuntimeError "shutdown failed") /\
  state (snd (Server.restart_kernel m0)) = started_state /\
  calls (env (snd (Server.restart_kernel m0))) = [shutdown_kernel_call 0] /\
  fst (Script.restart_kernel m0) = Raised (RuntimeError "shutdown failed") /\
  state (snd (Script.restart_kernel m0)) = started_state /\
  calls (env (snd (Script.restart_kernel m0))) = [shutdown_kernel_call 0].
Proof. vm_compute. repeat split. Qed.

(** ** The receive loop of the two source files *)

(** C6.  In both source files: a message received in time whose parent
    request identifier is not the one of the current request is dropped,
    whatever it is (also an idle status): the loop goes on with the rest of
    the channel and the same [outputs], [errors] and [images].  And the loop
    leaves by its idle [break] exactly when the first event that does not
    pass (see [passes]) is a status message with execution state "idle"
    tagged with the current request identifier, received in time. *)
Theorem receive_loop_filters_by_request :
  (forall msg_id d m rest a,
      d <= RECEIVE_TIMEOUT ->
      parent_msg_id m <> Some msg_id ->
      receive_loop Server.dispatch Server.on_timeout msg_id
                   (Event d (inl m) :: rest) a
      = receive_loop Server.dispatch Server.on_timeout msg_id rest a) /\
  (forall msg_id d m rest a,
      d <= RECEIVE_TIMEOUT ->
      parent_msg_id m <> Some msg_id ->
      receive_loop Script.dispatch Script.on_timeout msg_id
                   (Event d (inl m) :: rest) a
      = receive_loop Script.dispatch Script.on_timeout msg_id rest a) /\
  (forall msg_id ch a a' ch',
      receive_loop Server.dispatch Server.on_timeout msg_id ch a
      = (Returned (idle_break, a'), ch') <->
      exists pre d m,
        ch = pre ++ Event d (inl m) :: ch' /\
        Forall (passes msg_id) pre /\ d <= RECEIVE_TIMEOUT /\
        parent_msg_id m = Some msg_id /\ msg_content m = status "idle" /\
        a' = fold_left (absorb Server.dispatch msg_id) (arrived pre) a) /\
  (forall msg_id ch a a' ch',
      receive_loop Script.dispatch Script.on_timeout msg_id ch a
      = (Returned (idle_break, a'), ch') <->
      exists pre d m,
        ch = pre ++ Event d (inl m) :: ch' /\
        Forall (passes msg_id) pre /\ d <= RECEIVE_TIMEOUT /\
        parent_msg_id m = Some msg_id /\ msg_content m = status "idle" /\
        a' = fold_left (absorb Script.dispatch msg_id) (arrived pre) a).
Proof.
  split; [|split; [|split]].
  - intros. apply receive_loop_discard; assumption.
  - intros. apply receive_loop_discard; assumption.
  - intros msg_id ch a a' ch'.
    rewrite (receive_loop_idle_break_iff _ _ ServerFacts.server_dispatch_break
               ServerFacts.server_dispatch_idle).
    unfold idle_for, tagged. split.
    + intros (pre & d & m & H1 & H2 & H3 & [H4 H5] & H6). exists pre, d, m. auto 7.
    + intros (pre & d & m & H1 & H2 & H3 & H4 & H5 & H6). exists pre, d, m. auto 7.
  - intros msg_id ch a a' ch'.
    rewrite (receive_loop_idle_break_iff _ _ ScriptFacts.script_dispatch_break
               ScriptFacts.script_dispatch_idle).
    unfold idle_for, tagged. split.
    + intros (pre & d & m & H1 & H2 & H3 & [H4 H5] & H6). exists pre, d, m. auto 7.
    + intros (pre & d & m & H1 & H2 & H3 & H4 & H5 & H6). exists pre, d, m. auto 7.
Qed.

Lemma receive_loop_filters_by_request_witness :
  receive_loop Server.dispatch Server.on_timeout "m3"
    [msg "m1" (status "idle"); msg "m3" (stream "hi"); msg "m3" (status "idle")]
    (Server.Acc [] [] [])
  = receive_loop Server.dispatch Server.on_timeout "m3"
      [msg "m3" (stream "hi"); msg "m3" (status "idle")] (Server.Acc [] [] []) /\
  receive_loop Script.dispatch Script.on_timeout "m3"
    [msg "m1" (status "idle"); msg "m3" (stream "hi"); msg "m3" (status "idle")]
    (Script.Acc [] [])
  = receive_loop Script.dispatch Script.on_timeout "m3"
      [msg "m3" (stream "hi"); msg "m3" (status "idle")] (Script.Acc [] []).
Proof.
  destruct receive_loop_filters_by_request as (H1 & H2 & _).
  split.
  - apply H1; [vm_compute; discriminate | discriminate].
  - apply H2; [vm_compute; discriminate | discriminate].
Defined.

(** ** [execute_python] *)

(** C4, as the code has it.  The loop catches [asyncio.TimeoutError] and
    nothing else.  With the worker up, [execute_python] raises [e] exactly
    when the first event that does not pass is a receive failure [e] other
    than a timeout, received in time: the exception leaves the loop and the
    function, and no Result is built.  On a channel with no such failure
    [execute_python] returns a Result.  In both source files. *)
Theorem execute_python_raises_iff (m : machine) (k c : nat) (code : string) :
  km (state m) = Some k ->
  kc (state m) = Some c ->
  (forall e,
      fst (Server.execute_python code m) = Raised e <->
      exists pre d post,
        iopub (env m) = pre ++ Event d (inr e) :: post /\
        Forall (passes (hd EmptyString (execute_msg_ids (env m)))) pre /\
        d <= RECEIVE_TIMEOUT /\ e <> TimeoutError) /\
  (forall e,
      fst (Script.execute_python code m) = Raised e <->
      exists pre d post,
        iopub (env m) = pre ++ Event d (inr e) :: post /\
        Forall (passes (hd EmptyString (execute_msg_ids (env m)))) pre /\
        d <= RECEIVE_TIMEOUT /\ e <> TimeoutError) /\
  (Forall (fun ev => forall e, ev_payload ev = inr e -> e = TimeoutError)
          (iopub (env m)) ->
   (exists parts, fst (Server.execute_python code m) = Returned parts) /\
   (exists parts, fst (Script.execute_python code m) = Returned parts)).
Proof.
  intros Hk Hc.
  assert (HS : forall e,
      fst (Server.execute_python code m) = Raised e <->
      exists pre d post,
        iopub (env m) = pre ++ Event d (inr e) :: post /\
        Forall (passes (hd EmptyString (execute_msg_ids (env m)))) pre /\
        d <= RECEIVE_TIMEOUT /\ e <> TimeoutError).
  { intros e.
    rewrite (ServerFacts.server_execute_python_started code m k c Hk Hc).
    destruct (receive_loop _ _ _ _ _) as [[[x a]|e0] ch] eqn:Hl.
    - rewrite ServerFacts.server_result_parts_eq. cbn [fst]. split; [discriminate|].
      intros (pre & d & post & Hch & Hpre & Hd & He). exfalso.
      rewrite Hch in Hl.
      rewrite (receive_loop_ends_failed _ _ ServerFacts.server_dispatch_break)
        in Hl by assumption.
      discriminate Hl.
    - cbn [fst].
      apply (receive_loop_raises_iff _ _ ServerFacts.server_dispatch_break
               ServerFacts.server_dispatch_idle) in Hl.
      destruct Hl as (pre & d & Hch & Hpre & Hd & He). split.
      + intros [= <-]. exists pre, d, ch. auto.
      + intros (pre' & d' & post' & Hch' & Hpre' & Hd' & He').
        assert (Hl' := receive_loop_ends_failed Server.dispatch Server.on_timeout
                         ServerFacts.server_dispatch_break _ pre d e0 ch
                         (Server.Acc [] [] []) Hpre Hd He).
        rewrite <- Hch, Hch' in Hl'.
        rewrite (receive_loop_ends_failed _ _ ServerFacts.server_dispatch_break)
          in Hl' by assumption.
        congruence. }
  assert (HC : forall e,
      fst (Script.execute_python code m) = Raised e <->
      exists pre d post,
        iopub (env m) = pre ++ Event d (inr e) :: post /\
        Forall (passes (hd EmptyString (execute_msg_ids (env m)))) pre /\
        d <= RECEIVE_TIMEOUT /\ e <> TimeoutError).
  { intros e.
    rewrite (ScriptFacts.script_execute_python_started code m k c Hk Hc).
    destruct (receive_loop _ _ _ _ _) as [[[x a]|e0] ch] eqn:Hl.
    - rewrite ScriptFacts.script_result_parts_eq. cbn [fst]. split; [discriminate|].
      intros (pre & d & post & Hch & Hpre & Hd & He). exfalso.
      rewrite Hch in Hl.
      rewrite (receive_loop_ends_failed _ _ ScriptFacts.script_dispatch_break)
        in Hl by assumption.
      discriminate Hl.
    - cbn [fst].
      apply (receive_loop_raises_iff _ _ ScriptFacts.script_dispatch_break
               ScriptFacts.script_dispatch_idle) in Hl.
      destruct Hl as (pre & d & Hch & Hpre & Hd & He). split.
      + intros [= <-]. exists pre, d, ch. auto.
      + intros (pre' & d' & post' & Hch' & Hpre' & Hd' & He').
        assert (Hl' := receive_loop_ends_failed Script.dispatch Script.on_timeout
                         ScriptFacts.script_dispatch_break _ pre d e0 ch
                         (Script.Acc [] []) Hpre Hd He).
        rewrite <- Hch, Hch' in Hl'.
        rewrite (receive_loop_ends_failed _ _ ScriptFacts.script_dispatch_break)
          in Hl' by assumption.
        congruence. }
  split; [exact HS|]. split; [exact HC|].
  intros Hall.
  assert (Hno : forall e pre d post,
             iopub (env m) = pre ++ Event d (inr e) :: post -> e = TimeoutError).
  { intros e pre d post Hch. rewrite Hch in Hall.
    apply Forall_app in Hall as [_ Hall].
    apply Forall_cons in Hall as [Hev _]. apply Hev. reflexivity. }
  split.
  - assert (Hcase : (exists parts, fst (Server.execute_python code m) = Returned parts)
                     \/ exists e, fst (Server.execute_python code m) = Raised e)
      by (clear; destruct (fst (Server.execute_python code m)); eauto).
    destruct Hcase as [Hr|[e Hr]]; [exact Hr|].
    apply HS in Hr as (pre & d & post & Hch & _ & _ & He).
    exfalso. apply He. eapply Hno, Hch.
  - assert (Hcase : (exists parts, fst (Script.execute_python code m) = Returned parts)
                     \/ exists e, fst (Script.execute_python code m) = Raised e)
      by (clear; destruct (fst (Script.execute_python code m)); eauto).
    destruct Hcase as [Hr|[e Hr]]; [exact Hr|].
    apply HC in Hr as (pre & d & post & Hch & _ & _ & He).
    exfalso. apply He. eapply Hno, Hch.
Qed.

Lemma execute_python_raises_iff_witness :
  fst (Server.execute_python "print(1)" severed_machine)
    = Raised (RuntimeError "channel closed") /\
  (exists parts, fst (Script.execute_python "print(1)" idle_machine) = Returned parts).
Proof.
  split.
  - destruct (execute_python_raises_iff severed_machine 0%nat 1%nat "print(1)"
                eq_refl eq_refl) as (HS & _).
    apply HS. exists [msg "m1" (stream "partial")], 5, [].
    split; [reflexivity|]. split; [|split; [vm_compute; discriminate|discriminate]].
    constructor; [|constructor]. split; [vm_compute; discriminate|].
    eexists. split; [reflexivity|]. intros [_ H]. discriminate H.
  - destruct (execute_python_raises_iff idle_machine 0%nat 1%nat "print(1)"
                eq_refl eq_refl) as (_ & _ & H).
    apply H. constructor; [|constructor]. intros e H0. discriminate H0.
Defined.

(** C4 fails as stated.  The worker is up and the channel fails, within the
    budget, after one stream message: [execute_python] raises the error of
    the channel in both source files; there is no Result and no synthetic
    error entry. *)
Lemma execute_python_propagates_channel_failure :
  km (state severed_machine) = Some 0%nat /\
  kc (state severed_machine) = Some 1%nat /\
  fst (Server.execute_python "print(1)" severed_machine)
    = Raised (RuntimeError "channel closed") /\
  fst (Script.execute_python "print(1)" severed_machine)
    = Raised (RuntimeError "channel closed").
Proof. vm_compute. repeat split. Qed.

(** C5.  The budget of 30 seconds belongs to each receive: the events
    before ([pre]) only have to arrive within 30 seconds each, however long
    they take together.  When the next event exceeds the budget, the loop
    leaves by the [break] of the [except] clause with the notice
    "Execution timed out after 30 seconds" appended to the errors gathered so
    far, and [execute_python] returns a Result with the errors part.  The
    session is untouched: manager, client, identifier and start time are as
    before and the only call made is [kc.execute]; the late event stays on
    the channel, 30 seconds closer.  A following call is sent and received on
    the same client, and ends normally when its idle marker arrives.  In both
    source files. *)
Theorem receive_timeout_per_message
        (m : machine) (k c : nat) (code : string)
        (pre : list event) (d : Z) (p : message + exn) (post : list event) :
  km (state m) = Some k ->
  kc (state m) = Some c ->
  iopub (env m) = pre ++ Event d p :: post ->
  Forall (passes (hd EmptyString (execute_msg_ids (env m)))) pre ->
  RECEIVE_TIMEOUT < d ->
  let msg_id := hd EmptyString (execute_msg_ids (env m)) in
  let errs := spec_error_list msg_id (arrived pre) ++ [TIMEOUT_NOTICE] in
  let m1 := after_receive m c code (Event (d - RECEIVE_TIMEOUT) p :: post) in
  let m2 := after_result (S (length (spec_artifacts msg_id (arrived pre)))) m1 in
  let m2' := after_result 1 m1 in
  Server.receive code m =
    (Returned (timeout_break,
               Server.Acc (spec_text_output msg_id (arrived pre)) errs
                          (spec_artifacts msg_id (arrived pre))), m1) /\
  Script.receive code m =
    (Returned (timeout_break,
               Script.Acc (spec_text_output msg_id (arrived pre)) errs), m1) /\
  (exists parts,
      Server.execute_python code m = (Returned parts, m2) /\
      TextContent ("**Errors:**" +:+ LF +:+ "```python" +:+ LF +:+ join_lines errs
                     +:+ LF +:+ "```") ∈ parts) /\
  (exists parts,
      Script.execute_python code m = (Returned parts, m2') /\
      TextContent ("**Errors:**" +:+ LF +:+ "```python" +:+ LF +:+ join_lines errs
                     +:+ LF +:+ "```") ∈ parts) /\
  state m2 = state m /\ state m2' = state m /\
  calls (env m2) = calls (env m) ++ [execute_call c code msg_id] /\
  calls (env m2') = calls (env m) ++ [execute_call c code msg_id] /\
  (forall code2 pre2 d2 mi post2,
      Event (d - RECEIVE_TIMEOUT) p :: post = pre2 ++ Event d2 (inl mi) :: post2 ->
      Forall (passes (hd EmptyString (tl (execute_msg_ids (env m))))) pre2 ->
      d2 <= RECEIVE_TIMEOUT ->
      idle_for (hd EmptyString (tl (execute_msg_ids (env m)))) mi ->
      fst (Server.receive code2 m2) =
        Returned (idle_break,
                  Server.Acc
                    (spec_text_output (hd EmptyString (tl (execute_msg_ids (env m)))) (arrived pre2))
                    (spec_error_list (hd EmptyString (tl (execute_msg_ids (env m)))) (arrived pre2))
                    (spec_artifacts (hd EmptyString (tl (execute_msg_ids (env m)))) (arrived pre2))) /\
      fst (Script.receive code2 m2') =
        Returned (idle_break,
                  Script.Acc
                    (spec_text_output (hd EmptyString (tl (execute_msg_ids (env m)))) (arrived pre2))
                    (spec_error_list (hd EmptyString (tl (execute_msg_ids (env m)))) (arrived pre2)))).
Proof.
  intros Hk Hc Hch Hpre Hd msg_id errs m1 m2 m2'.
  assert (HS := ServerFacts.server_receive_ends_late code m k c pre d p post
                  Hk Hc Hch Hpre Hd).
  assert (HC := ScriptFacts.script_receive_ends_late code m k c pre d p post
                  Hk Hc Hch Hpre Hd).
  assert (Hne : errs <> []) by (subst errs; intros H; apply app_nil in H as [_ H]; discriminate H).
  split; [exact HS|]. split; [exact HC|].
  split; [|split; [|split; [|split; [|split; [|split]]]]].
  - rewrite (ServerFacts.server_execute_python_after _ _ _ _ _ HS).
    rewrite ServerFacts.server_result_parts_eq. eexists. split; [reflexivity|].
    cbn [Server.errors]. unfold errs, msg_id in Hne |- *.
    rewrite (ServerFacts.server_error_part_nonempty _ Hne).
    rewrite !elem_of_app. do 3 right. left. apply list_elem_of_here.
  - rewrite (ScriptFacts.script_execute_python_after _ _ _ _ _ HC).
    rewrite ScriptFacts.script_result_parts_eq. eexists. split; [reflexivity|].
    cbn [Script.errors]. unfold errs, msg_id in Hne |- *.
    rewrite (ScriptFacts.script_error_part_nonempty _ Hne).
    rewrite !elem_of_app. do 2 right. left. apply list_elem_of_here.
  - reflexivity.
  - reflexivity.
  - reflexivity.
  - reflexivity.
  - intros code2 pre2 d2 mi post2 Hch2 Hpre2 Hd2 Hi2. split.
    + rewrite (ServerFacts.server_receive_ends_idle code2 m2 k c pre2 d2 mi post2);
        try assumption; reflexivity.
    + rewrite (ScriptFacts.script_receive_ends_idle code2 m2' k c pre2 d2 mi post2);
        try assumption; reflexivity.
Qed.

Lemma receive_timeout_per_message_witness :
  fst (Server.receive "work()" sleepy_machine)
    = Returned (timeout_break, Server.Acc ["a"; "b"; "c"] [TIMEOUT_NOTICE] []) /\
  fst (Script.receive "work()" sleepy_machine)
    = Returned (timeout_break, Script.Acc ["a"; "b"; "c"] [TIMEOUT_NOTICE]) /\
  fst (Server.receive "print('next')"
         (snd (Server.execute_python "work()" sleepy_machine)))
    = Returned (idle_break, Server.Acc ["next"] [] []).
Proof.
  destruct (receive_timeout_per_message sleepy_machine 0%nat 1%nat "work()"
              [Event 20000 (inl (Message (Some "m1") (stream "a")));
               Event 20000 (inl (Message (Some "m1") (stream "b")));
               Event 20000 (inl (Message (Some "m1") (stream "c")))]
              40000 (inl (Message (Some "m1") (stream "late")))
              [msg "m1" (status "idle"); msg "m2" (stream "next");
               msg "m2" (status "idle")])
    as (HS & HC & _ & _ & _ & _ & _ & _ & Hnext).
  - reflexivity.
  - reflexivity.
  - reflexivity.
  - repeat constructor; try (vm_compute; discriminate);
      (eexists; split; [reflexivity|]; intros [_ H]; discriminate H).
  - reflexivity.
  - split; [rewrite HS; reflexivity|]. split; [rewrite HC; reflexivity|].
    refine (proj1 (Hnext "print('next')"
                     [Event 10000 (inl (Message (Some "m1") (stream "late")));
                      msg "m1" (status "idle"); msg "m2" (stream "next")]
                     10 (Message (Some "m2") (status "idle")) [] eq_refl _ _ _)).
    + repeat constructor; try (vm_compute; discriminate);
        (eexists; split; [reflexivity|]; intros [H1 H2];
         first [discriminate H1 | discriminate H2]).
    + vm_compute; discriminate.
    + split; reflexivity.
Defined.

(** Sixty seconds of output, no receive longer than twenty: no timeout. *)
Example budget_is_not_cumulative :
  fst (receive_loop Server.dispatch Server.on_timeout "m1"
         [Event 20000 (inl (Message (Some "m1") (stream "a")));
          Event 20000 (inl (Message (Some "m1") (stream "b")));
          Event 20000 (inl (Message (Some "m1") (stream "c")));
          Event 20000 (inl (Message (Some "m1") (status "idle")))]
         (Server.Acc [] [] []))
  = Returned (idle_break, Server.Acc ["a"; "b"; "c"] [] []).
Proof. reflexivity. Qed.

(** ** The messages of an execution, one by one *)

Lemma arrived_app evs1 evs2 : arrived (evs1 ++ evs2) = arrived evs1 ++ arrived evs2.
Proof. unfold arrived. apply omap_app. Qed.

Lemma error_message_passes msg_id d m tb :
  d <= RECEIVE_TIMEOUT -> msg_content m = error tb ->
  passes msg_id (Event d (inl m)).
Proof.
  intros Hd Hc. split; [exact Hd|]. exists m. split; [reflexivity|].
  intros [_ H]. congruence.
Qed.

(** The lists of a channel with an error message of the request between the
    events [pre] and [mid]. *)
Lemma spec_lists_around_error msg_id pre d m tb mid :
  tagged msg_id m -> msg_content m = error tb ->
  spec_text_output msg_id (arrived (pre ++ Event d (inl m) :: mid))
    = spec_text_output msg_id (arrived pre) ++ spec_text_output msg_id (arrived mid) /\
  spec_error_list msg_id (arrived (pre ++ Event d (inl m) :: mid))
    = spec_error_list msg_id (arrived pre) ++ tb ++ spec_error_list msg_id (arrived mid) /\
  spec_artifacts msg_id (arrived (pre ++ Event d (inl m) :: mid))
    = spec_artifacts msg_id (arrived pre) ++ spec_artifacts msg_id (arrived mid).
Proof.
  intros Ht Hc. rewrite arrived_app, arrived_cons. cbn [ev_payload].
  unfold spec_text_output, spec_error_list, spec_artifacts.
  rewrite !flat_map_app. cbn [flat_map].
  unfold spec_text_of at 2, spec_errors_of at 2, spec_artifacts_of at 2.
  rewrite !bool_decide_true by exact Ht. rewrite Hc. auto.
Qed.

(** The lists of a channel around one message. *)
Lemma spec_lists_around msg_id pre d m mid :
  spec_text_output msg_id (arrived (pre ++ Event d (inl m) :: mid))
    = spec_text_output msg_id (arrived pre) ++ spec_text_of msg_id m
        ++ spec_text_output msg_id (arrived mid) /\
  spec_error_list msg_id (arrived (pre ++ Event d (inl m) :: mid))
    = spec_error_list msg_id (arrived pre) ++ spec_errors_of msg_id m
        ++ spec_error_list msg_id (arrived mid) /\
  spec_artifacts msg_id (arrived (pre ++ Event d (inl m) :: mid))
    = spec_artifacts msg_id (arrived pre) ++ spec_artifacts_of msg_id m
        ++ spec_artifacts msg_id (arrived mid).
Proof.
  rewrite arrived_app, arrived_cons. cbn [ev_payload].
  unfold spec_text_output, spec_error_list, spec_artifacts.
  rewrite !flat_map_app. cbn [flat_map]. auto.
Qed.

Lemma content_message_passes msg_id d m :
  d <= RECEIVE_TIMEOUT ->
  (forall st, msg_content m <> status st) ->
  passes msg_id (Event d (inl m)).
Proof.
  intros Hd Hc. split; [exact Hd|]. exists m. split; [reflexivity|].
  intros [_ H]. exact (Hc _ H).
Qed.

(** C7.  In both source files an error message of the current request
    appends its traceback lines, in their order, to [errors] and the loop
    goes on with the rest of the channel.  So for an execution that prints,
    raises and comes to its idle marker (the events [pre], the error
    message, the events [mid], the marker): the errors are those gathered
    before, the traceback, those gathered after; the text output is what was
    printed before the fault followed by what came after, each in arrival
    order; and when the traceback has a line, the Result has the errors
    part and not the success line. *)
Theorem error_message_is_folded_and_loop_goes_on :
  (forall msg_id d m tb rest a,
      d <= RECEIVE_TIMEOUT ->
      parent_msg_id m = Some msg_id ->
      msg_content m = error tb ->
      receive_loop Server.dispatch Server.on_timeout msg_id
                   (Event d (inl m) :: rest) a
      = receive_loop Server.dispatch Server.on_timeout msg_id rest
          (Server.Acc (Server.outputs a) (Server.errors a ++ tb) (Server.images a))) /\
  (forall msg_id d m tb rest a,
      d <= RECEIVE_TIMEOUT ->
      parent_msg_id m = Some msg_id ->
      msg_content m = error tb ->
      receive_loop Script.dispatch Script.on_timeout msg_id
                   (Event d (inl m) :: rest) a
      = receive_loop Script.dispatch Script.on_timeout msg_id rest
          (Script.Acc (Script.outputs a) (Script.errors a ++ tb))) /\
  (forall m k c code pre d me tb mid d' mi post,
      km (state m) = Some k ->
      kc (state m) = Some c ->
      iopub (env m) = (pre ++ Event d (inl me) :: mid) ++ Event d' (inl mi) :: post ->
      Forall (passes (hd EmptyString (execute_msg_ids (env m)))) pre ->
      Forall (passes (hd EmptyString (execute_msg_ids (env m)))) mid ->
      d <= RECEIVE_TIMEOUT -> d' <= RECEIVE_TIMEOUT ->
      parent_msg_id me = Some (hd EmptyString (execute_msg_ids (env m))) ->
      msg_content me = error tb ->
      tb <> [] ->
      idle_for (hd EmptyString (execute_msg_ids (env m))) mi ->
      let msg_id := hd EmptyString (execute_msg_ids (env m)) in
      let outs := spec_text_output msg_id (arrived pre)
                    ++ spec_text_output msg_id (arrived mid) in
      let errs := spec_error_list msg_id (arrived pre) ++ tb
                    ++ spec_error_list msg_id (arrived mid) in
      let imgs := spec_artifacts msg_id (arrived pre)
                    ++ spec_artifacts msg_id (arrived mid) in
      errs <> [] /\
      fst (Server.receive code m) = Returned (idle_break, Server.Acc outs errs imgs) /\
      fst (Script.receive code m) = Returned (idle_break, Script.Acc outs errs) /\
      (exists parts,
          fst (Server.execute_python code m) = Returned parts /\
          TextContent ("**Errors:**" +:+ LF +:+ "```python" +:+ LF +:+ join_lines errs
                         +:+ LF +:+ "```") ∈ parts /\
          TextContent Server.SUCCESS ∉ parts) /\
      (exists parts,
          fst (Script.execute_python code m) = Returned parts /\
          TextContent ("**Errors:**" +:+ LF +:+ "```python" +:+ LF +:+ join_lines errs
                         +:+ LF +:+ "```") ∈ parts /\
          TextContent Script.SUCCESS ∉ parts)).
Proof.
  split; [|split].
  - intros msg_id d m tb rest a Hd Ht Hc.
    rewrite (receive_loop_pass _ _ ServerFacts.server_dispatch_break
               msg_id (Event d (inl m)) m rest a Hd eq_refl)
      by (intros [_ H]; congruence).
    rewrite ServerFacts.server_absorb_spec.
    unfold spec_text_of, spec_errors_of, spec_artifacts_of.
    rewrite !bool_decide_true by exact Ht. rewrite Hc, !app_nil_r. reflexivity.
  - intros msg_id d m tb rest a Hd Ht Hc.
    rewrite (receive_loop_pass _ _ ScriptFacts.script_dispatch_break
               msg_id (Event d (inl m)) m rest a Hd eq_refl)
      by (intros [_ H]; congruence).
    rewrite ScriptFacts.script_absorb_spec.
    unfold spec_text_of, spec_errors_of.
    rewrite !bool_decide_true by exact Ht. rewrite Hc, !app_nil_r. reflexivity.
  - intros m k c code pre d me tb mid d' mi post Hk Hc Hch Hpre Hmid Hd Hd' Ht Hce
           Htb Hi msg_id outs errs imgs.
    assert (Hall : Forall (passes msg_id) (pre ++ Event d (inl me) :: mid)).
    { apply Forall_app. split; [exact Hpre|]. constructor; [|exact Hmid].
      eapply error_message_passes; eassumption. }
    destruct (spec_lists_around_error msg_id pre d me tb mid Ht Hce) as (Ho & He & Him).
    assert (HS := ServerFacts.server_receive_ends_idle code m k c _ d' mi post
                    Hk Hc Hch Hall Hd' Hi).
    assert (HC := ScriptFacts.script_receive_ends_idle code m k c _ d' mi post
                    Hk Hc Hch Hall Hd' Hi).
    fold msg_id in HS, HC. rewrite Ho, He in HS, HC. rewrite Him in HS.
    fold outs errs in HS, HC. fold imgs in HS.
    assert (Hne : errs <> []).
    { unfold errs. intros H. apply app_nil in H as [_ H].
      apply app_nil in H as [H _]. contradiction. }
    split; [exact Hne|]. split; [rewrite HS; reflexivity|].
    split; [rewrite HC; reflexivity|]. split.
    + pose proof (ServerFacts.server_success_in_result code
                    (Server.Acc outs errs imgs) (after_receive m c code post)) as Hs.
      rewrite (ServerFacts.server_execute_python_after _ _ _ _ _ HS).
      rewrite ServerFacts.server_result_parts_eq in Hs |- *. cbn [fst] in Hs |- *.
      eexists. split; [reflexivity|]. split.
      * cbn [Server.errors]. rewrite (ServerFacts.server_error_part_nonempty _ Hne).
        rewrite !elem_of_app. do 3 right. left. apply list_elem_of_here.
      * intros Hin. destruct (Hs Hin) as (_ & Herr & _). exact (Hne Herr).
    + pose proof (ScriptFacts.script_success_in_result code
                    (Script.Acc outs errs) (after_receive m c code post)) as Hs.
      rewrite (ScriptFacts.script_execute_python_after _ _ _ _ _ HC).
      rewrite ScriptFacts.script_result_parts_eq in Hs |- *. cbn [fst] in Hs |- *.
      eexists. split; [reflexivity|]. split.
      * cbn [Script.errors]. rewrite (ScriptFacts.script_error_part_nonempty _ Hne).
        rewrite !elem_of_app. do 2 right. left. apply list_elem_of_here.
      * intros Hin. destruct (Hs Hin) as (_ & Herr). exact (Hne Herr).
Qed.

Lemma error_message_is_folded_and_loop_goes_on_witness :
  receive_loop Script.dispatch Script.on_timeout "m1"
    [msg "m1" (error ["ZeroDivisionError: division by zero"]);
     msg "m1" (stream "after")] (Script.Acc ["before"] [])
  = receive_loop Script.dispatch Script.on_timeout "m1"
      [msg "m1" (stream "after")]
      (Script.Acc ["before"] ["ZeroDivisionError: division by zero"]) /\
  fst (Server.receive "print('before'); 1/0" faulty_machine)
  = Returned (idle_break,
              Server.Acc ["before"]
                         ["Traceback (most recent call last)";
                          "ZeroDivisionError: division by zero"] []).
Proof.
  destruct error_message_is_folded_and_loop_goes_on as (_ & H2 & H3).
  split.
  - apply (H2 "m1" 10 _ ["ZeroDivisionError: division by zero"]);
      [vm_compute; discriminate|reflexivity|reflexivity].
  - refine (proj1 (proj2
      (H3 faulty_machine 0%nat 1%nat "print('before'); 1/0"
          [msg "m1" (status "busy"); msg "m1" (stream "before")]
          10 (Message (Some "m1")
                (error ["Traceback (most recent call last)";
                        "ZeroDivisionError: division by zero"]))
          ["Traceback (most recent call last)";
           "ZeroDivisionError: division by zero"]
          [] 10 (Message (Some "m1") (status "idle")) []
          eq_refl eq_refl eq_refl _ _ _ _ eq_refl eq_refl _ _))).
    + repeat constructor; try (vm_compute; discriminate);
        (eexists; split; [reflexivity|]; intros [H1 H]; discriminate H).
    + constructor.
    + vm_compute; discriminate.
    + vm_compute; discriminate.
    + discriminate.
    + split; reflexivity.
Defined.

(** C8.  In [server.py] a display message of the current request with an
    "image/png" entry appends that payload to [images] and leaves [outputs]
    and [errors] as they are; the loop goes on.  For an execution that comes
    to its idle marker, the text output is that of the other messages, and
    the Result has an embedded resource of media type "image/png" whose blob
    is the payload. *)
Theorem display_image_becomes_artifact :
  (forall msg_id d m data img rest a,
      d <= RECEIVE_TIMEOUT ->
      parent_msg_id m = Some msg_id ->
      msg_content m = display_data data ->
      data !! "image/png" = Some img ->
      receive_loop Server.dispatch Server.on_timeout msg_id
                   (Event d (inl m) :: rest) a
      = receive_loop Server.dispatch Server.on_timeout msg_id rest
          (Server.Acc (Server.outputs a) (Server.errors a) (Server.images a ++ [img]))) /\
  (forall m k c code pre d md data img mid d' mi post,
      km (state m) = Some k ->
      kc (state m) = Some c ->
      iopub (env m) = (pre ++ Event d (inl md) :: mid) ++ Event d' (inl mi) :: post ->
      Forall (passes (hd EmptyString (execute_msg_ids (env m)))) pre ->
      Forall (passes (hd EmptyString (execute_msg_ids (env m)))) mid ->
      d <= RECEIVE_TIMEOUT -> d' <= RECEIVE_TIMEOUT ->
      parent_msg_id md = Some (hd EmptyString (execute_msg_ids (env m))) ->
      msg_content md = display_data data ->
      data !! "image/png" = Some img ->
      idle_for (hd EmptyString (execute_msg_ids (env m))) mi ->
      let msg_id := hd EmptyString (execute_msg_ids (env m)) in
      let outs := spec_text_output msg_id (arrived pre)
                    ++ spec_text_output msg_id (arrived mid) in
      let errs := spec_error_list msg_id (arrived pre)
                    ++ spec_error_list msg_id (arrived mid) in
      let imgs := spec_artifacts msg_id (arrived pre) ++ [img]
                    ++ spec_artifacts msg_id (arrived mid) in
      fst (Server.receive code m) = Returned (idle_break, Server.Acc outs errs imgs) /\
      exists parts uri,
        fst (Server.execute_python code m) = Returned parts /\
        EmbeddedResource uri "image/png" (Blob img) ∈ parts /\
        Server.output_part outs ⊆ parts).
Proof.
  split.
  - intros msg_id d m data img rest a Hd Ht Hc Hi.
    rewrite (receive_loop_pass _ _ ServerFacts.server_dispatch_break
               msg_id (Event d (inl m)) m rest a Hd eq_refl)
      by (intros [_ H]; congruence).
    rewrite ServerFacts.server_absorb_spec.
    unfold spec_text_of, spec_errors_of, spec_artifacts_of.
    rewrite !bool_decide_true by exact Ht. rewrite Hc, Hi, !app_nil_r. reflexivity.
  - intros m k c code pre d md data img mid d' mi post Hk Hc Hch Hpre Hmid Hd Hd'
           Ht Hcd Himg Hi msg_id outs errs imgs.
    assert (Hall : Forall (passes msg_id) (pre ++ Event d (inl md) :: mid)).
    { apply Forall_app. split; [exact Hpre|]. constructor; [|exact Hmid].
      apply content_message_passes; [exact Hd|]. intros st. congruence. }
    destruct (spec_lists_around msg_id pre d md mid) as (Ho & He & Him).
    unfold spec_text_of in Ho. unfold spec_errors_of in He.
    unfold spec_artifacts_of in Him.
    rewrite !bool_decide_true in Ho, He, Him by exact Ht.
    rewrite Hcd in Ho, He, Him. rewrite Himg in Him. cbn [app] in Ho, He.
    assert (HS := ServerFacts.server_receive_ends_idle code m k c _ d' mi post
                    Hk Hc Hch Hall Hd' Hi).
    fold msg_id in HS. rewrite Ho, He, Him in HS. fold outs errs imgs in HS.
    split; [rewrite HS; reflexivity|].
    rewrite (ServerFacts.server_execute_python_after _ _ _ _ _ HS).
    rewrite ServerFacts.server_result_parts_eq. cbn [fst Server.images Server.outputs].
    destruct (ServerFacts.server_image_in_resources
                (uuid4_values (env (after_receive m c code post))) imgs img)
      as [uri Hu].
    { unfold imgs. rewrite !elem_of_app. right. left. apply list_elem_of_here. }
    eexists. exists uri. split; [reflexivity|]. split.
    + rewrite !elem_of_app. right. left. exact Hu.
    + intros x Hx. rewrite !elem_of_app. do 2 right. left. exact Hx.
Qed.

Lemma display_image_becomes_artifact_witness :
  fst (Server.receive "plt.plot(xs)" plotting_machine)
  = Returned (idle_break, Server.Acc ["plotting"] [] ["iVBORw0KGgo="]) /\
  exists parts uri,
    fst (Server.execute_python "plt.plot(xs)" plotting_machine) = Returned parts /\
    EmbeddedResource uri "image/png" (Blob "iVBORw0KGgo=") ∈ parts /\
    Server.output_part ["plotting"] ⊆ parts.
Proof.
  destruct display_image_becomes_artifact as (_ & H).
  refine (H plotting_machine 0%nat 1%nat "plt.plot(xs)"
            [msg "m1" (stream "plotting")]
            10 (Message (Some "m1") (display_data {["image/png" := "iVBORw0KGgo="]}))
            {["image/png" := "iVBORw0KGgo="]} "iVBORw0KGgo="
            [] 10 (Message (Some "m1") (status "idle")) []
            eq_refl eq_refl eq_refl _ _ _ _ eq_refl eq_refl _ _).
  - repeat constructor; try (vm_compute; discriminate);
      (eexists; split; [reflexivity|]; intros [H1 H2]; discriminate H2).
  - constructor.
  - vm_compute; discriminate.
  - vm_compute; discriminate.
  - vm_compute. reflexivity.
  - split; reflexivity.
Defined.

(** C10.  In both source files a final-value message of the current request
    whose data has no "text/plain" entry appends the empty string to
    [outputs].  For an execution that comes to its idle marker, [outputs] is
    then not empty, whatever else arrived: the Result has an output part and
    does not have the success line. *)
Theorem textless_result_suppresses_success_line :
  (forall data a b,
      data !! "text/plain" = None ->
      Server.dispatch (execute_result data) a
      = Continue (Server.Acc (Server.outputs a ++ [EmptyString])
                             (Server.errors a) (Server.images a)) /\
      Script.dispatch (execute_result data) b
      = Continue (Script.Acc (Script.outputs b ++ [EmptyString]) (Script.errors b))) /\
  (forall m k c code pre d mr data mid d' mi post,
      km (state m) = Some k ->
      kc (state m) = Some c ->
      iopub (env m) = (pre ++ Event d (inl mr) :: mid) ++ Event d' (inl mi) :: post ->
      Forall (passes (hd EmptyString (execute_msg_ids (env m)))) pre ->
      Forall (passes (hd EmptyString (execute_msg_ids (env m)))) mid ->
      d <= RECEIVE_TIMEOUT -> d' <= RECEIVE_TIMEOUT ->
      parent_msg_id mr = Some (hd EmptyString (execute_msg_ids (env m))) ->
      msg_content mr = execute_result data ->
      data !! "text/plain" = None ->
      idle_for (hd EmptyString (execute_msg_ids (env m))) mi ->
      let msg_id := hd EmptyString (execute_msg_ids (env m)) in
      let outs := spec_text_output msg_id (arrived pre) ++ [EmptyString]
                    ++ spec_text_output msg_id (arrived mid) in
      let errs := spec_error_list msg_id (arrived pre)
                    ++ spec_error_list msg_id (arrived mid) in
      let imgs := spec_artifacts msg_id (arrived pre)
                    ++ spec_artifacts msg_id (arrived mid) in
      fst (Server.receive code m) = Returned (idle_break, Server.Acc outs errs imgs) /\
      fst (Script.receive code m) = Returned (idle_break, Script.Acc outs errs) /\
      (exists parts,
          fst (Server.execute_python code m) = Returned parts /\
          TextContent ("**Output:**" +:+ LF +:+ "```" +:+ LF +:+ join_lines outs
                         +:+ LF +:+ "```") ∈ parts /\
          TextContent Server.SUCCESS ∉ parts) /\
      (exists parts,
          fst (Script.execute_python code m) = Returned parts /\
          TextContent ("**Output:**" +:+ LF +:+ "```" +:+ LF +:+ join_lines outs
                         +:+ LF +:+ "```") ∈ parts /\
          TextContent Script.SUCCESS ∉ parts)).
Proof.
  split.
  - intros data a b Hd. cbn. rewrite Hd. auto.
  - intros m k c code pre d mr data mid d' mi post Hk Hc Hch Hpre Hmid Hd Hd'
           Ht Hcr Hdata Hi msg_id outs errs imgs.
    assert (Hall : Forall (passes msg_id) (pre ++ Event d (inl mr) :: mid)).
    { apply Forall_app. split; [exact Hpre|]. constructor; [|exact Hmid].
      apply content_message_passes; [exact Hd|]. intros st. congruence. }
    destruct (spec_lists_around msg_id pre d mr mid) as (Ho & He & Him).
    unfold spec_text_of in Ho. unfold spec_errors_of in He.
    unfold spec_artifacts_of in Him.
    rewrite !bool_decide_true in Ho, He, Him by exact Ht.
    rewrite Hcr in Ho, He, Him. rewrite Hdata in Ho. cbn [app default] in Ho, He, Him.
    assert (HS := ServerFacts.server_receive_ends_idle code m k c _ d' mi post
                    Hk Hc Hch Hall Hd' Hi).
    assert (HC := ScriptFacts.script_receive_ends_idle code m k c _ d' mi post
                    Hk Hc Hch Hall Hd' Hi).
    fold msg_id in HS, HC. rewrite Ho, He in HS, HC. rewrite Him in HS.
    change (spec_text_output msg_id (arrived pre)
              ++ EmptyString :: spec_text_output msg_id (arrived mid))
      with outs in HS, HC.
    fold errs in HS, HC. fold imgs in HS.
    assert (Hne : outs <> []).
    { unfold outs. intros H. apply app_nil in H as [_ H]. discriminate H. }
    split; [rewrite HS; reflexivity|]. split; [rewrite HC; reflexivity|]. split.
    + pose proof (ServerFacts.server_success_in_result code
                    (Server.Acc outs errs imgs) (after_receive m c code post)) as Hs.
      rewrite (ServerFacts.server_execute_python_after _ _ _ _ _ HS).
      rewrite ServerFacts.server_result_parts_eq in Hs |- *. cbn [fst] in Hs |- *.
      eexists. split; [reflexivity|]. split.
      * cbn [Server.outputs]. rewrite (ServerFacts.server_output_part_nonempty _ Hne).
        rewrite !elem_of_app. do 2 right. left. apply list_elem_of_here.
      * intros Hin. destruct (Hs Hin) as (Hout & _). exact (Hne Hout).
    + pose proof (ScriptFacts.script_success_in_result code
                    (Script.Acc outs errs) (after_receive m c code post)) as Hs.
      rewrite (ScriptFacts.script_execute_python_after _ _ _ _ _ HC).
      rewrite ScriptFacts.script_result_parts_eq in Hs |- *. cbn [fst] in Hs |- *.
      eexists. split; [reflexivity|]. split.
      * cbn [Script.outputs]. rewrite (ScriptFacts.script_output_part_nonempty _ Hne).
        rewrite !elem_of_app. right. left. apply list_elem_of_here.
      * intros Hin. destruct (Hs Hin) as (Hout & _). exact (Hne Hout).
Qed.

Lemma textless_result_suppresses_success_line_witness :
  fst (Server.receive "HTML(x)" textless_machine)
    = Returned (idle_break, Server.Acc [EmptyString] [] []) /\
  fst (Script.receive "HTML(x)" textless_machine)
    = Returned (idle_break, Script.Acc [EmptyString] []) /\
  (exists parts,
      fst (Server.execute_python "HTML(x)" textless_machine) = Returned parts /\
      TextContent ("**Output:**" +:+ LF +:+ "```" +:+ LF +:+ join_lines [EmptyString]
                     +:+ LF +:+ "```") ∈ parts /\
      TextContent Server.SUCCESS ∉ parts) /\
  (exists parts,
      fst (Script.execute_python "HTML(x)" textless_machine) = Returned parts /\
      TextContent ("**Output:**" +:+ LF +:+ "```" +:+ LF +:+ join_lines [EmptyString]
                     +:+ LF +:+ "```") ∈ parts /\
      TextContent Script.SUCCESS ∉ parts).
Proof.
  destruct textless_result_suppresses_success_line as (_ & H).
  refine (H textless_machine 0%nat 1%nat "HTML(x)" []
            10 (Message (Some "m1") (execute_result {["text/html" := "<b>x</b>"]}))
            {["text/html" := "<b>x</b>"]}
            [] 10 (Message (Some "m1") (status "idle")) []
            eq_refl eq_refl eq_refl _ _ _ _ eq_refl eq_refl _ _).
  - constructor.
  - constructor.
  - vm_compute; discriminate.
  - vm_compute; discriminate.
  - vm_compute. reflexivity.
  - split; reflexivity.
Defined.

(** The whole Result of [server.py] when the only thing the code gives is a
    final value without plain text: an output part around an empty line and
    no success line among the parts, while the HTML page, which looks at
    the joined text, shows its success line. *)
Example textless_result_parts :
  fst (Server.execute_python "HTML(x)" textless_machine) =
  Returned
    [KernelInfo "3f2a9c1e" 500;
     TextContent ("**Executed:**" +:+ LF +:+ "```python" +:+ LF +:+ "HTML(x)"
                    +:+ LF +:+ "```");
     TextContent ("**Output:**" +:+ LF +:+ "```" +:+ LF +:+ LF +:+ "```");
     EmbeddedResource "ui://pykernel_mcp/result-uuid-a" "text/html"
       (Html (UiHtml None "HTML(x)" [] None None true))].
Proof. vm_compute. reflexivity. Qed.

(** ** Two calls at once *)

Section EventLoopFacts.
Context {A : Type}.
Variable dispatch : content -> A -> step A.
Variable on_timeout : A -> A.
Variable empty : A.
Variables outs errs imgs : A -> list string.

Hypothesis empty_lists : outs empty = [] /\ errs empty = [] /\ imgs empty = [].
Hypothesis absorb_lists : forall msg_id a m,
  sublist (outs (absorb dispatch msg_id a m)) (outs a ++ spec_text_of msg_id m) /\
  sublist (errs (absorb dispatch msg_id a m)) (errs a ++ spec_errors_of msg_id m) /\
  sublist (imgs (absorb dispatch msg_id a m)) (imgs a ++ spec_artifacts_of msg_id m).
Hypothesis on_timeout_lists : forall a,
  outs (on_timeout a) = outs a /\
  errs (on_timeout a) = errs a ++ [TIMEOUT_NOTICE] /\
  imgs (on_timeout a) = imgs a.

Local Abbreviation ok := (gathered outs errs imgs).

Lemma spec_lists_snoc msg_id seen m :
  spec_text_output msg_id (seen ++ [m])
    = spec_text_output msg_id seen ++ spec_text_of msg_id m /\
  spec_error_list msg_id (seen ++ [m])
    = spec_error_list msg_id seen ++ spec_errors_of msg_id m /\
  spec_artifacts msg_id (seen ++ [m])
    = spec_artifacts msg_id seen ++ spec_artifacts_of msg_id m.
Proof.
  unfold spec_text_output, spec_error_list, spec_artifacts.
  rewrite !flat_map_app. cbn [flat_map]. rewrite !app_nil_r. auto.
Qed.

(** What a call has gathered is not touched by a message that goes to the
    other call. *)
Lemma gathered_seen_more seen m k : ok seen k -> ok (seen ++ [m]) k.
Proof.
  destruct k as [code|msg_id a|msg_id x a|msg_id e]; cbn; try exact id.
  - destruct (spec_lists_snoc msg_id seen m) as (-> & -> & ->).
    intros (H1 & H2 & H3).
    split; [|split]; apply sublist_inserts_r; assumption.
  - destruct (spec_lists_snoc msg_id seen m) as (-> & -> & ->).
    intros (H1 & H2 & H3). split; [|split].
    + apply sublist_inserts_r; assumption.
    + rewrite <- app_assoc. etransitivity; [exact H2|].
      apply sublist_app; [reflexivity|]. apply sublist_inserts_l. reflexivity.
    + apply sublist_inserts_r; assumption.
Qed.

(** One iteration of a suspended call on the message [m]. *)
Lemma gathered_received seen msg_id a m :
  ok seen (Waiting msg_id a) ->
  ok (seen ++ [m])
     (match loop_body dispatch on_timeout msg_id (Returned m) a with
      | Next a' => Waiting msg_id a'
      | Leave x a' => Finished msg_id x a'
      | Throw e => Crashed msg_id e
      end).
Proof.
  intros (H1 & H2 & H3).
  destruct (absorb_lists msg_id a m) as (A1 & A2 & A3).
  destruct (spec_lists_snoc msg_id seen m) as (E1 & E2 & E3).
  assert (G1 : sublist (outs (absorb dispatch msg_id a m))
                       (spec_text_output msg_id (seen ++ [m]))).
  { rewrite E1. etransitivity; [exact A1|]. apply sublist_app; [exact H1|reflexivity]. }
  assert (G2 : sublist (errs (absorb dispatch msg_id a m))
                       (spec_error_list msg_id (seen ++ [m]))).
  { rewrite E2. etransitivity; [exact A2|]. apply sublist_app; [exact H2|reflexivity]. }
  assert (G3 : sublist (imgs (absorb dispatch msg_id a m))
                       (spec_artifacts msg_id (seen ++ [m]))).
  { rewrite E3. etransitivity; [exact A3|]. apply sublist_app; [exact H3|reflexivity]. }
  clear A1 A2 A3 E1 E2 E3. revert G1 G2 G3.
  unfold absorb, loop_body.
  destruct (bool_decide (parent_msg_id m <> Some msg_id)).
  - cbn. auto.
  - destruct (dispatch (msg_content m) a) as [a'|a']; cbn; intros G1 G2 G3.
    + auto.
    + split; [exact G1|]. split; [|exact G3].
      apply sublist_inserts_r. exact G2.
Qed.

(** One iteration of a suspended call whose receive times out. *)
Lemma gathered_expired seen msg_id a :
  ok seen (Waiting msg_id a) ->
  ok seen (match loop_body dispatch on_timeout msg_id (Raised TimeoutError) a with
           | Next a' => Waiting msg_id a'
           | Leave x a' => Finished msg_id x a'
           | Throw e => Crashed msg_id e
           end).
Proof.
  intros (H1 & H2 & H3). cbn.
  destruct (on_timeout_lists a) as (-> & -> & ->).
  split; [exact H1|]. split; [|exact H3].
  apply sublist_app; [exact H2|reflexivity].
Qed.

(** The invariant of the event loop: the messages of [chan] not on the
    channel any more are the messages [seen], and both calls have gathered
    from them what is theirs. *)
Lemma event_loop_step_gathered chan t act :
  (exists seen, chan = seen ++ channel t /\
                ok seen (task1 t) /\ ok seen (task2 t)) ->
  exists seen, chan = seen ++ channel (event_loop_step dispatch on_timeout empty t act) /\
               ok seen (task1 (event_loop_step dispatch on_timeout empty t act)) /\
               ok seen (task2 (event_loop_step dispatch on_timeout empty t act)).
Proof.
  intros (seen & Hch & H1 & H2).
  destruct empty_lists as (Eo & Ee & Ei).
  destruct t as [k1 k2 ids ch]. cbn [channel task1 task2] in *.
  destruct act as [[]|[]|[]]; unfold event_loop_step, resume, task_of, set_task;
    cbn [task1 task2 msg_ids channel].
  - destruct k1; cbn; try (exists seen; auto; fail).
    exists seen. cbn. rewrite Eo, Ee, Ei.
    repeat split; try assumption; apply sublist_nil_l.
  - destruct k2; cbn; try (exists seen; auto; fail).
    exists seen. cbn. rewrite Eo, Ee, Ei.
    repeat split; try assumption; apply sublist_nil_l.
  - destruct k1 as [code|msg_id a|msg_id x a|msg_id e];
      try (exists seen; auto; fail).
    destruct ch as [|m rest]; [exists seen; auto|].
    cbn [task1 task2 msg_ids channel].
    exists (seen ++ [m]). rewrite <- app_assoc. split; [exact Hch|]. split.
    + apply gathered_received. exact H1.
    + apply gathered_seen_more. exact H2.
  - destruct k2 as [code|msg_id a|msg_id x a|msg_id e];
      try (destruct k1; exists seen; auto; fail).
    destruct ch as [|m rest]; [exists seen; auto|].
    cbn [task1 task2 msg_ids channel].
    exists (seen ++ [m]). rewrite <- app_assoc. split; [exact Hch|]. split.
    + apply gathered_seen_more. exact H1.
    + apply gathered_received. exact H2.
  - destruct k1 as [code|msg_id a|msg_id x a|msg_id e];
      try (exists seen; auto; fail).
    cbn [task1 task2 msg_ids channel].
    exists seen. split; [exact Hch|]. split; [|exact H2].
    apply gathered_expired. exact H1.
  - destruct k2 as [code|msg_id a|msg_id x a|msg_id e];
      try (exists seen; auto; fail).
    cbn [task1 task2 msg_ids channel].
    exists seen. split; [exact Hch|]. split; [exact H1|].
    apply gathered_expired. exact H2.
Qed.

Lemma event_loop_gathered chan schedule t :
  (exists seen, chan = seen ++ channel t /\
                ok seen (task1 t) /\ ok seen (task2 t)) ->
  exists seen rest, chan = seen ++ rest /\
    ok seen (task1 (event_loop dispatch on_timeout empty schedule t)) /\
    ok seen (task2 (event_loop dispatch on_timeout empty schedule t)).
Proof.
  revert t. induction schedule as [|act schedule IH]; intros t H.
  - destruct H as (seen & Hch & H1 & H2). exists seen, (channel t). auto.
  - cbn [event_loop fold_left]. apply IH, event_loop_step_gathered, H.
Qed.

(** Whatever the schedule: what a call holds is a sublist of what the
    channel carries under its own request identifier. *)
Lemma event_loop_own_messages schedule code1 code2 ids chan who :
  match task_of who (event_loop dispatch on_timeout empty schedule
                       (Tasks (Called code1) (Called code2) ids chan)) with
  | Waiting msg_id a | Finished msg_id _ a =>
      sublist (outs a) (spec_text_output msg_id chan) /\
      sublist (errs a) (spec_error_list msg_id chan ++ [TIMEOUT_NOTICE]) /\
      sublist (imgs a) (spec_artifacts msg_id chan)
  | _ => True
  end.
Proof.
  destruct (event_loop_gathered chan schedule
              (Tasks (Called code1) (Called code2) ids chan))
    as (seen & rest & -> & H1 & H2).
  { exists []. cbn. auto. }
  assert (H : ok seen (task_of who (event_loop dispatch on_timeout empty schedule
                         (Tasks (Called code1) (Called code2) ids (seen ++ rest)))))
    by (destruct who; assumption).
  clear H1 H2.
  destruct (task_of who _) as [code|msg_id a|msg_id x a|msg_id e]; try exact I;
    destruct H as (G1 & G2 & G3);
    unfold spec_text_output, spec_error_list, spec_artifacts;
    rewrite !flat_map_app.
  - split; [|split].
    + apply sublist_inserts_r. exact G1.
    + do 2 apply sublist_inserts_r. exact G2.
    + apply sublist_inserts_r. exact G3.
  - split; [|split].
    + apply sublist_inserts_r. exact G1.
    + etransitivity; [exact G2|]. rewrite <- app_assoc.
      apply sublist_app; [reflexivity|]. apply sublist_inserts_l. reflexivity.
    + apply sublist_inserts_r. exact G3.
Qed.
End EventLoopFacts.

(** The event loop with one call is the receive loop: a call that is handed
    every message of the channel in turn, and a timeout when there is none
    left, ends as [receive_loop] does on the same messages. *)
Section OneCall.
Context {A : Type}.
Variable dispatch : content -> A -> step A.
Variable on_timeout : A -> A.
Variable empty : A.

Lemma event_loop_first_done schedule t :
  Forall (fun act => act = deliver first \/ act = expire first) schedule ->
  (forall msg_id a, task1 t <> Waiting msg_id a) ->
  event_loop dispatch on_timeout empty schedule t = t.
Proof.
  intros Hs Hw. induction Hs as [|act schedule Hact _ IH]; [reflexivity|].
  cbn [event_loop fold_left].
  replace (event_loop_step dispatch on_timeout empty t act) with t; [exact IH|].
  destruct t as [k1 k2 ids ch]. cbn in Hw.
  destruct Hact as [-> | ->]; unfold event_loop_step, resume; cbn;
    destruct k1; try reflexivity; exfalso; eapply Hw; reflexivity.
Qed.

Lemma event_loop_one_call msg_id ms a k2 ids :
  task1 (event_loop dispatch on_timeout empty
           (repeat (deliver first) (length ms) ++ [expire first])
           (Tasks (Waiting msg_id a) k2 ids ms)) =
  match fst (receive_loop dispatch on_timeout msg_id
               (map (fun m => Event 0 (inl m)) ms) a) with
  | Returned (x, a') => Finished msg_id x a'
  | Raised e => Crashed msg_id e
  end.
Proof.
  revert a. induction ms as [|m ms IH]; intros a; [reflexivity|].
  assert (Hs : Forall (fun act => act = deliver first \/ act = expire first)
                      (repeat (deliver first) (length ms) ++ [expire first])).
  { apply Forall_app. split; [|constructor; auto].
    apply Forall_forall. intros act Hin. apply list_elem_of_In, repeat_spec in Hin. auto. }
  cbn [length repeat app event_loop fold_left map receive_loop ev_delay ev_payload].
  rewrite bool_decide_true by (vm_compute; discriminate).
  unfold event_loop_step at 2, resume. cbn [task_of task1 channel set_task task2 msg_ids].
  destruct (loop_body dispatch on_timeout msg_id (Returned m) a) as [a'|x a'|e].
  - apply IH.
  - pose proof (event_loop_first_done _ (Tasks (Finished msg_id x a') k2 ids ms) Hs) as E.
    unfold event_loop in E. rewrite E; [reflexivity|]. cbn. discriminate.
  - pose proof (event_loop_first_done _ (Tasks (Crashed msg_id e) k2 ids ms) Hs) as E.
    unfold event_loop in E. rewrite E; [reflexivity|]. cbn. discriminate.
Qed.
End OneCall.

Lemma server_absorb_sublists msg_id a m :
  sublist (Server.outputs (absorb Server.dispatch msg_id a m))
          (Server.outputs a ++ spec_text_of msg_id m) /\
  sublist (Server.errors (absorb Server.dispatch msg_id a m))
          (Server.errors a ++ spec_errors_of msg_id m) /\
  sublist (Server.images (absorb Server.dispatch msg_id a m))
          (Server.images a ++ spec_artifacts_of msg_id m).
Proof. rewrite ServerFacts.server_absorb_spec. cbn. auto. Qed.

Lemma script_absorb_sublists msg_id a m :
  sublist (Script.outputs (absorb Script.dispatch msg_id a m))
          (Script.outputs a ++ spec_text_of msg_id m) /\
  sublist (Script.errors (absorb Script.dispatch msg_id a m))
          (Script.errors a ++ spec_errors_of msg_id m) /\
  sublist (@nil string) ([] ++ spec_artifacts_of msg_id m).
Proof.
  rewrite ScriptFacts.script_absorb_spec. cbn.
  split; [reflexivity|]. split; [reflexivity|]. apply sublist_nil_l.
Qed.

(** C2, as the code has it.  Nothing serializes two calls; what holds for
    every schedule of the
    event loop, every pair of calls and everything the kernel may publish is
    the second half of the claim: the text output, the errors and the
    artifacts a call holds, while it waits and when it has finished, are
    taken, in arrival order, from the messages tagged with its own request
    identifier (plus the timeout notice among the errors).  Some of its own
    messages may be missing, since a pending receive of the other call takes
    messages off the shared channel too.  In both source files. *)
Theorem concurrent_calls_keep_to_their_own_messages
        (schedule : list action) (code1 code2 : string)
        (ids : list string) (chan : list message) (who : caller) :
  match task_of who (event_loop Server.dispatch Server.on_timeout (Server.Acc [] [] [])
                       schedule (Tasks (Called code1) (Called code2) ids chan)) with
  | Waiting msg_id a | Finished msg_id _ a =>
      sublist (Server.outputs a) (spec_text_output msg_id chan) /\
      sublist (Server.errors a) (spec_error_list msg_id chan ++ [TIMEOUT_NOTICE]) /\
      sublist (Server.images a) (spec_artifacts msg_id chan)
  | _ => True
  end /\
  match task_of who (event_loop Script.dispatch Script.on_timeout (Script.Acc [] [])
                       schedule (Tasks (Called code1) (Called code2) ids chan)) with
  | Waiting msg_id a | Finished msg_id _ a =>
      sublist (Script.outputs a) (spec_text_output msg_id chan) /\
      sublist (Script.errors a) (spec_error_list msg_id chan ++ [TIMEOUT_NOTICE])
  | _ => True
  end.
Proof.
  split.
  - apply (event_loop_own_messages Server.dispatch Server.on_timeout
             (Server.Acc [] [] []) Server.outputs Server.errors Server.images).
    + cbn. auto.
    + apply server_absorb_sublists.
    + intros a. cbn. auto.
  - pose proof (event_loop_own_messages Script.dispatch Script.on_timeout
                  (Script.Acc [] []) Script.outputs Script.errors (fun _ => [])
                  (conj eq_refl (conj eq_refl eq_refl))
                  script_absorb_sublists
                  (fun a => conj eq_refl (conj eq_refl eq_refl))
                  schedule code1 code2 ids chan who) as H.
    destruct (task_of who _) as [code|msg_id a|msg_id x a|msg_id e]; try exact I;
      destruct H as (H1 & H2 & _); auto.
Qed.

(** C2 fails as stated.  With two calls started one after the other, both
    are inside their receive loops at once: the second call is sent while
    the first one waits.  With the pending receives served in turn, the
    idle marker of the first call goes to the second call and the output of
    the second call goes to the first; both are dropped there.  The first
    call ends by timeout and the second returns without its output, where
    the calls run one after the other return ["A"] and ["B"]. *)
Lemma concurrent_calls_interleave :
  both_in_flight
    (event_loop Server.dispatch Server.on_timeout (Server.Acc [] [] [])
                [run_call first; run_call second] two_calls) /\
  event_loop Server.dispatch Server.on_timeout (Server.Acc [] [] [])
             interleaved_schedule two_calls
  = Tasks (Finished "m1" timeout_break (Server.Acc ["A"] [TIMEOUT_NOTICE] []))
          (Finished "m2" idle_break (Server.Acc [] [] [])) [] [] /\
  event_loop Server.dispatch Server.on_timeout (Server.Acc [] [] [])
             serial_schedule two_calls
  = Tasks (Finished "m1" idle_break (Server.Acc ["A"] [] []))
          (Finished "m2" idle_break (Server.Acc ["B"] [] [])) [] [].
Proof. vm_compute. auto. Qed.

(** * More of the two files *)

(** ** A start that succeeds *)

Lemma ensure_started_succeeds (m : machine) :
  km (state m) = None ->
  hd None (start_kernel_results (env m)) = None ->
  hd None (wait_for_ready_results (env m)) = None ->
  let k := next_object (env m) in
  let ids := execute_msg_ids (env m) in
  let s' := mkKernelState (Some k) (Some (S k))
              (hd EmptyString (uuid4_values (env m))) (hd 0 (time_values (env m)))
              (session_api_url (state m)) (session_id (state m)) in
  (exists m',
      Server.ensure_started m = (Returned tt, m') /\
      state m' = s' /\
      calls (env m') =
        calls (env m) ++
          [AsyncKernelManager_new k; start_kernel_call k; client_call k (S k);
           start_channels_call (S k); wait_for_ready_call (S k);
           execute_call (S k) Server.IMPORTS (hd EmptyString ids);
           execute_call (S k) "%matplotlib inline" (hd EmptyString (tl ids))] /\
      execute_msg_ids (env m') = tl (tl ids) /\
      iopub (env m') = iopub (env m) /\
      uuid4_values (env m') = tl (uuid4_values (env m))) /\
  (exists m',
      Script.ensure_started m = (Returned tt, m') /\
      state m' = s' /\
      calls (env m') =
        calls (env m) ++
          [AsyncKernelManager_new k; start_kernel_call k; client_call k (S k);
           start_channels_call (S k); wait_for_ready_call (S k)] /\
      execute_msg_ids (env m') = ids /\
      iopub (env m') = iopub (env m) /\
      uuid4_values (env m') = tl (uuid4_values (env m))).
Proof.
  destruct m as [s w]. cbn [state env]. intros Hk Hs Hr. split.
  - unfold Server.ensure_started. run_py. rewrite Hk. cbn. rewrite Hs. cbn.
    rewrite Hr. cbn. eexists. split; [reflexivity|]. cbn.
    rewrite <- !app_assoc. cbn. auto 7.
  - unfold Script.ensure_started. run_py. rewrite Hk. cbn. rewrite Hs. cbn.
    rewrite Hr. cbn. eexists. split; [reflexivity|]. cbn.
    rewrite <- !app_assoc. cbn. auto 7.
Qed.

(** X1.  [ensure_started] on a session without a worker, when the spawn and the
    handshake succeed: the calls are made in the order of the source, the
    two priming statements of [server.py] are sent after the handshake as
    ordinary requests (they take the next two request identifiers, and
    nothing is read from the channel), [pykernel_mcp.py] sends none; the
    session gets the new manager and client, the uuid drawn and the clock
    read by this start, and keeps its other fields. *)
Theorem ensure_started_fresh_start (m : machine) :
  km (state m) = None ->
  hd None (start_kernel_results (env m)) = None ->
  hd None (wait_for_ready_results (env m)) = None ->
  let k := next_object (env m) in
  let ids := execute_msg_ids (env m) in
  let s' := mkKernelState (Some k) (Some (S k))
              (hd EmptyString (uuid4_values (env m))) (hd 0 (time_values (env m)))
              (session_api_url (state m)) (session_id (state m)) in
  (exists m',
      Server.ensure_started m = (Returned tt, m') /\
      state m' = s' /\
      calls (env m') =
        calls (env m) ++
          [AsyncKernelManager_new k; start_kernel_call k; client_call k (S k);
           start_channels_call (S k); wait_for_ready_call (S k);
           execute_call (S k) Server.IMPORTS (hd EmptyString ids);
           execute_call (S k) "%matplotlib inline" (hd EmptyString (tl ids))] /\
      execute_msg_ids (env m') = tl (tl ids) /\
      iopub (env m') = iopub (env m) /\
      uuid4_values (env m') = tl (uuid4_values (env m))) /\
  (exists m',
      Script.ensure_started m = (Returned tt, m') /\
      state m' = s' /\
      calls (env m') =
        calls (env m) ++
          [AsyncKernelManager_new k; start_kernel_call k; client_call k (S k);
           start_channels_call (S k); wait_for_ready_call (S k)] /\
      execute_msg_ids (env m') = ids /\
      iopub (env m') = iopub (env m) /\
      uuid4_values (env m') = tl (uuid4_values (env m))).
Proof. exact (ensure_started_succeeds m). Qed.

Lemma ensure_started_fresh_start_witness :
  (exists m',
      Server.ensure_started (Machine fresh_state priming_world) = (Returned tt, m') /\
      state m' = mkKernelState (Some 0%nat) (Some 1%nat) "uuid-a" 1000 None None /\
      calls (env m') =
        [] ++
          [AsyncKernelManager_new 0; start_kernel_call 0; client_call 0 1;
           start_channels_call 1; wait_for_ready_call 1;
           execute_call 1 Server.IMPORTS "m1";
           execute_call 1 "%matplotlib inline" "m2"] /\
      execute_msg_ids (env m') = ["m3"; "m4"] /\
      iopub (env m') = iopub priming_world /\
      uuid4_values (env m') = ["uuid-b"; "uuid-c"]) /\
  (exists m',
      Script.ensure_started (Machine fresh_state priming_world) = (Returned tt, m') /\
      state m' = mkKernelState (Some 0%nat) (Some 1%nat) "uuid-a" 1000 None None /\
      calls (env m') =
        [] ++
          [AsyncKernelManager_new 0; start_kernel_call 0; client_call 0 1;
           start_channels_call 1; wait_for_ready_call 1] /\
      execute_msg_ids (env m') = ["m1"; "m2"; "m3"; "m4"] /\
      iopub (env m') = iopub priming_world /\
      uuid4_values (env m') = ["uuid-b"; "uuid-c"]).
Proof.
  apply (ensure_started_fresh_start (Machine fresh_state priming_world));
    reflexivity.
Defined.

(** ** The first call of [execute_python] *)

Lemma server_receive_after_start code m m' k :
  Server.ensure_started m = (Returned tt, m') ->
  km (state m') = Some k ->
  Server.receive code m = Server.receive code m' /\
  Server.execute_python code m = Server.execute_python code m'.
Proof.
  intros H Hk.
  assert (Hr : Server.receive code m = Server.receive code m').
  { unfold Server.receive, bind. rewrite H.
    rewrite (server_ensure_started_noop m' k Hk). reflexivity. }
  split; [exact Hr|]. unfold Server.execute_python, bind. rewrite Hr. reflexivity.
Qed.

Lemma script_receive_after_start code m m' k :
  Script.ensure_started m = (Returned tt, m') ->
  km (state m') = Some k ->
  Script.receive code m = Script.receive code m' /\
  Script.execute_python code m = Script.execute_python code m'.
Proof.
  intros H Hk.
  assert (Hr : Script.receive code m = Script.receive code m').
  { unfold Script.receive, bind. rewrite H.
    rewrite (script_ensure_started_noop m' k Hk). reflexivity. }
  split; [exact Hr|]. unfold Script.execute_python, bind. rewrite Hr. reflexivity.
Qed.

(** Messages of other requests give nothing to the lists of a request. *)
Lemma foreign_messages_give_nothing msg_id ms :
  Forall (fun msg => parent_msg_id msg <> Some msg_id) ms ->
  spec_text_output msg_id ms = [] /\
  spec_error_list msg_id ms = [] /\
  spec_artifacts msg_id ms = [].
Proof.
  induction 1 as [|msg ms Hm _ (IH1 & IH2 & IH3)]; [auto|].
  unfold spec_text_output, spec_error_list, spec_artifacts in *. cbn [flat_map].
  rewrite IH1, IH2, IH3.
  unfold spec_text_of, spec_errors_of, spec_artifacts_of, tagged.
  rewrite !bool_decide_false by exact Hm. auto.
Qed.

(** X2.  The first call on a session without a worker, in [server.py], when the
    start succeeds: the request of the call gets the third request
    identifier, after the two priming statements, and the Result is made of
    the messages tagged with it.  What the kernel replies to the priming
    statements is dropped, whatever it is (output, or the traceback of an
    import that failed): when nothing but such replies comes before the idle
    marker of the call, the Result is the success line. *)
Theorem first_call_drops_priming_replies
        (m : machine) (code : string)
        (pre : list event) (d : Z) (mi : message) (post : list event) :
  km (state m) = None ->
  hd None (start_kernel_results (env m)) = None ->
  hd None (wait_for_ready_results (env m)) = None ->
  iopub (env m) = pre ++ Event d (inl mi) :: post ->
  Forall (passes (hd EmptyString (tl (tl (execute_msg_ids (env m)))))) pre ->
  d <= RECEIVE_TIMEOUT ->
  idle_for (hd EmptyString (tl (tl (execute_msg_ids (env m))))) mi ->
  let msg_id := hd EmptyString (tl (tl (execute_msg_ids (env m)))) in
  fst (Server.receive code m) =
    Returned (idle_break,
              Server.Acc (spec_text_output msg_id (arrived pre))
                         (spec_error_list msg_id (arrived pre))
                         (spec_artifacts msg_id (arrived pre))) /\
  (Forall (fun msg => parent_msg_id msg <> Some msg_id) (arrived pre) ->
   fst (Server.receive code m) = Returned (idle_break, Server.Acc [] [] []) /\
   exists parts,
     fst (Server.execute_python code m) = Returned parts /\
     TextContent Server.SUCCESS ∈ parts).
Proof.
  intros Hk Hs Hr Hch Hpre Hd Hi msg_id.
  destruct (ensure_started_succeeds m Hk Hs Hr)
    as ((m' & Hst & Hs' & _ & Hids & Hio & _) & _).
  assert (Hk' : km (state m') = Some (next_object (env m)))
    by (rewrite Hs'; reflexivity).
  assert (Hc' : kc (state m') = Some (S (next_object (env m))))
    by (rewrite Hs'; reflexivity).
  destruct (server_receive_after_start code m m' _ Hst Hk') as [Er Ee].
  assert (HS : Server.receive code m' =
               (Returned (idle_break,
                          Server.Acc (spec_text_output msg_id (arrived pre))
                                     (spec_error_list msg_id (arrived pre))
                                     (spec_artifacts msg_id (arrived pre))),
                after_receive m' (S (next_object (env m))) code post)).
  { rewrite (ServerFacts.server_receive_ends_idle code m' _ _ pre d mi post Hk' Hc');
      rewrite ?Hids, ?Hio; try assumption; reflexivity. }
  split; [rewrite Er, HS; reflexivity|].
  intros Hf. destruct (foreign_messages_give_nothing _ _ Hf) as (E1 & E2 & E3).
  rewrite E1, E2, E3 in HS. split; [rewrite Er, HS; reflexivity|].
  rewrite Ee, (ServerFacts.server_execute_python_after _ _ _ _ _ HS).
  rewrite ServerFacts.server_result_parts_eq. eexists. split; [reflexivity|].
  cbn. rewrite !elem_of_cons. do 2 right. left. reflexivity.
Qed.

Lemma first_call_drops_priming_replies_witness :
  fst (Server.receive "x = 1" (Machine fresh_state priming_world))
    = Returned (idle_break, Server.Acc [] [] []) /\
  exists parts,
    fst (Server.execute_python "x = 1" (Machine fresh_state priming_world))
      = Returned parts /\
    TextContent Server.SUCCESS ∈ parts.
Proof.
  refine (proj2 (first_call_drops_priming_replies
            (Machine fresh_state priming_world) "x = 1"
            [msg "m1" (status "busy"); msg "m1" (status "idle");
             msg "m2" (status "busy"); msg "m2" (stream "inline backend");
             msg "m2" (status "idle")]
            10 (Message (Some "m3") (status "idle")) []
            eq_refl eq_refl eq_refl eq_refl _ _ _) _).
  - repeat constructor; try (vm_compute; discriminate);
      (eexists; split; [reflexivity|]; intros [H1 H2];
       first [discriminate H1 | discriminate H2]).
  - vm_compute; discriminate.
  - split; reflexivity.
  - repeat constructor; discriminate.
Defined.

(** X3.  A failure of the start is the result of [execute_python] and of
    [install_package]: both stop where [ensure_started] stopped, with the
    same exception and the same session and world, so no request is sent
    and nothing is read from the channel.  In both source files. *)
Theorem execute_python_surfaces_start_failure
        (m : machine) (e : exn) (code package : string) :
  km (state m) = None ->
  hd None (start_kernel_results (env m)) = Some e \/
  (hd None (start_kernel_results (env m)) = None /\
   hd None (wait_for_ready_results (env m)) = Some e) ->
  (exists m',
      Server.ensure_started m = (Raised e, m') /\
      Server.execute_python code m = (Raised e, m') /\
      Server.install_package package m = (Raised e, m') /\
      iopub (env m') = iopub (env m) /\
      execute_msg_ids (env m') = execute_msg_ids (env m)) /\
  (exists m',
      Script.ensure_started m = (Raised e, m') /\
      Script.execute_python code m = (Raised e, m') /\
      iopub (env m') = iopub (env m) /\
      execute_msg_ids (env m') = execute_msg_ids (env m)).
Proof.
  destruct m as [s w]. cbn [state env]. intros Hk [Hs|[Hs Hr]]; split.
  - unfold Server.install_package, Server.execute_python, Server.receive,
      Server.ensure_started. run_py. rewrite Hk. cbn. rewrite Hs. cbn.
    eexists. repeat split.
  - unfold Script.execute_python, Script.receive, Script.ensure_started.
    run_py. rewrite Hk. cbn. rewrite Hs. cbn. eexists. repeat split.
  - unfold Server.install_package, Server.execute_python, Server.receive,
      Server.ensure_started. run_py. rewrite Hk. cbn. rewrite Hs. cbn.
    rewrite Hr. cbn. eexists. repeat split.
  - unfold Script.execute_python, Script.receive, Script.ensure_started.
    run_py. rewrite Hk. cbn. rewrite Hs. cbn. rewrite Hr. cbn.
    eexists. repeat split.
Qed.

Lemma execute_python_surfaces_start_failure_witness :
  (exists m',
      Server.ensure_started (Machine fresh_state no_kernel_world)
        = (Raised (RuntimeError "kernel died"), m') /\
      Server.execute_python "1 + 1" (Machine fresh_state no_kernel_world)
        = (Raised (RuntimeError "kernel died"), m') /\
      Server.install_package "numpy" (Machine fresh_state no_kernel_world)
        = (Raised (RuntimeError "kernel died"), m') /\
      iopub (env m') = [] /\
      execute_msg_ids (env m') = ["m1"; "m2"]) /\
  (exists m',
      Script.ensure_started (Machine fresh_state no_kernel_world)
        = (Raised (RuntimeError "kernel died"), m') /\
      Script.execute_python "1 + 1" (Machine fresh_state no_kernel_world)
        = (Raised (RuntimeError "kernel died"), m') /\
      iopub (env m') = [] /\
      execute_msg_ids (env m') = ["m1"; "m2"]).
Proof.
  apply (execute_python_surfaces_start_failure
           (Machine fresh_state no_kernel_world) (RuntimeError "kernel died")
           "1 + 1" "numpy").
  - reflexivity.
  - left. reflexivity.
Defined.

(** ** What [execute_python] leaves alone *)

(** X4.  With the worker up, [execute_python] never touches the session,
    whatever the channel does and whether the call returns or raises: the
    manager, the client, the session identifier and the start time are as
    before; the one call it makes is the [kc.execute] of its code on the
    client of the session; it does not start, shut down or wait for any
    kernel.  In both source files. *)
Theorem execute_python_keeps_session
        (m : machine) (k c : nat) (code : string) :
  km (state m) = Some k ->
  kc (state m) = Some c ->
  let sent := [execute_call c code (hd EmptyString (execute_msg_ids (env m)))] in
  (state (snd (Server.execute_python code m)) = state m /\
   calls (env (snd (Server.execute_python code m))) = calls (env m) ++ sent /\
   start_kernel_results (env (snd (Server.execute_python code m)))
     = start_kernel_results (env m) /\
   shutdown_kernel_results (env (snd (Server.execute_python code m)))
     = shutdown_kernel_results (env m)) /\
  (state (snd (Script.execute_python code m)) = state m /\
   calls (env (snd (Script.execute_python code m))) = calls (env m) ++ sent /\
   start_kernel_results (env (snd (Script.execute_python code m)))
     = start_kernel_results (env m) /\
   shutdown_kernel_results (env (snd (Script.execute_python code m)))
     = shutdown_kernel_results (env m)).
Proof.
  intros Hk Hc sent. split.
  - rewrite (ServerFacts.server_execute_python_started code m k c Hk Hc).
    destruct (receive_loop _ _ _ _ _) as [[[x a]|e] ch].
    + rewrite ServerFacts.server_result_parts_eq. cbn. auto.
    + cbn. auto.
  - rewrite (ScriptFacts.script_execute_python_started code m k c Hk Hc).
    destruct (receive_loop _ _ _ _ _) as [[[x a]|e] ch].
    + rewrite ScriptFacts.script_result_parts_eq. cbn. auto.
    + cbn. auto.
Qed.

Lemma execute_python_keeps_session_witness :
  (state (snd (Server.execute_python "print(1)" severed_machine)) = started_state /\
   calls (env (snd (Server.execute_python "print(1)" severed_machine)))
     = [] ++ [execute_call 1 "print(1)" "m1"] /\
   start_kernel_results (env (snd (Server.execute_python "print(1)" severed_machine)))
     = [] /\
   shutdown_kernel_results (env (snd (Server.execute_python "print(1)" severed_machine)))
     = []) /\
  (state (snd (Script.execute_python "print(1)" severed_machine)) = started_state /\
   calls (env (snd (Script.execute_python "print(1)" severed_machine)))
     = [] ++ [execute_call 1 "print(1)" "m1"] /\
   start_kernel_results (env (snd (Script.execute_python "print(1)" severed_machine)))
     = [] /\
   shutdown_kernel_results (env (snd (Script.execute_python "print(1)" severed_machine)))
     = []).
Proof.
  apply (execute_python_keeps_session severed_machine 0%nat 1%nat "print(1)");
    reflexivity.
Defined.

(** ** [kernel_status] and the uptime *)

(** X5.  [kernel_status] of [pykernel_mcp.py] looks at [state.km] only: without
    a manager it answers "No kernel running" and touches nothing, not even
    the clock; with one it reports the session identifier and the clock
    minus the start time, reading the clock once.  It never changes the
    session, makes no call on the manager or the client (it does not ask
    whether the kernel is alive) and reads nothing from the channel. *)
Theorem kernel_status_reads_only (m : machine) :
  (km (state m) = None ->
   Script.kernel_status m = (Returned Script.NoKernelRunning, m)) /\
  (forall k, km (state m) = Some k ->
   exists m',
     Script.kernel_status m =
       (Returned (Script.KernelStatus (kernel_id (state m))
                    (hd 0 (time_values (env m)) - start_time (state m))), m') /\
     state m' = state m /\
     calls (env m') = calls (env m) /\
     iopub (env m') = iopub (env m) /\
     time_values (env m') = tl (time_values (env m))).
Proof.
  destruct m as [s w]. cbn [state env]. split.
  - intros Hk. unfold Script.kernel_status. run_py. rewrite Hk. reflexivity.
  - intros k Hk. unfold Script.kernel_status, get_uptime. run_py. rewrite Hk.
    cbn. eexists. split; [reflexivity|]. cbn. auto.
Qed.

Lemma kernel_status_reads_only_witness :
  Script.kernel_status (Machine fresh_state (quiet_world []))
    = (Returned Script.NoKernelRunning, Machine fresh_state (quiet_world [])) /\
  exists m',
    Script.kernel_status (Machine started_state (quiet_world [])) =
      (Returned (Script.KernelStatus "3f2a9c1e-old" (1000 - 500)), m') /\
    state m' = started_state /\
    calls (env m') = [] /\
    iopub (env m') = [] /\
    time_values (env m') = [3500; 9000].
Proof.
  split.
  - apply (proj1 (kernel_status_reads_only (Machine fresh_state (quiet_world [])))).
    reflexivity.
  - apply (proj2 (kernel_status_reads_only (Machine started_state (quiet_world [])))
             0%nat).
    reflexivity.
Defined.

(** X6.  The uptime is counted from the start of the worker: [kernel_status]
    after a start that succeeded reports the identifier drawn by that start
    and the clock read by [kernel_status] minus the clock read by the
    start. *)
Theorem kernel_status_after_start (m : machine) :
  km (state m) = None ->
  hd None (start_kernel_results (env m)) = None ->
  hd None (wait_for_ready_results (env m)) = None ->
  let t1 := hd 0 (time_values (env m)) in
  let t2 := hd 0 (tl (time_values (env m))) in
  fst (bind Script.ensure_started (fun _ => Script.kernel_status) m) =
    Returned (Script.KernelStatus (hd EmptyString (uuid4_values (env m))) (t2 - t1)).
Proof.
  destruct m as [s w]. cbn [state env]. intros Hk Hs Hr.
  unfold Script.kernel_status, Script.ensure_started, get_uptime. run_py.
  rewrite Hk. cbn. rewrite Hs. cbn. rewrite Hr. cbn. reflexivity.
Qed.

Lemma kernel_status_after_start_witness :
  fst (bind Script.ensure_started (fun _ => Script.kernel_status)
         (Machine fresh_state priming_world)) =
    Returned (Script.KernelStatus "uuid-a" (3500 - 1000)).
Proof.
  apply (kernel_status_after_start (Machine fresh_state priming_world));
    reflexivity.
Defined.

(** ** More on [restart_kernel] *)

(** X7.  [restart_kernel] on a session without a worker is a start: no shutdown
    is attempted, the session and the world are those [ensure_started]
    leaves, and the outcome is that of [ensure_started], a failure of the
    start included; on success the message carries the identifier of the
    new session.  In both source files. *)
Theorem restart_kernel_without_worker (m : machine) :
  km (state m) = None ->
  Server.restart_kernel m =
    match Server.ensure_started m with
    | (Returned _, m') =>
        (Returned ("Kernel restarted. New ID: " +:+ kernel_id (state m')), m')
    | (Raised e, m') => (Raised e, m')
    end /\
  Script.restart_kernel m =
    match Script.ensure_started m with
    | (Returned _, m') =>
        (Returned ("Kernel restarted. New ID: " +:+ kernel_id (state m')), m')
    | (Raised e, m') => (Raised e, m')
    end.
Proof.
  intros Hk. split.
  - unfold Server.restart_kernel, bind, get_state. rewrite Hk. unfold ret at 1.
    destruct (Server.ensure_started m) as [[u|e] m']; reflexivity.
  - unfold Script.restart_kernel, bind, get_state. rewrite Hk. unfold ret at 1.
    destruct (Script.ensure_started m) as [[u|e] m']; reflexivity.
Qed.

Lemma restart_kernel_without_worker_witness :
  Server.restart_kernel (Machine fresh_state no_kernel_world) =
    match Server.ensure_started (Machine fresh_state no_kernel_world) with
    | (Returned _, m') =>
        (Returned ("Kernel restarted. New ID: " +:+ kernel_id (state m')), m')
    | (Raised e, m') => (Raised e, m')
    end /\
  Script.restart_kernel (Machine fresh_state no_kernel_world) =
    match Script.ensure_started (Machine fresh_state no_kernel_world) with
    | (Returned _, m') =>
        (Returned ("Kernel restarted. New ID: " +:+ kernel_id (state m')), m')
    | (Raised e, m') => (Raised e, m')
    end.
Proof.
  apply (restart_kernel_without_worker (Machine fresh_state no_kernel_world)).
  reflexivity.
Defined.

(** X8.  After a restart that succeeded, [execute_python] talks to the new
    worker: its request is sent on the client made by the restart, not on
    the client the session had before, and the Result is made of the
    messages tagged with that request (the third identifier from the
    restart on in [server.py], after the two priming statements; the next
    one in [pykernel_mcp.py]). *)
Theorem restart_then_execute_uses_new_client
        (m : machine) (k0 : nat) (code : string) :
  km (state m) = Some k0 ->
  hd None (shutdown_kernel_results (env m)) = None ->
  hd None (start_kernel_results (env m)) = None ->
  hd None (wait_for_ready_results (env m)) = None ->
  let c := S (next_object (env m)) in
  let ids := execute_msg_ids (env m) in
  (exists r m',
      Server.restart_kernel m = (Returned r, m') /\
      kc (state m') = Some c /\
      calls (env (snd (Server.execute_python code m'))) =
        calls (env m') ++ [execute_call c code (hd EmptyString (tl (tl ids)))]) /\
  (exists r m',
      Script.restart_kernel m = (Returned r, m') /\
      kc (state m') = Some c /\
      calls (env (snd (Script.execute_python code m'))) =
        calls (env m') ++ [execute_call c code (hd EmptyString ids)]).
Proof.
  destruct m as [s w]. cbn [state env]. intros Hk Hd Hs Hr. split.
  - assert (H : exists r m',
               Server.restart_kernel (Machine s w) = (Returned r, m') /\
               km (state m') = Some (next_object w) /\
               kc (state m') = Some (S (next_object w)) /\
               execute_msg_ids (env m') = tl (tl (execute_msg_ids w))).
    { unfold Server.restart_kernel, Server.ensure_started. run_py.
      rewrite Hk. cbn. rewrite Hd. cbn. rewrite Hs. cbn. rewrite Hr. cbn.
      eexists. eexists. split; [reflexivity|]. cbn. auto. }
    destruct H as (r & m' & Hrs & Hk' & Hc' & Hids).
    exists r, m'. split; [exact Hrs|]. split; [exact Hc'|].
    rewrite (ServerFacts.server_execute_python_started code m' _ _ Hk' Hc').
    rewrite Hids.
    destruct (receive_loop _ _ _ _ _) as [[[x a]|e] ch].
    + rewrite ServerFacts.server_result_parts_eq. cbn. rewrite Hids. reflexivity.
    + cbn. rewrite Hids. reflexivity.
  - assert (H : exists r m',
               Script.restart_kernel (Machine s w) = (Returned r, m') /\
               km (state m') = Some (next_object w) /\
               kc (state m') = Some (S (next_object w)) /\
               execute_msg_ids (env m') = execute_msg_ids w).
    { unfold Script.restart_kernel, Script.ensure_started. run_py.
      rewrite Hk. cbn. rewrite Hd. cbn. rewrite Hs. cbn. rewrite Hr. cbn.
      eexists. eexists. split; [reflexivity|]. cbn. auto. }
    destruct H as (r & m' & Hrs & Hk' & Hc' & Hids).
    exists r, m'. split; [exact Hrs|]. split; [exact Hc'|].
    rewrite (ScriptFacts.script_execute_python_started code m' _ _ Hk' Hc').
    rewrite Hids.
    destruct (receive_loop _ _ _ _ _) as [[[x a]|e] ch].
    + rewrite ScriptFacts.script_result_parts_eq. cbn. rewrite Hids. reflexivity.
    + cbn. rewrite Hids. reflexivity.
Qed.

Lemma restart_then_execute_uses_new_client_witness :
  (exists r m',
      Server.restart_kernel (Machine started_state (quiet_world [])) = (Returned r, m') /\
      kc (state m') = Some 3%nat /\
      calls (env (snd (Server.execute_python "x" m'))) =
        calls (env m') ++ [execute_call 3 "x" "m3"]) /\
  (exists r m',
      Script.restart_kernel (Machine started_state (quiet_world [])) = (Returned r, m') /\
      kc (state m') = Some 3%nat /\
      calls (env (snd (Script.execute_python "x" m'))) =
        calls (env m') ++ [execute_call 3 "x" "m1"]).
Proof.
  apply (restart_then_execute_uses_new_client
           (Machine started_state (quiet_world [])) 0%nat "x"); reflexivity.
Defined.

(** ** From the construction of the session to its first start *)

(** X9.  [state = KernelState()] draws an identifier and reads the clock, and
    leaves the session without a worker.  The first start that succeeds
    draws and reads again: the identifier and the start time of the
    construction are replaced, so the identifier a session shows before its
    first start is never the identifier of a worker.  In both source
    files. *)
Theorem construction_then_first_start (m : machine) :
  hd None (start_kernel_results (env m)) = None ->
  hd None (wait_for_ready_results (env m)) = None ->
  let u0 := hd EmptyString (uuid4_values (env m)) in
  let t0 := hd 0 (time_values (env m)) in
  let u1 := hd EmptyString (tl (uuid4_values (env m))) in
  let t1 := hd 0 (tl (time_values (env m))) in
  state (snd (KernelState_init m)) = mkKernelState None None u0 t0 None None /\
  calls (env (snd (KernelState_init m))) = calls (env m) /\
  (exists m',
      bind KernelState_init (fun _ => Server.ensure_started) m = (Returned tt, m') /\
      kernel_id (state m') = u1 /\ start_time (state m') = t1 /\
      km (state m') = Some (next_object (env m))) /\
  (exists m',
      bind KernelState_init (fun _ => Script.ensure_started) m = (Returned tt, m') /\
      kernel_id (state m') = u1 /\ start_time (state m') = t1 /\
      km (state m') = Some (next_object (env m))).
Proof.
  destruct m as [s w]. cbn [state env]. intros Hs Hr.
  split; [reflexivity|]. split; [reflexivity|]. split.
  - unfold KernelState_init, Server.ensure_started. run_py. rewrite Hs. cbn.
    rewrite Hr. cbn. eexists. split; [reflexivity|]. cbn. auto.
  - unfold KernelState_init, Script.ensure_started. run_py. rewrite Hs. cbn.
    rewrite Hr. cbn. eexists. split; [reflexivity|]. cbn. auto.
Qed.

Lemma construction_then_first_start_witness :
  state (snd (KernelState_init (Machine started_state priming_world)))
    = mkKernelState None None "uuid-a" 1000 None None /\
  calls (env (snd (KernelState_init (Machine started_state priming_world)))) = [] /\
  (exists m',
      bind KernelState_init (fun _ => Server.ensure_started)
           (Machine started_state priming_world) = (Returned tt, m') /\
      kernel_id (state m') = "uuid-b" /\ start_time (state m') = 3500 /\
      km (state m') = Some 0%nat) /\
  (exists m',
      bind KernelState_init (fun _ => Script.ensure_started)
           (Machine started_state priming_world) = (Returned tt, m') /\
      kernel_id (state m') = "uuid-b" /\ start_time (state m') = 3500 /\
      km (state m') = Some 0%nat).
Proof.
  apply (construction_then_first_start (Machine started_state priming_world));
    reflexivity.
Defined.

(** ** The lists of a Result *)

(** X10.  An execution that comes to its idle marker gathers, in both source
    files, exactly the arrival-order lists of the messages tagged with its
    request: stream text and final values, interleaved as they arrived, in
    [outputs]; the traceback lines in [errors]; and, in [server.py], the
    "image/png" payloads of the display messages in [images]. *)
Theorem result_lists_in_arrival_order
        (m : machine) (k c : nat) (code : string)
        (pre : list event) (d : Z) (mi : message) (post : list event) :
  km (state m) = Some k ->
  kc (state m) = Some c ->
  iopub (env m) = pre ++ Event d (inl mi) :: post ->
  Forall (passes (hd EmptyString (execute_msg_ids (env m)))) pre ->
  d <= RECEIVE_TIMEOUT ->
  idle_for (hd EmptyString (execute_msg_ids (env m))) mi ->
  let msg_id := hd EmptyString (execute_msg_ids (env m)) in
  Server.receive code m =
    (Returned (idle_break,
               Server.Acc (flat_map (spec_text_of msg_id) (arrived pre))
                          (flat_map (spec_errors_of msg_id) (arrived pre))
                          (flat_map (spec_artifacts_of msg_id) (arrived pre))),
     after_receive m c code post) /\
  Script.receive code m =
    (Returned (idle_break,
               Script.Acc (flat_map (spec_text_of msg_id) (arrived pre))
                          (flat_map (spec_errors_of msg_id) (arrived pre))),
     after_receive m c code post).
Proof.
  intros Hk Hc Hch Hpre Hd Hi msg_id. split.
  - exact (ServerFacts.server_receive_ends_idle code m k c pre d mi post
             Hk Hc Hch Hpre Hd Hi).
  - exact (ScriptFacts.script_receive_ends_idle code m k c pre d mi post
             Hk Hc Hch Hpre Hd Hi).
Qed.

Lemma result_lists_in_arrival_order_witness :
  Server.receive "print('before'); 1/0" faulty_machine =
    (Returned (idle_break,
               Server.Acc ["before"]
                          ["Traceback (most recent call last)";
                           "ZeroDivisionError: division by zero"] []),
     after_receive faulty_machine 1 "print('before'); 1/0" []) /\
  Script.receive "print('before'); 1/0" faulty_machine =
    (Returned (idle_break,
               Script.Acc ["before"]
                          ["Traceback (most recent call last)";
                           "ZeroDivisionError: division by zero"]),
     after_receive faulty_machine 1 "print('before'); 1/0" []).
Proof.
  refine (result_lists_in_arrival_order faulty_machine 0%nat 1%nat
            "print('before'); 1/0"
            [msg "m1" (status "busy"); msg "m1" (stream "before");
             msg "m1" (error ["Traceback (most recent call last)";
                              "ZeroDivisionError: division by zero"])]
            10 (Message (Some "m1") (status "idle")) []
            eq_refl eq_refl eq_refl _ _ _).
  - repeat constructor; try (vm_compute; discriminate);
      (eexists; split; [reflexivity|]; intros [H1 H2]; discriminate H2).
  - vm_compute; discriminate.
  - split; reflexivity.
Defined.

Lemma stream_messages_lists msg_id texts :
  spec_text_output msg_id (stream_messages msg_id texts) = texts /\
  spec_error_list msg_id (stream_messages msg_id texts) = [] /\
  spec_artifacts msg_id (stream_messages msg_id texts) = [].
Proof.
  unfold spec_text_output, spec_error_list, spec_artifacts, stream_messages.
  induction texts as [|t texts (IH1 & IH2 & IH3)]; [auto|].
  cbn [map flat_map]. rewrite IH1, IH2, IH3.
  unfold spec_text_of, spec_errors_of, spec_artifacts_of, tagged.
  cbn [parent_msg_id msg_content]. rewrite !bool_decide_true by reflexivity. auto.
Qed.

Lemma stream_events_pass msg_id timed :
  Forall (fun p => fst p <= RECEIVE_TIMEOUT) timed ->
  Forall (passes msg_id) (stream_events msg_id timed) /\
  arrived (stream_events msg_id timed) = stream_messages msg_id (map snd timed).
Proof.
  induction 1 as [|p timed Hp _ (IH1 & IH2)]; [split; [constructor|reflexivity]|].
  split.
  - constructor; [|exact IH1]. split; [exact Hp|]. eexists. split; [reflexivity|].
    intros [_ H]. discriminate H.
  - cbn [stream_events map]. rewrite arrived_cons. cbn [ev_payload].
    fold (stream_events msg_id timed). rewrite IH2. reflexivity.
Qed.

(** X11.  Code that only prints: when what comes before the idle marker is the
    stream messages of the request, each within the budget, with at least
    one text, the Result of [server.py] is exactly four parts: the kernel
    line, the code, the output part with the texts joined by newlines in
    the order they were printed, and the HTML page with that text and no
    error section; there is no errors part and no success line.  The Result
    of [pykernel_mcp.py] has the same three text parts before its page. *)
Theorem printing_code_result
        (m : machine) (k c : nat) (code : string) (timed : list (Z * string))
        (d : Z) (mi : message) (post : list event) :
  km (state m) = Some k ->
  kc (state m) = Some c ->
  iopub (env m) =
    stream_events (hd EmptyString (execute_msg_ids (env m))) timed
      ++ Event d (inl mi) :: post ->
  Forall (fun p => fst p <= RECEIVE_TIMEOUT) timed ->
  timed <> [] ->
  d <= RECEIVE_TIMEOUT ->
  idle_for (hd EmptyString (execute_msg_ids (env m))) mi ->
  let info := KernelInfo (substring 0%nat 8%nat (kernel_id (state m)))
                         (hd 0 (time_values (env m)) - start_time (state m)) in
  let executed := TextContent ("**Executed:**" +:+ LF +:+ "```python" +:+ LF +:+ code
                                 +:+ LF +:+ "```") in
  let output := TextContent ("**Output:**" +:+ LF +:+ "```" +:+ LF
                               +:+ join_lines (map snd timed) +:+ LF +:+ "```") in
  fst (Server.execute_python code m) =
    Returned [info; executed; output;
              EmbeddedResource
                ("ui://pykernel_mcp/result-" +:+ hd EmptyString (uuid4_values (env m)))
                "text/html"
                (Html (Server.html_result code EmptyString
                                          (join_lines (map snd timed)) []))] /\
  exists ui, fst (Script.execute_python code m) = Returned [info; executed; output; ui].
Proof.
  intros Hk Hc Hch Htime Hne Hd Hi.
  destruct (stream_events_pass (hd EmptyString (execute_msg_ids (env m))) timed Htime)
    as [Hpre Harr].
  destruct (stream_messages_lists (hd EmptyString (execute_msg_ids (env m)))
              (map snd timed)) as (E1 & E2 & E3).
  assert (HS := ServerFacts.server_receive_ends_idle code m k c _ d mi post
                  Hk Hc Hch Hpre Hd Hi).
  assert (HC := ScriptFacts.script_receive_ends_idle code m k c _ d mi post
                  Hk Hc Hch Hpre Hd Hi).
  rewrite Harr, E1, E2 in HS, HC. rewrite E3 in HS.
  assert (Hne' : map snd timed <> []) by (destruct timed; [congruence|discriminate]).
  split.
  - rewrite (ServerFacts.server_execute_python_after _ _ _ _ _ HS).
    rewrite ServerFacts.server_result_parts_eq. cbn [fst].
    cbn [Server.outputs Server.errors Server.images image_resources length drop
         Server.error_part is_nil app].
    rewrite (ServerFacts.server_output_part_nonempty _ Hne').
    unfold Server.success_part. cbn [Server.outputs].
    destruct (map snd timed) as [|t texts]; [congruence|]. reflexivity.
  - rewrite (ScriptFacts.script_execute_python_after _ _ _ _ _ HC).
    rewrite ScriptFacts.script_result_parts_eq. cbn [fst].
    cbn [Script.outputs Script.errors Script.error_part is_nil app].
    rewrite (ScriptFacts.script_output_part_nonempty _ Hne').
    unfold Script.success_part. cbn [Script.outputs].
    destruct (map snd timed) as [|t texts]; [congruence|]. eexists. reflexivity.
Qed.

Lemma printing_code_result_witness :
  fst (Server.execute_python "print('one'); print('two')" printing_machine) =
    Returned [KernelInfo "3f2a9c1e" (1000 - 500);
              TextContent ("**Executed:**" +:+ LF +:+ "```python" +:+ LF
                             +:+ "print('one'); print('two')" +:+ LF +:+ "```");
              TextContent ("**Output:**" +:+ LF +:+ "```" +:+ LF
                             +:+ join_lines ["one"; "two"] +:+ LF +:+ "```");
              EmbeddedResource "ui://pykernel_mcp/result-uuid-a" "text/html"
                (Html (Server.html_result "print('one'); print('two')" EmptyString
                                          (join_lines ["one"; "two"]) []))] /\
  exists ui,
    fst (Script.execute_python "print('one'); print('two')" printing_machine) =
      Returned [KernelInfo "3f2a9c1e" (1000 - 500);
                TextContent ("**Executed:**" +:+ LF +:+ "```python" +:+ LF
                               +:+ "print('one'); print('two')" +:+ LF +:+ "```");
                TextContent ("**Output:**" +:+ LF +:+ "```" +:+ LF
                               +:+ join_lines ["one"; "two"] +:+ LF +:+ "```");
                ui].
Proof.
  refine (printing_code_result printing_machine 0%nat 1%nat
            "print('one'); print('two')" [(10, "one"); (10, "two")]
            10 (Message (Some "m1") (status "idle")) []
            eq_refl eq_refl eq_refl _ _ _ _).
  - repeat constructor; vm_compute; discriminate.
  - discriminate.
  - vm_compute; discriminate.
  - split; reflexivity.
Defined.

(** ** How the loop ends by timeout, and what it ignores *)

Section TimeoutBreak.
Context {A : Type}.
Variable dispatch : content -> A -> step A.
Variable on_timeout : A -> A.
Hypothesis dispatch_break :
  forall c a a', dispatch c a = Break a' -> c = status "idle".
Hypothesis dispatch_idle :
  forall a, dispatch (status "idle") a = Break a.

Lemma receive_loop_timeout_break_gen msg_id ch a a' ch' :
  receive_loop dispatch on_timeout msg_id ch a = (Returned (timeout_break, a'), ch') <->
  exists pre,
    times_out_after msg_id ch pre ch' /\
    a' = on_timeout (fold_left (absorb dispatch msg_id) (arrived pre) a).
Proof.
  split.
  - intros H.
    destruct (view_channel msg_id ch)
      as [Hall|pre d m post -> Hall Hd Hi|pre d p post -> Hall Hd
         |pre d e post -> Hall Hd].
    + rewrite (receive_loop_runs_dry _ _ dispatch_break) in H by assumption.
      injection H as <- <-. exists ch. split; [|reflexivity].
      split; [assumption|]. left. auto.
    + rewrite (receive_loop_ends_idle _ _ dispatch_break dispatch_idle) in H
        by assumption.
      discriminate H.
    + rewrite (receive_loop_ends_late _ _ dispatch_break) in H by assumption.
      injection H as <- <-. exists pre. split; [|reflexivity].
      split; [assumption|]. right. left. exists d, p, post. auto.
    + destruct (decide (e = TimeoutError)) as [->|He].
      * rewrite (receive_loop_ends_channel_timeout _ _ dispatch_break) in H
          by assumption.
        injection H as <- <-. exists pre. split; [|reflexivity].
        split; [assumption|]. right. right. exists d. auto.
      * rewrite (receive_loop_ends_failed _ _ dispatch_break) in H by assumption.
        discriminate H.
  - intros (pre & (Hall & [[-> ->]|[(d & p & post & -> & Hd & ->)|(d & -> & Hd)]]) & ->).
    + apply (receive_loop_runs_dry _ _ dispatch_break); assumption.
    + apply (receive_loop_ends_late _ _ dispatch_break); assumption.
    + apply (receive_loop_ends_channel_timeout _ _ dispatch_break); assumption.
Qed.
End TimeoutBreak.

(** X12.  The loop leaves by the [break] of the [except] clause exactly on the
    channels of [times_out_after]: after events that pass, nothing more
    comes, or the next event takes longer than the budget, or the receive
    itself raises a timeout.  The timeout notice is then the last of the
    errors, so the errors are never empty.  In both source files. *)
Theorem receive_loop_timeout_break_iff :
  (forall msg_id ch a a' ch',
      receive_loop Server.dispatch Server.on_timeout msg_id ch a
      = (Returned (timeout_break, a'), ch') <->
      exists pre,
        times_out_after msg_id ch pre ch' /\
        a' = Server.Acc (Server.outputs a ++ spec_text_output msg_id (arrived pre))
                        ((Server.errors a ++ spec_error_list msg_id (arrived pre))
                           ++ [TIMEOUT_NOTICE])
                        (Server.images a ++ spec_artifacts msg_id (arrived pre))) /\
  (forall msg_id ch a a' ch',
      receive_loop Script.dispatch Script.on_timeout msg_id ch a
      = (Returned (timeout_break, a'), ch') <->
      exists pre,
        times_out_after msg_id ch pre ch' /\
        a' = Script.Acc (Script.outputs a ++ spec_text_output msg_id (arrived pre))
                        ((Script.errors a ++ spec_error_list msg_id (arrived pre))
                           ++ [TIMEOUT_NOTICE])).
Proof.
  split.
  - intros msg_id ch a a' ch'.
    rewrite (receive_loop_timeout_break_gen _ _ ServerFacts.server_dispatch_break
               ServerFacts.server_dispatch_idle).
    split; intros (pre & H & ->); exists pre; (split; [exact H|]);
      rewrite ServerFacts.server_absorb_all_spec; reflexivity.
  - intros msg_id ch a a' ch'.
    rewrite (receive_loop_timeout_break_gen _ _ ScriptFacts.script_dispatch_break
               ScriptFacts.script_dispatch_idle).
    split; intros (pre & H & ->); exists pre; (split; [exact H|]);
      rewrite ScriptFacts.script_absorb_all_spec; reflexivity.
Qed.

(** X13.  What the loop ignores, also when it is tagged with the current request:
    a status other than "idle", a message of a type the chain does not
    name, and a display message without an "image/png" entry ([server.py];
    [pykernel_mcp.py] ignores every display message).  The loop goes on with
    [outputs], [errors] and [images] as they were. *)
Theorem receive_loop_ignores :
  (forall msg_id d m rest a,
      d <= RECEIVE_TIMEOUT ->
      msg_content m = other \/
      (exists st, msg_content m = status st /\ st <> "idle") \/
      (exists data, msg_content m = display_data data /\ data !! "image/png" = None) ->
      receive_loop Server.dispatch Server.on_timeout msg_id
                   (Event d (inl m) :: rest) a
      = receive_loop Server.dispatch Server.on_timeout msg_id rest a) /\
  (forall msg_id d m rest a,
      d <= RECEIVE_TIMEOUT ->
      msg_content m = other \/
      (exists st, msg_content m = status st /\ st <> "idle") \/
      (exists data, msg_content m = display_data data) ->
      receive_loop Script.dispatch Script.on_timeout msg_id
                   (Event d (inl m) :: rest) a
      = receive_loop Script.dispatch Script.on_timeout msg_id rest a).
Proof.
  split.
  - intros msg_id d m rest a Hd Hc.
    cbn [receive_loop ev_delay ev_payload loop_body].
    rewrite bool_decide_true by exact Hd.
    destruct (bool_decide (parent_msg_id m <> Some msg_id)); [reflexivity|].
    destruct Hc as [->|[(st & -> & Hst)|(data & -> & Hdata)]]; cbn.
    + reflexivity.
    + rewrite bool_decide_false by exact Hst. reflexivity.
    + rewrite Hdata. reflexivity.
  - intros msg_id d m rest a Hd Hc.
    cbn [receive_loop ev_delay ev_payload loop_body].
    rewrite bool_decide_true by exact Hd.
    destruct (bool_decide (parent_msg_id m <> Some msg_id)); [reflexivity|].
    destruct Hc as [->|[(st & -> & Hst)|(data & ->)]]; cbn.
    + reflexivity.
    + rewrite bool_decide_false by exact Hst. reflexivity.
    + reflexivity.
Qed.

Lemma receive_loop_ignores_witness :
  receive_loop Server.dispatch Server.on_timeout "m1"
    [msg "m1" (display_data {["text/html" := "<b>x</b>"]}); msg "m1" (stream "s")]
    (Server.Acc [] [] [])
  = receive_loop Server.dispatch Server.on_timeout "m1"
      [msg "m1" (stream "s")] (Server.Acc [] [] []) /\
  receive_loop Script.dispatch Script.on_timeout "m1"
    [msg "m1" (display_data {["image/png" := "iVBORw0KGgo="]}); msg "m1" (stream "s")]
    (Script.Acc [] [])
  = receive_loop Script.dispatch Script.on_timeout "m1"
      [msg "m1" (stream "s")] (Script.Acc [] []).
Proof.
  destruct receive_loop_ignores as [H1 H2]. split.
  - apply H1; [vm_compute; discriminate|].
    right. right. eexists. split; [reflexivity|]. vm_compute. reflexivity.
  - apply H2; [vm_compute; discriminate|].
    right. right. eexists. reflexivity.
Defined.

(** ** The parts of a Result *)

Lemma join_lines_empty_iff (l : list string) :
  join_lines l = EmptyString <-> l = [] \/ l = [EmptyString].
Proof.
  unfold join_lines. split.
  - destruct l as [|x [|y l]]; cbn; [auto|intros ->; auto|].
    destruct x; cbn; discriminate.
  - intros [->| ->]; reflexivity.
Qed.

Lemma joined_text_empty_iff (l : list string) :
  (if is_nil l then EmptyString else join_lines l) = EmptyString <->
  l = [] \/ l = [EmptyString].
Proof.
  destruct l as [|x l]; cbn [is_nil]; [tauto|]. apply join_lines_empty_iff.
Qed.

Lemma if_nonempty_none_iff (s : string) : if_nonempty s = None <-> s = EmptyString.
Proof. destruct s; cbn; split; congruence. Qed.

Lemma is_empty_string_true_iff (s : string) :
  is_empty_string s = true <-> s = EmptyString.
Proof. destruct s; cbn; split; congruence. Qed.

(** X14.  The success line is among the parts of a Result exactly when nothing
    was gathered: no output, no error and, in [server.py], no image.  In
    [pykernel_mcp.py] images do not count (none is gathered), so code that
    only shows a figure is reported there with the success line. *)
Theorem success_line_iff :
  (forall m code x a m1,
      Server.receive code m = (Returned (x, a), m1) ->
      exists parts,
        fst (Server.execute_python code m) = Returned parts /\
        (TextContent Server.SUCCESS ∈ parts <->
         Server.outputs a = [] /\ Server.errors a = [] /\ Server.images a = [])) /\
  (forall m code x a m1,
      Script.receive code m = (Returned (x, a), m1) ->
      exists parts,
        fst (Script.execute_python code m) = Returned parts /\
        (TextContent Script.SUCCESS ∈ parts <->
         Script.outputs a = [] /\ Script.errors a = [])).
Proof.
  split.
  - intros m code x a m1 H.
    pose proof (ServerFacts.server_success_in_result code a m1) as Hs.
    rewrite (ServerFacts.server_execute_python_after _ _ _ _ _ H).
    rewrite ServerFacts.server_result_parts_eq in Hs |- *. cbn [fst] in Hs |- *.
    eexists. split; [reflexivity|]. split; [exact Hs|].
    intros (Ho & He & Hi). unfold Server.success_part. rewrite Ho, He, Hi. cbn.
    rewrite !elem_of_cons. do 2 right. left. reflexivity.
  - intros m code x a m1 H.
    pose proof (ScriptFacts.script_success_in_result code a m1) as Hs.
    rewrite (ScriptFacts.script_execute_python_after _ _ _ _ _ H).
    rewrite ScriptFacts.script_result_parts_eq in Hs |- *. cbn [fst] in Hs |- *.
    eexists. split; [reflexivity|]. split; [exact Hs|].
    intros (Ho & He). unfold Script.success_part. rewrite Ho, He. cbn.
    rewrite !elem_of_cons. do 2 right. left. reflexivity.
Qed.

Lemma success_line_iff_witness :
  (exists parts,
      fst (Server.execute_python "plt.plot(xs)" figure_machine) = Returned parts /\
      (TextContent Server.SUCCESS ∈ parts <->
       @nil string = [] /\ @nil string = [] /\ ["iVBORw0KGgo="] = [])) /\
  (exists parts,
      fst (Script.execute_python "plt.plot(xs)" figure_machine) = Returned parts /\
      (TextContent Script.SUCCESS ∈ parts <-> @nil string = [] /\ @nil string = [])).
Proof.
  destruct success_line_iff as [H1 H2]. split.
  - apply (H1 figure_machine "plt.plot(xs)" idle_break
              (Server.Acc [] [] ["iVBORw0KGgo="])
              (snd (Server.receive "plt.plot(xs)" figure_machine))).
    vm_compute. reflexivity.
  - apply (H2 figure_machine "plt.plot(xs)" idle_break
              (Script.Acc [] [])
              (snd (Script.receive "plt.plot(xs)" figure_machine))).
    vm_compute. reflexivity.
Defined.

(** X15.  The HTML page is the last part of every Result.  It is built from the
    joined texts, not from the lists: the output section is left out when
    the joined output is empty, that is when there is no output or the
    single output is the empty string, likewise the error section, and the
    page shows its success line exactly when both joined texts are empty.
    Images are not looked at for the success line: a Result of [server.py]
    with images and no text has them on the page together with the success
    line.  The page of [pykernel_mcp.py] never has images. *)
Theorem html_page_sections :
  (forall m code x a m1,
      Server.receive code m = (Returned (x, a), m1) ->
      exists parts h,
        fst (Server.execute_python code m) = Returned parts /\
        html_page parts = Some h /\
        ui_code h = code /\ ui_images h = Server.images a /\
        (ui_output h = None <->
         Server.outputs a = [] \/ Server.outputs a = [EmptyString]) /\
        (ui_errors h = None <->
         Server.errors a = [] \/ Server.errors a = [EmptyString]) /\
        (ui_success h = true <->
         (Server.outputs a = [] \/ Server.outputs a = [EmptyString]) /\
         (Server.errors a = [] \/ Server.errors a = [EmptyString]))) /\
  (forall m code x a m1,
      Script.receive code m = (Returned (x, a), m1) ->
      exists parts h,
        fst (Script.execute_python code m) = Returned parts /\
        html_page parts = Some h /\
        ui_code h = code /\ ui_images h = [] /\
        (ui_output h = None <->
         Script.outputs a = [] \/ Script.outputs a = [EmptyString]) /\
        (ui_errors h = None <->
         Script.errors a = [] \/ Script.errors a = [EmptyString]) /\
        (ui_success h = true <->
         (Script.outputs a = [] \/ Script.outputs a = [EmptyString]) /\
         (Script.errors a = [] \/ Script.errors a = [EmptyString]))).
Proof.
  split.
  - intros m code x a m1 H.
    rewrite (ServerFacts.server_execute_python_after _ _ _ _ _ H).
    rewrite ServerFacts.server_result_parts_eq. cbn [fst].
    eexists. eexists. split; [reflexivity|]. split.
    { unfold html_page. rewrite !app_assoc, last_snoc. reflexivity. }
    unfold Server.html_result. cbn [ui_code ui_images ui_output ui_errors ui_success].
    split; [reflexivity|]. split; [reflexivity|].
    rewrite !if_nonempty_none_iff, andb_true_iff, !is_empty_string_true_iff,
      !joined_text_empty_iff. tauto.
  - intros m code x a m1 H.
    rewrite (ScriptFacts.script_execute_python_after _ _ _ _ _ H).
    rewrite ScriptFacts.script_result_parts_eq. cbn [fst].
    eexists. eexists. split; [reflexivity|]. split.
    { unfold html_page. rewrite !app_assoc, last_snoc. reflexivity. }
    cbn [ui_code ui_images ui_output ui_errors ui_success].
    split; [reflexivity|]. split; [reflexivity|].
    rewrite !if_nonempty_none_iff, andb_true_iff, !is_empty_string_true_iff,
      !joined_text_empty_iff. tauto.
Qed.

Lemma html_page_sections_witness :
  exists parts h,
    fst (Server.execute_python "plt.plot(xs)" figure_machine) = Returned parts /\
    html_page parts = Some h /\
    ui_code h = "plt.plot(xs)" /\ ui_images h = ["iVBORw0KGgo="] /\
    (ui_output h = None <-> @nil string = [] \/ @nil string = [EmptyString]) /\
    (ui_errors h = None <-> @nil string = [] \/ @nil string = [EmptyString]) /\
    (ui_success h = true <->
     (@nil string = [] \/ @nil string = [EmptyString]) /\
     (@nil string = [] \/ @nil string = [EmptyString])).
Proof.
  apply (proj1 html_page_sections figure_machine "plt.plot(xs)" idle_break
               (Server.Acc [] [] ["iVBORw0KGgo="])
               (snd (Server.receive "plt.plot(xs)" figure_machine))).
  vm_compute. reflexivity.
Defined.

Lemma image_blobs_app ps qs : image_blobs (ps ++ qs) = image_blobs ps ++ image_blobs qs.
Proof. unfold image_blobs. apply omap_app. Qed.

Lemma image_blobs_resources us imgs : image_blobs (image_resources us imgs) = imgs.
Proof.
  revert us. induction imgs as [|i imgs IH]; intros us; [reflexivity|].
  cbn [image_resources]. unfold image_blobs in *. cbn. rewrite IH. reflexivity.
Qed.

(** X16.  The binary resources of a Result of [server.py] are the images of the
    execution, one resource each, in the order the display messages
    arrived, every one of media type "image/png" under an
    "image://pykernel/" address; no other part carries a blob.  A Result of
    [pykernel_mcp.py] has no binary resource. *)
Theorem result_images_in_arrival_order :
  (forall m code x a m1,
      Server.receive code m = (Returned (x, a), m1) ->
      exists parts,
        fst (Server.execute_python code m) = Returned parts /\
        image_blobs parts = Server.images a /\
        forall uri mime b,
          EmbeddedResource uri mime (Blob b) ∈ parts ->
          mime = "image/png" /\
          exists u, uri = "image://pykernel/" +:+ u +:+ ".png") /\
  (forall m code x a m1,
      Script.receive code m = (Returned (x, a), m1) ->
      exists parts,
        fst (Script.execute_python code m) = Returned parts /\
        image_blobs parts = []).
Proof.
  split.
  - intros m code x a m1 H.
    rewrite (ServerFacts.server_execute_python_after _ _ _ _ _ H).
    rewrite ServerFacts.server_result_parts_eq. cbn [fst].
    eexists. split; [reflexivity|]. split.
    + rewrite !image_blobs_app, image_blobs_resources.
      unfold Server.output_part, Server.error_part, Server.success_part.
      destruct (is_nil (Server.outputs a)), (is_nil (Server.errors a)),
        (is_nil (Server.images a)); cbn; rewrite ?app_nil_r; reflexivity.
    + intros uri mime b. rewrite !elem_of_app.
      assert (Himg : forall us imgs,
                 EmbeddedResource uri mime (Blob b) ∈ image_resources us imgs ->
                 mime = "image/png" /\
                 exists u, uri = "image://pykernel/" +:+ u +:+ ".png").
      { intros us imgs. revert us.
        induction imgs as [|i imgs IH]; intros us Hin; cbn in Hin.
        - exfalso. exact (not_elem_of_nil _ Hin).
        - apply elem_of_cons in Hin as [Heq|Hin]; [|exact (IH _ Hin)].
          injection Heq as -> -> _. split; [reflexivity|]. eexists. reflexivity. }
      intros [Hin|[Hin|[Hin|[Hin|[Hin|Hin]]]]].
      * apply elem_of_cons in Hin as [Hin|Hin]; [discriminate Hin|].
        apply list_elem_of_singleton in Hin. discriminate Hin.
      * exact (Himg _ _ Hin).
      * unfold Server.output_part in Hin. destruct (is_nil _);
          [exfalso; exact (not_elem_of_nil _ Hin)|].
        apply list_elem_of_singleton in Hin. discriminate Hin.
      * unfold Server.error_part in Hin. destruct (is_nil _);
          [exfalso; exact (not_elem_of_nil _ Hin)|].
        apply list_elem_of_singleton in Hin. discriminate Hin.
      * unfold Server.success_part in Hin. destruct (_ && _);
          [|exfalso; exact (not_elem_of_nil _ Hin)].
        apply list_elem_of_singleton in Hin. discriminate Hin.
      * apply list_elem_of_singleton in Hin. discriminate Hin.
  - intros m code x a m1 H.
    rewrite (ScriptFacts.script_execute_python_after _ _ _ _ _ H).
    rewrite ScriptFacts.script_result_parts_eq. cbn [fst].
    eexists. split; [reflexivity|].
    rewrite !image_blobs_app.
    unfold Script.output_part, Script.error_part, Script.success_part.
    destruct (is_nil (Script.outputs a)), (is_nil (Script.errors a)); reflexivity.
Qed.

Lemma result_images_in_arrival_order_witness :
  (exists parts,
      fst (Server.execute_python "plt.plot(xs)" plotting_machine) = Returned parts /\
      image_blobs parts = ["iVBORw0KGgo="] /\
      forall uri mime b,
        EmbeddedResource uri mime (Blob b) ∈ parts ->
        mime = "image/png" /\
        exists u, uri = "image://pykernel/" +:+ u +:+ ".png") /\
  (exists parts,
      fst (Script.execute_python "plt.plot(xs)" plotting_machine) = Returned parts /\
      image_blobs parts = []).
Proof.
  destruct result_images_in_arrival_order as [H1 H2]. split.
  - apply (H1 plotting_machine "plt.plot(xs)" idle_break
              (Server.Acc ["plotting"] [] ["iVBORw0KGgo="])
              (snd (Server.receive "plt.plot(xs)" plotting_machine))).
    vm_compute. reflexivity.
  - apply (H2 plotting_machine "plt.plot(xs)" idle_break
              (Script.Acc ["plotting"] [])
              (snd (Script.receive "plt.plot(xs)" plotting_machine))).
    vm_compute. reflexivity.
Defined.

(** ** Traffic of other requests *)

Lemma spec_lists_of_tagged msg_id ms :
  spec_text_output msg_id ms = spec_text_output msg_id (filter (tagged msg_id) ms) /\
  spec_error_list msg_id ms = spec_error_list msg_id (filter (tagged msg_id) ms) /\
  spec_artifacts msg_id ms = spec_artifacts msg_id (filter (tagged msg_id) ms).
Proof.
  unfold spec_text_output, spec_error_list, spec_artifacts.
  induction ms as [|msg0 ms (IH1 & IH2 & IH3)]; [auto|].
  rewrite filter_cons. cbn [flat_map].
  destruct (decide (tagged msg_id msg0)) as [Ht|Ht].
  - cbn [flat_map]. rewrite IH1, IH2, IH3. auto.
  - rewrite IH1, IH2, IH3.
    unfold spec_text_of, spec_errors_of, spec_artifacts_of.
    rewrite !bool_decide_false by exact Ht. auto.
Qed.

(** X17.  What a call gathers depends on the channel only through the messages
    tagged with its request: two channels that come to the idle marker of
    the request in time and carry the same tagged messages before it, in
    the same order, give the same lists, whatever else is on them (replies
    to other requests, untagged broadcasts, in any number and anywhere in
    between) and whatever the delays within the budget.  In both source
    files. *)
Theorem foreign_traffic_does_not_change_result
        (msg_id : string) (pre1 pre2 : list event) (d1 d2 : Z)
        (mi1 mi2 : message) (post1 post2 : list event) :
  Forall (passes msg_id) pre1 ->
  Forall (passes msg_id) pre2 ->
  d1 <= RECEIVE_TIMEOUT -> d2 <= RECEIVE_TIMEOUT ->
  idle_for msg_id mi1 -> idle_for msg_id mi2 ->
  filter (tagged msg_id) (arrived pre1) = filter (tagged msg_id) (arrived pre2) ->
  (forall a,
      fst (receive_loop Server.dispatch Server.on_timeout msg_id
             (pre1 ++ Event d1 (inl mi1) :: post1) a)
      = fst (receive_loop Server.dispatch Server.on_timeout msg_id
               (pre2 ++ Event d2 (inl mi2) :: post2) a)) /\
  (forall a,
      fst (receive_loop Script.dispatch Script.on_timeout msg_id
             (pre1 ++ Event d1 (inl mi1) :: post1) a)
      = fst (receive_loop Script.dispatch Script.on_timeout msg_id
               (pre2 ++ Event d2 (inl mi2) :: post2) a)).
Proof.
  intros H1 H2 Hd1 Hd2 Hi1 Hi2 Hf.
  destruct (spec_lists_of_tagged msg_id (arrived pre1)) as (A1 & A2 & A3).
  destruct (spec_lists_of_tagged msg_id (arrived pre2)) as (B1 & B2 & B3).
  rewrite Hf in A1, A2, A3. rewrite <- B1 in A1. rewrite <- B2 in A2.
  rewrite <- B3 in A3. split; intros a.
  - rewrite !(receive_loop_ends_idle _ _ ServerFacts.server_dispatch_break
                ServerFacts.server_dispatch_idle) by assumption.
    rewrite !ServerFacts.server_absorb_all_spec, A1, A2, A3. reflexivity.
  - rewrite !(receive_loop_ends_idle _ _ ScriptFacts.script_dispatch_break
                ScriptFacts.script_dispatch_idle) by assumption.
    rewrite !ScriptFacts.script_absorb_all_spec, A1, A2. reflexivity.
Qed.

Lemma foreign_traffic_does_not_change_result_witness :
  (forall a,
      fst (receive_loop Server.dispatch Server.on_timeout "m3"
             ([msg "m1" (stream "old"); msg "m3" (stream "mine");
               Event 20000 (inl (Message None (status "idle")))]
                ++ Event 10 (inl (Message (Some "m3") (status "idle"))) :: []) a)
      = fst (receive_loop Server.dispatch Server.on_timeout "m3"
               ([msg "m3" (stream "mine")]
                  ++ Event 500 (inl (Message (Some "m3") (status "idle"))) :: []) a)) /\
  (forall a,
      fst (receive_loop Script.dispatch Script.on_timeout "m3"
             ([msg "m1" (stream "old"); msg "m3" (stream "mine");
               Event 20000 (inl (Message None (status "idle")))]
                ++ Event 10 (inl (Message (Some "m3") (status "idle"))) :: []) a)
      = fst (receive_loop Script.dispatch Script.on_timeout "m3"
               ([msg "m3" (stream "mine")]
                  ++ Event 500 (inl (Message (Some "m3") (status "idle"))) :: []) a)).
Proof.
  apply (foreign_traffic_does_not_change_result "m3").
  - repeat constructor; try (vm_compute; discriminate);
      (eexists; split; [reflexivity|]; intros [H1 H2];
       first [discriminate H1 | discriminate H2]).
  - repeat constructor; try (vm_compute; discriminate);
      (eexists; split; [reflexivity|]; intros [H1 H2];
       first [discriminate H1 | discriminate H2]).
  - vm_compute; discriminate.
  - vm_compute; discriminate.
  - split; reflexivity.
  - split; reflexivity.
  - vm_compute. reflexivity.
Defined.

(** ** After a start that failed *)

(** X18.  After a spawn that failed, [ensure_started] does nothing any more, but
    [restart_kernel] does start a worker: it shuts the manager left in
    [state.km] down, clears [state.km] and [state.kc], and starts afresh.
    When that shutdown and the new start succeed, the session has a new
    manager and client and the identifier drawn by this start.  In both
    source files. *)
Theorem restart_recovers_after_failed_spawn (m : machine) (e : exn) :
  km (state m) = None ->
  hd None (start_kernel_results (env m)) = Some e ->
  hd None (tl (start_kernel_results (env m))) = None ->
  hd None (wait_for_ready_results (env m)) = None ->
  hd None (shutdown_kernel_results (env m)) = None ->
  let k := next_object (env m) in
  let u := hd EmptyString (uuid4_values (env m)) in
  (exists m1 m2,
      Server.ensure_started m = (Raised e, m1) /\
      Server.ensure_started m1 = (Returned tt, m1) /\
      Server.restart_kernel m1 = (Returned ("Kernel restarted. New ID: " +:+ u), m2) /\
      km (state m2) = Some (S k) /\ kc (state m2) = Some (S (S k)) /\
      kernel_id (state m2) = u /\
      exists more,
        calls (env m2) =
          calls (env m) ++ AsyncKernelManager_new k :: start_kernel_call k
                        :: shutdown_kernel_call k :: AsyncKernelManager_new (S k)
                        :: start_kernel_call (S k) :: more) /\
  (exists m1 m2,
      Script.ensure_started m = (Raised e, m1) /\
      Script.ensure_started m1 = (Returned tt, m1) /\
      Script.restart_kernel m1 = (Returned ("Kernel restarted. New ID: " +:+ u), m2) /\
      km (state m2) = Some (S k) /\ kc (state m2) = Some (S (S k)) /\
      kernel_id (state m2) = u /\
      exists more,
        calls (env m2) =
          calls (env m) ++ AsyncKernelManager_new k :: start_kernel_call k
                        :: shutdown_kernel_call k :: AsyncKernelManager_new (S k)
                        :: start_kernel_call (S k) :: more).
Proof.
  destruct m as [s w]. cbn [state env]. intros Hk He Hs Hr Hd. split.
  - unfold Server.restart_kernel, Server.ensure_started. run_py.
    rewrite Hk. cbn. rewrite He. cbn.
    eexists. eexists. split; [reflexivity|]. cbn. split; [reflexivity|].
    rewrite Hd. cbn. rewrite Hs. cbn. rewrite Hr. cbn.
    split; [reflexivity|]. cbn. repeat (split; [reflexivity|]).
    eexists. rewrite <- !app_assoc. cbn. reflexivity.
  - unfold Script.restart_kernel, Script.ensure_started. run_py.
    rewrite Hk. cbn. rewrite He. cbn.
    eexists. eexists. split; [reflexivity|]. cbn. split; [reflexivity|].
    rewrite Hd. cbn. rewrite Hs. cbn. rewrite Hr. cbn.
    split; [reflexivity|]. cbn. repeat (split; [reflexivity|]).
    eexists. rewrite <- !app_assoc. cbn. reflexivity.
Qed.

Lemma restart_recovers_after_failed_spawn_witness :
  exists m1 m2,
    Server.ensure_started (Machine fresh_state no_kernel_world)
      = (Raised (RuntimeError "kernel died"), m1) /\
    Server.ensure_started m1 = (Returned tt, m1) /\
    Server.restart_kernel m1 = (Returned ("Kernel restarted. New ID: " +:+ "uuid-a"), m2) /\
    km (state m2) = Some 1%nat /\ kc (state m2) = Some 2%nat /\
    kernel_id (state m2) = "uuid-a" /\
    exists more,
      calls (env m2) =
        [] ++ AsyncKernelManager_new 0 :: start_kernel_call 0
           :: shutdown_kernel_call 0 :: AsyncKernelManager_new 1
           :: start_kernel_call 1 :: more.
Proof.
  apply (proj1 (restart_recovers_after_failed_spawn
                  (Machine fresh_state no_kernel_world) (RuntimeError "kernel died")
                  eq_refl eq_refl eq_refl eq_refl eq_refl)).
Defined.
